(** * homebanking: the token cache and the balance selector of [app.py]

    A shallow embedding of [src/app.py].  The script reads a bank balance
    from the GoCardless Bank Account Data API and writes it to a Google
    Sheets range.  Pure Python code becomes Rocq functions; code that can
    raise returns a [result]; code that touches the file system, the clock,
    the network or the spreadsheet runs in the monad [M] over a [World],
    which keeps the state reached when an exception is raised, as Python
    does.

    Conventions.
    - A Python [str] is a [string] whose characters are the code points
      below 256.
    - A value produced by [json.loads] is a [json]; objects are finite maps
      from keys to values.
    - The text of a file or of an HTTP body is kept up to what [json.loads]
      makes of it, see [text]. *)

From Stdlib Require Import ZArith QArith Ascii.
From stdpp Require Import gmap strings list fin_maps.

#[local] Set Warnings "-register-all".
#[local] Open Scope Z_scope.

(** ** Python strings *)

Module PyStr.

Definition code (c : ascii) : N := Ascii.N_of_ascii c.

(** [str.isspace] on one character, for code points below 256:
    TAB..CR, FS..US, SPACE, NEL and NBSP. *)
Definition is_space (c : ascii) : bool :=
  let n := code c in
  ((9 <=? n) && (n <=? 13) || (28 <=? n) && (n <=? 32)
   || (n =? 133) || (n =? 160))%N.

Definition is_digit (c : ascii) : bool :=
  let n := code c in ((48 <=? n) && (n <=? 57))%N.

Definition digit_val (c : ascii) : Z := Z.of_N (code c) - 48.

(** [str.lower] on one character: A..Z and the Latin-1 capitals
    U+00C0..U+00DE (but not the multiplication sign U+00D7). *)
Definition lower_char (c : ascii) : ascii :=
  let n := code c in
  if ((65 <=? n) && (n <=? 90)
      || (192 <=? n) && (n <=? 222) && negb (n =? 215))%N
  then Ascii.ascii_of_N (n + 32) else c.

Fixpoint lower (s : string) : string :=
  match s with
  | EmptyString => EmptyString
  | String c r => String (lower_char c) (lower r)
  end.

Fixpoint lstrip (s : string) : string :=
  match s with
  | EmptyString => EmptyString
  | String c r => if is_space c then lstrip r else s
  end.

Fixpoint rstrip (s : string) : string :=
  match s with
  | EmptyString => EmptyString
  | String c r =>
      match rstrip r with
      | EmptyString => if is_space c then EmptyString else String c EmptyString
      | r' => String c r'
      end
  end.

(** [s.strip()] *)
Definition strip (s : string) : string := rstrip (lstrip s).

(** [s.split(sep)] for a one-character separator: never the empty list,
    [''.split(',')] is [['']]. *)
Fixpoint split (sep : ascii) (s : string) : list string :=
  match s with
  | EmptyString => [EmptyString]
  | String c r =>
      if Ascii.eqb c sep then EmptyString :: split sep r
      else match split sep r with
           | x :: xs => String c x :: xs
           | [] => [String c EmptyString]
           end
  end.

(** [s.replace(c, '')] *)
Fixpoint remove_char (x : ascii) (s : string) : string :=
  match s with
  | EmptyString => EmptyString
  | String c r =>
      if Ascii.eqb c x then remove_char x r else String c (remove_char x r)
  end.

Fixpoint all_digits (s : string) : bool :=
  match s with
  | EmptyString => true
  | String c r => is_digit c && all_digits r
  end.

(** Longest prefix of decimal digits, and what follows it. *)
Fixpoint span_digits (s : string) : string * string :=
  match s with
  | String c r =>
      if is_digit c
      then let '(d, rest) := span_digits r in (String c d, rest)
      else (EmptyString, s)
  | EmptyString => (EmptyString, EmptyString)
  end.

(** Value of a string of decimal digits, most significant first. *)
Fixpoint digits_value_from (acc : Z) (s : string) : Z :=
  match s with
  | EmptyString => acc
  | String c r => digits_value_from (10 * acc + digit_val c) r
  end.

Definition digits_value (s : string) : Z := digits_value_from 0 s.

(** [str(int(s))] for a string of digits: leading zeros go, one digit
    stays. *)
Fixpoint strip_zeros (s : string) : string :=
  match s with
  | String c (String _ _ as r) => if Ascii.eqb c "0" then strip_zeros r else s
  | _ => s
  end.

Fixpoint zeros (n : nat) : string :=
  match n with
  | O => EmptyString
  | S k => String "0" (zeros k)
  end.

Definition digit_char (d : Z) : ascii := Ascii.ascii_of_N (Z.to_N (48 + d)).

(** Decimal digits of a natural number, with fuel: [str(n)] for
    [0 <= n]. *)
Fixpoint digits_of_fuel (fuel : nat) (n : Z) (acc : string) : string :=
  match fuel with
  | O => acc
  | S k =>
      let acc' := String (digit_char (n mod 10)) acc in
      if n / 10 =? 0 then acc' else digits_of_fuel k (n / 10) acc'
  end.

Definition digits_of (n : Z) : string :=
  digits_of_fuel (S (Z.to_nat (Z.log2 n))) n EmptyString.

(** [str(n)] for an [int]. *)
Definition str_of_int (n : Z) : string :=
  if n <? 0 then String "-" (digits_of (- n)) else digits_of n.

(** ["%+d" % n] *)
Definition signed_of_int (n : Z) : string :=
  if n <? 0 then String "-" (digits_of (- n)) else String "+" (digits_of n).

Definition non_empty (s : string) : bool :=
  match s with EmptyString => false | _ => true end.

(** An optional sign in front: whether it is a minus, and the rest. *)
Definition split_sign (s : string) : bool * string :=
  match s with
  | String c r =>
      if Ascii.eqb c "-" then (true, r)
      else if Ascii.eqb c "+" then (false, r)
      else (false, s)
  | EmptyString => (false, s)
  end.

(** [s[:n]] and [s[n:]] *)
Fixpoint take (n : nat) (s : string) : string :=
  match n, s with
  | S k, String c r => String c (take k r)
  | _, _ => EmptyString
  end.

Fixpoint drop (n : nat) (s : string) : string :=
  match n, s with
  | S k, String _ r => drop k r
  | _, _ => s
  end.

End PyStr.

(** ** Values of [json.loads] *)

(** A finite [float] is kept as the dyadic number it is,
    [(-1)^neg * man * 2^exp]; the sign is apart so that [-0.0] exists. *)
Record dyadic := Dyadic { d_neg : bool; d_man : N; d_exp : Z }.

Inductive pyfloat :=
| FNaN
| FInf (neg : bool)
| FFin (d : dyadic).

Inductive json :=
| JNull
| JBool (b : bool)
| JInt (n : Z)
| JFloat (f : pyfloat)
| JStr (s : string)
| JList (l : list json)
| JDict (d : gmap string json).

(** A path, by its components from the root. *)
Definition path := list string.

(** The exceptions the script can end with.  The [RuntimeError]s it raises
    itself carry what their message is formatted from. *)
Inductive runtime_error :=
| SecretsDirMissing (dir : path)
| ExpectedOneJson (dir : path) (found : list string)
| SecretsNotFound (file : path)
| NoBalances
| MissingEnv (name : string).

Inductive exn :=
| RuntimeError (e : runtime_error)
| AttributeError
| TypeError
| KeyError (k : string)
| IndexError
| ValueError
| OverflowError
| JSONDecodeError
| InvalidOperation
| HTTPError (status : Z)
| ConnectionError
| CredentialsError
| SheetsHttpError
| FileNotFoundError
| FileExistsError
| NotADirectoryError
| IsADirectoryError.

Inductive result (A : Type) :=
| Ok (a : A)
| Raise (e : exn).
Arguments Ok {A} a.
Arguments Raise {A} e.

#[global] Instance result_ret : MRet result := @Ok.
#[global] Instance result_bind : MBind result := fun A B f r =>
  match r with
  | Ok a => f a
  | Raise e => Raise e
  end.

Definition is_ok {A} (r : result A) : bool :=
  match r with Ok _ => true | Raise _ => false end.

(** ** Python builtins on JSON values *)

Module Py.

Definition dyadic_is_zero (d : dyadic) : bool := (d_man d =? 0)%N.

(** Numerator and denominator of a finite float; the denominator is a
    power of two. *)
Definition dyadic_num (d : dyadic) : Z :=
  let m := Z.of_N (d_man d) * 2 ^ Z.max (d_exp d) 0 in
  if d_neg d then - m else m.
Definition dyadic_den (d : dyadic) : Z := 2 ^ Z.max (- d_exp d) 0.

(** [f < n] for a finite float and an [int]: Python compares the exact
    values. *)
Definition dyadic_lt_int (d : dyadic) (n : Z) : bool :=
  dyadic_num d <? n * dyadic_den d.

(** [int(f)] for a finite float: towards zero. *)
Definition dyadic_trunc (d : dyadic) : Z :=
  Z.quot (dyadic_num d) (dyadic_den d).

(** [bool(x)] *)
Definition truthy (j : json) : bool :=
  match j with
  | JNull => false
  | JBool b => b
  | JInt n => negb (n =? 0)
  | JFloat (FFin d) => negb (dyadic_is_zero d)
  | JFloat _ => true
  | JStr s => PyStr.non_empty s
  | JList l => match l with [] => false | _ => true end
  | JDict d => match map_to_list d with [] => false | _ => true end
  end.

(** [x or y] *)
Definition or_ (x y : json) : json := if truthy x then x else y.

(** [d.get(k, default)]: only a [dict] has the method. *)
Definition get_default (j : json) (k : string) (dflt : json) : result json :=
  match j with
  | JDict d => Ok (default dflt (d !! k))
  | _ => Raise AttributeError
  end.

(** [d.get(k)] *)
Definition get (j : json) (k : string) : result json := get_default j k JNull.

(** [x[k]] for a [str] key [k]: a [dict] looks it up, a list or a string
    wants an integer index, the other values have no subscript. *)
Definition getitem (j : json) (k : string) : result json :=
  match j with
  | JDict d => match d !! k with Some v => Ok v | None => Raise (KeyError k) end
  | _ => Raise TypeError
  end.

(** The digits of an [int] literal: groups of digits with single
    underscores between them. *)
Fixpoint int_digits (after_digit : bool) (s : string) : option string :=
  match s with
  | EmptyString => if after_digit then Some EmptyString else None
  | String c r =>
      if PyStr.is_digit c then String c <$> int_digits true r
      else if Ascii.eqb c "_" && after_digit then
        match r with
        | String c' _ => if PyStr.is_digit c' then int_digits false r else None
        | EmptyString => None
        end
      else None
  end.

(** [int(s)] for a [str]: surrounding white space, an optional sign, then
    the digits. *)
Definition int_of_str (s : string) : result Z :=
  let '(neg, r) := PyStr.split_sign (PyStr.strip s) in
  match int_digits false r with
  | Some ds =>
      Ok (if neg then - PyStr.digits_value ds else PyStr.digits_value ds)
  | None => Raise ValueError
  end.

(** [int(x)] *)
Definition int (j : json) : result Z :=
  match j with
  | JInt n => Ok n
  | JBool b => Ok (if b then 1 else 0)
  | JFloat FNaN => Raise ValueError
  | JFloat (FInf _) => Raise OverflowError
  | JFloat (FFin d) => Ok (dyadic_trunc d)
  | JStr s => int_of_str s
  | JNull | JList _ | JDict _ => Raise TypeError
  end.

End Py.

(** ** [decimal.Decimal] *)

Module Decimal.

(** A finite [Decimal] is its sign, its coefficient as a string of digits
    ([_int], without leading zeros) and its exponent ([_exp]): the number
    [(-1)^sign * _int * 10^_exp]. *)
Inductive t :=
| Finite (sign : bool) (int_ : string) (exp : Z)
| Infinity (sign : bool)
| NaN (sign : bool) (signaling : bool) (diag : string).

Fixpoint lstrip_zeros (s : string) : string :=
  match s with
  | String c r => if Ascii.eqb c "0" then lstrip_zeros r else s
  | EmptyString => s
  end.

(** The lookahead of the number pattern: a digit, or a dot and a digit. *)
Definition starts_number (r : string) : bool :=
  match r with
  | String c r' =>
      PyStr.is_digit c
      || Ascii.eqb c "." && match r' with
                            | String c' _ => PyStr.is_digit c'
                            | EmptyString => false
                            end
  | EmptyString => false
  end.

(** The exponent part after the [E]: an optional sign and at least one
    digit, up to the end. *)
Definition parse_exponent (r : string) : option Z :=
  let '(neg, ds) := PyStr.split_sign r in
  if PyStr.non_empty ds && PyStr.all_digits ds
  then Some (if neg then - PyStr.digits_value ds else PyStr.digits_value ds)
  else None.

(** The finite alternative of the pattern: digits, an optional dot and
    digits, an optional exponent. *)
Definition parse_finite (sign : bool) (r : string) : option t :=
  if starts_number r then
    let '(intpart, r1) := PyStr.span_digits r in
    let '(fracpart, r2) :=
      match r1 with
      | String c r1' =>
          if Ascii.eqb c "." then PyStr.span_digits r1'
          else (EmptyString, r1)
      | EmptyString => (EmptyString, r1)
      end in
    let finite exp :=
      Finite sign (PyStr.strip_zeros (intpart +:+ fracpart))
             (exp - Z.of_nat (String.length fracpart)) in
    match r2 with
    | EmptyString => Some (finite 0)
    | String c r3 =>
        if Ascii.eqb (PyStr.lower_char c) "e"
        then finite <$> parse_exponent r3
        else None
    end
  else None.

Definition parse_special (sign : bool) (r : string) : option t :=
  let l := PyStr.lower r in
  if String.eqb l "inf" || String.eqb l "infinity" then Some (Infinity sign)
  else
    let nan signaling diag :=
      if PyStr.all_digits diag
      then Some (NaN sign signaling (lstrip_zeros diag)) else None in
    if String.eqb (PyStr.take 3 l) "nan" then nan false (PyStr.drop 3 l)
    else if String.eqb (PyStr.take 4 l) "snan" then nan true (PyStr.drop 4 l)
    else None.

(** [Decimal(s)] for a [str]: white space around it and underscores go,
    then the sign and one of the alternatives of the pattern. *)
Definition of_str (s : string) : result t :=
  let '(sign, r) :=
    PyStr.split_sign (PyStr.remove_char "_" (PyStr.strip s)) in
  match parse_finite sign r with
  | Some d => Ok d
  | None =>
      match parse_special sign r with
      | Some d => Ok d
      | None => Raise InvalidOperation
      end
  end.

(** [Decimal.from_float] on a finite float: the ratio [n/d] in lowest
    terms, [d = 2^k], becomes [n * 5^k * 10^-k]. *)
Definition of_dyadic (f : dyadic) : t :=
  let n0 := Z.abs (Py.dyadic_num f) in
  let d0 := Py.dyadic_den f in
  let g := Z.gcd n0 d0 in
  let k := Z.log2 (d0 / g) in
  Finite (d_neg f) (PyStr.digits_of (n0 / g * 5 ^ k)) (- k).

(** [Decimal(x)] *)
Definition of_json (j : json) : result t :=
  match j with
  | JStr s => of_str s
  | JInt n => Ok (Finite (n <? 0) (PyStr.digits_of (Z.abs n)) 0)
  | JBool b => Ok (Finite false (if b then "1" else "0") 0)
  | JFloat FNaN => Ok (NaN false false EmptyString)
  | JFloat (FInf neg) => Ok (Infinity neg)
  | JFloat (FFin f) => Ok (of_dyadic f)
  | JNull | JList _ | JDict _ => Raise TypeError
  end.

(** [str(d)] *)
Definition to_str (d : t) : string :=
  match d with
  | Infinity sign => (if sign then "-" else "") +:+ "Infinity"
  | NaN sign signaling diag =>
      (if sign then "-" else "") +:+ (if signaling then "sNaN" else "NaN")
      +:+ diag
  | Finite sign int_ exp =>
      let len := Z.of_nat (String.length int_) in
      let leftdigits := exp + len in
      let dotplace :=
        if (exp <=? 0) && (-6 <? leftdigits) then leftdigits else 1 in
      let '(intpart, fracpart) :=
        if dotplace <=? 0 then
          ("0", "." +:+ PyStr.zeros (Z.to_nat (- dotplace)) +:+ int_)
        else if len <=? dotplace then
          (int_ +:+ PyStr.zeros (Z.to_nat (dotplace - len)), "")
        else
          (PyStr.take (Z.to_nat dotplace) int_,
           "." +:+ PyStr.drop (Z.to_nat dotplace) int_) in
      let e :=
        if leftdigits =? dotplace then ""
        else "E" +:+ PyStr.signed_of_int (leftdigits - dotplace) in
      (if sign then "-" else "") +:+ intpart +:+ fracpart +:+ e
  end.

(** The rational number a finite [Decimal] stands for. *)
Definition value (d : t) : option Q :=
  match d with
  | Finite sign int_ exp =>
      let c := PyStr.digits_value int_ in
      let c := if sign then - c else c in
      Some (if 0 <=? exp then inject_Z (c * 10 ^ exp)
            else Qmake c (Z.to_pos (10 ^ (- exp))))
  | _ => None
  end.

End Decimal.

(** ** The balance selector: [choose_balance] *)

Definition DEFAULT_BALANCE_TYPE_PREFERENCE : string :=
  "closingBooked,closingAvailable,interimBooked,interimAvailable,expected".

(** [os.environ.get("BALANCE_TYPE_PREFERENCE") or "closingBooked,..."] *)
Definition preference_setting (environ : gmap string string) : string :=
  match environ !! "BALANCE_TYPE_PREFERENCE" with
  | Some v => if PyStr.non_empty v then v else DEFAULT_BALANCE_TYPE_PREFERENCE
  | None => DEFAULT_BALANCE_TYPE_PREFERENCE
  end.

(** Lines 120-122: the setting split at the commas, then
    [[p.strip() for p in preferred if p.strip()]]. *)
Definition preferred_types (environ : gmap string string) : list string :=
  let preferred := PyStr.split "," (preference_setting environ) in
  map PyStr.strip
      (List.filter (fun p => PyStr.non_empty (PyStr.strip p)) preferred).

(** What [for b in balances] goes through: the elements of a list, the
    characters of a string, the keys of a dict; a number cannot be
    iterated. *)
Fixpoint chars (s : string) : list json :=
  match s with
  | EmptyString => []
  | String c r => JStr (String c EmptyString) :: chars r
  end.

Definition iterate (j : json) : result (list json) :=
  match j with
  | JList l => Ok l
  | JStr s => Ok (chars s)
  | JDict d => Ok (JStr <$> (map_to_list d).*1)
  | JNull | JBool _ | JInt _ | JFloat _ => Raise TypeError
  end.

(** Line 124: [{b.get("balanceType"): b for b in balances if
    b.get("balanceType")}], one record after the other.  A record that is
    not a dict has no [get]; a list or a dict is no dict key.  The index is
    only ever asked for [str] keys (line 127), and in Python a [str] equals
    no number and no boolean: the entries under such keys are left out. *)
Fixpoint by_type_from (acc : gmap string json) (balances : list json)
  : result (gmap string json) :=
  match balances with
  | [] => Ok acc
  | b :: rest =>
      t ← Py.get b "balanceType";
      if Py.truthy t then
        match t with
        | JStr s => by_type_from (<[s := b]> acc) rest
        | JList _ | JDict _ => Raise TypeError
        | JNull | JBool _ | JInt _ | JFloat _ => by_type_from acc rest
        end
      else by_type_from acc rest
  end.

Definition by_type_of (balances : list json) : result (gmap string json) :=
  by_type_from ∅ balances.

(** Lines 125-129: the first preferred type that is in the index. *)
Fixpoint first_preferred (preferred : list string) (by_type : gmap string json)
  : option json :=
  match preferred with
  | [] => None
  | t :: rest =>
      match by_type !! t with
      | Some b => Some b
      | None => first_preferred rest by_type
      end
  end.

(** [balances[0]] *)
Definition first_item (balances : json) : result json :=
  match balances with
  | JList (b :: _) => Ok b
  | JList [] => Raise IndexError
  | JStr (String c _) => Ok (JStr (String c EmptyString))
  | JStr EmptyString => Raise IndexError
  | JDict _ => Raise (KeyError "0")
  | JNull | JBool _ | JInt _ | JFloat _ => Raise TypeError
  end.

(** Lines 116-131 of [choose_balance]: the record it settles on. *)
Definition choose_record (environ : gmap string string) (balances_json : json)
  : result json :=
  balances ← Py.get_default balances_json "balances" (JList []);
  if negb (Py.truthy balances) then Raise (RuntimeError NoBalances)
  else
    let preferred := preferred_types environ in
    records ← iterate balances;
    by_type ← by_type_of records;
    match first_preferred preferred by_type with
    | Some chosen => Ok chosen
    | None => first_item balances
    end.

(** Lines 133-137 of [choose_balance]: what is read from the record. *)
Definition balance_fields (chosen : json)
  : result (Decimal.t * json * json * json) :=
  balanceAmount ← Py.getitem chosen "balanceAmount";
  amount ← Py.getitem balanceAmount "amount";
  amt ← Decimal.of_json amount;
  balanceAmount' ← Py.getitem chosen "balanceAmount";
  cur ← Py.getitem balanceAmount' "currency";
  btype ← Py.get_default chosen "balanceType" (JStr "");
  referenceDate ← Py.get chosen "referenceDate";
  ref ← (if Py.truthy referenceDate then Ok referenceDate
         else lastChange ← Py.get chosen "lastChangeDateTime";
              Ok (Py.or_ lastChange (JStr "")));
  Ok (amt, cur, btype, ref).

Definition choose_balance (environ : gmap string string) (balances_json : json)
  : result (Decimal.t * json * json * json) :=
  chosen ← choose_record environ balances_json;
  balance_fields chosen.

(** ** The world the script runs in *)

(** The text of a file or of an HTTP body, up to [json.loads]: either a
    JSON document, kept as the value [json.loads] gives for it, or a text
    that [json.loads] rejects.  [json.dumps] of a value that came out of
    [json.loads] is a document that loads back to it. *)
Inductive text :=
| JsonText (j : json)
| NotJson (raw : string).

Inductive node :=
| Dir
| File (content : text).

Inductive http_method := GET | POST.

(** A request of the script: the method, the URL, the token of the
    [Authorization: Bearer] header and the [json=] payload. *)
Record http_request := HttpRequest {
  rq_method : http_method;
  rq_url : string;
  rq_bearer : option json;
  rq_json : option json
}.

Inductive http_reply :=
| NoReply
| Reply (status : Z) (body : text).

(** One [spreadsheets().values().update(...).execute()]. *)
Record sheet_update := SheetUpdate {
  su_spreadsheet : string;
  su_range : string;
  su_values : list (list json)
}.

Inductive sheets_reply :=
| BadCredentials
| UpdateRejected
| Updated.

(** What [cmd_run] prints. *)
Inductive output :=
| Wrote (amt : Decimal.t) (cur btype : json) (a1_range : string).

(** The constants of lines 16-19, read from the environment when the
    module is loaded. *)
Record Config := {
  GCBAD_SECRETS_DIR : path;
  GSHEETS_SECRETS_DIR : path;
  DATA_DIR : path
}.

Definition TOKEN_CACHE_PATH (cfg : Config) : path :=
  DATA_DIR cfg ++ ["gcbad_token_cache.json"].

(** The state of a run.  [fs] maps the path of every file and directory
    below the root to its node.  [clock n] is what the [n]-th call of
    [time.time()] returns.  [server] tells the reply to a request from the
    requests sent before it; [requests] is the log of the requests sent,
    the last one last.  [sheets] tells the outcome of a spreadsheet update
    made with a credentials file; [sheet_writes] is the log of the updates
    that went through. *)
Record World := {
  environ : gmap string string;
  fs : gmap path node;
  clock : nat -> dyadic;
  ticks : nat;
  server : list http_request -> http_request -> http_reply;
  requests : list http_request;
  sheets : text -> sheet_update -> sheets_reply;
  sheet_writes : list sheet_update;
  stdout : list output
}.

Definition set_fs (f : gmap path node) (w : World) : World :=
  {| environ := environ w; fs := f; clock := clock w; ticks := ticks w;
     server := server w; requests := requests w; sheets := sheets w;
     sheet_writes := sheet_writes w; stdout := stdout w |}.

Definition set_ticks (n : nat) (w : World) : World :=
  {| environ := environ w; fs := fs w; clock := clock w; ticks := n;
     server := server w; requests := requests w; sheets := sheets w;
     sheet_writes := sheet_writes w; stdout := stdout w |}.

Definition set_requests (l : list http_request) (w : World) : World :=
  {| environ := environ w; fs := fs w; clock := clock w; ticks := ticks w;
     server := server w; requests := l; sheets := sheets w;
     sheet_writes := sheet_writes w; stdout := stdout w |}.

Definition set_sheet_writes (l : list sheet_update) (w : World) : World :=
  {| environ := environ w; fs := fs w; clock := clock w; ticks := ticks w;
     server := server w; requests := requests w; sheets := sheets w;
     sheet_writes := l; stdout := stdout w |}.

Definition set_stdout (l : list output) (w : World) : World :=
  {| environ := environ w; fs := fs w; clock := clock w; ticks := ticks w;
     server := server w; requests := requests w; sheets := sheets w;
     sheet_writes := sheet_writes w; stdout := l |}.

(** A computation returns or raises, and leaves a world either way. *)
Definition M (A : Type) : Type := World -> result A * World.

#[global] Instance M_ret : MRet M := fun A a w => (Ok a, w).
#[global] Instance M_bind : MBind M := fun A B f m w =>
  match m w with
  | (Ok a, w') => f a w'
  | (Raise e, w') => (Raise e, w')
  end.

Definition raise {A} (e : exn) : M A := fun w => (Raise e, w).
Definition lift {A} (r : result A) : M A := fun w => (r, w).
Definition gets {A} (f : World -> A) : M A := fun w => (Ok (f w), w).
Definition modify (f : World -> World) : M unit := fun w => (Ok tt, f w).

(** ** The file system *)

(** [os.stat]: the path is walked from the root; a missing component is
    [ENOENT], a file in the place of a directory is [ENOTDIR]. *)
Fixpoint stat_from (f : gmap path node) (here : path) (n : node)
  (todo : list string) : result node :=
  match todo with
  | [] => Ok n
  | name :: rest =>
      match n with
      | File _ => Raise NotADirectoryError
      | Dir =>
          match f !! (here ++ [name]) with
          | None => Raise FileNotFoundError
          | Some n' => stat_from f (here ++ [name]) n' rest
          end
      end
  end.

Definition stat (f : gmap path node) (p : path) : result node :=
  stat_from f [] Dir p.

(** [Path.exists] and [Path.is_dir]: an error of [os.stat] is a no. *)
Definition path_exists (p : path) : M bool :=
  gets (fun w => is_ok (stat (fs w) p)).

Definition is_dir (f : gmap path node) (p : path) : bool :=
  match stat f p with Ok Dir => true | _ => false end.

(** [os.mkdir] *)
Definition os_mkdir (p : path) : M unit := fun w =>
  match stat (fs w) p with
  | Ok _ => (Raise FileExistsError, w)
  | Raise FileNotFoundError =>
      match stat (fs w) (removelast p) with
      | Ok Dir => (Ok tt, set_fs (<[p := Dir]> (fs w)) w)
      | _ => (Raise FileNotFoundError, w)
      end
  | Raise e => (Raise e, w)
  end.

(** [Path.mkdir(parents=False, exist_ok=True)] *)
Definition mkdir_exist_ok (p : path) : M unit := fun w =>
  match os_mkdir p w with
  | (Ok tt, w') => (Ok tt, w')
  | (Raise FileNotFoundError, w') => (Raise FileNotFoundError, w')
  | (Raise e, w') => if is_dir (fs w') p then (Ok tt, w') else (Raise e, w')
  end.

(** [Path.mkdir(parents=True, exist_ok=True)], on the path read from its
    last component up: when the parent is missing it is made first, then
    the directory itself. *)
Fixpoint mkdir_parents_rev (rp : list string) : M unit := fun w =>
  match os_mkdir (rev rp) w with
  | (Ok tt, w') => (Ok tt, w')
  | (Raise FileNotFoundError, w') =>
      match rp with
      | [] => (Raise FileNotFoundError, w')
      | _ :: rparent =>
          (mkdir_parents_rev rparent ;; mkdir_exist_ok (rev rp)) w'
      end
  | (Raise e, w') => if is_dir (fs w') (rev rp) then (Ok tt, w') else (Raise e, w')
  end.

Definition mkdir_parents (p : path) : M unit := mkdir_parents_rev (rev p).

(** [Path.read_text] *)
Definition read_text (p : path) : M text := fun w =>
  match stat (fs w) p with
  | Ok (File c) => (Ok c, w)
  | Ok Dir => (Raise IsADirectoryError, w)
  | Raise e => (Raise e, w)
  end.

(** [Path.write_text]: the file is made or overwritten; its directory has
    to be there. *)
Definition write_text (p : path) (c : text) : M unit := fun w =>
  match stat (fs w) p with
  | Ok Dir => (Raise IsADirectoryError, w)
  | Ok (File _) => (Ok tt, set_fs (<[p := File c]> (fs w)) w)
  | Raise FileNotFoundError =>
      match stat (fs w) (removelast p) with
      | Ok Dir => (Ok tt, set_fs (<[p := File c]> (fs w)) w)
      | _ => (Raise FileNotFoundError, w)
      end
  | Raise e => (Raise e, w)
  end.

(** The entries of a directory: the nodes whose path is the directory's
    with one more component. *)
Fixpoint child_name (d p : path) : option string :=
  match d, p with
  | [], [name] => Some name
  | x :: d', y :: p' => if String.eqb x y then child_name d' p' else None
  | _, _ => None
  end.

Definition entries (f : gmap path node) (d : path) : list (string * node) :=
  omap (fun '(p, n) => (fun name => (name, n)) <$> child_name d p)
       (map_to_list f).

(** [Path.iterdir] *)
Definition iterdir (d : path) : M (list (string * node)) := fun w =>
  match stat (fs w) d with
  | Ok Dir => (Ok (entries (fs w) d), w)
  | Ok (File _) => (Raise NotADirectoryError, w)
  | Raise e => (Raise e, w)
  end.

(** [PurePath.suffix]: from the last dot of the name on, unless that dot
    is the first or the last character (Python up to 3.12). *)
Fixpoint rfind_dot (s : string) : option nat :=
  match s with
  | EmptyString => None
  | String c r =>
      match rfind_dot r with
      | Some i => Some (S i)
      | None => if Ascii.eqb c "." then Some O else None
      end
  end.

Definition suffix (name : string) : string :=
  match rfind_dot name with
  | Some i =>
      if (0 <? i)%nat && (i <? String.length name - 1)%nat
      then PyStr.drop i name else EmptyString
  | None => EmptyString
  end.

(** [sorted] on the names of the entries of one directory. *)
Fixpoint insert_sorted (x : string) (l : list string) : list string :=
  match l with
  | [] => [x]
  | y :: r => if String.leb x y then x :: l else y :: insert_sorted x r
  end.

Definition sorted (l : list string) : list string :=
  foldr insert_sorted [] l.

(** [p.is_file()] on an entry of a directory. *)
Definition node_is_file (n : node) : bool :=
  match n with File _ => true | Dir => false end.

(** Line 25: [sorted([p for p in dir_path.iterdir() if p.is_file() and
    p.suffix.lower() == ".json"])], by the names of the entries. *)
Definition json_files (listing : list (string * node)) : list string :=
  sorted (List.filter
            (fun e => node_is_file e.2
                      && String.eqb (PyStr.lower (suffix e.1)) ".json")
            listing).*1.

(** ** The script *)

Definition BASE : string := "https://bankaccountdata.gocardless.com/api/v2".

(** [requests.get] and [requests.post]: the request goes out, and the
    server's reply comes back or not. *)
Definition send (rq : http_request) : M (Z * text) := fun w =>
  let w' := set_requests (requests w ++ [rq]) w in
  match server w (requests w) rq with
  | NoReply => (Raise ConnectionError, w')
  | Reply status body => (Ok (status, body), w')
  end.

(** [r.raise_for_status()] *)
Definition raise_for_status (r : Z * text) : M unit :=
  if (400 <=? r.1) && (r.1 <? 600) then raise (HTTPError r.1) else mret tt.

(** [json.loads], and [r.json()] *)
Definition json_loads (c : text) : result json :=
  match c with
  | JsonText j => Ok j
  | NotJson _ => Raise JSONDecodeError
  end.

(** [json.dumps] *)
Definition json_dumps (j : json) : text := JsonText j.

(** The record of the cache file, line 81:
    [{"refresh": refresh, "refresh_expires_at": refresh_expires_at}]. *)
Definition token_record (refresh : json) (refresh_expires_at : Z) : json :=
  JDict (<["refresh" := refresh]>
         (<["refresh_expires_at" := JInt refresh_expires_at]> ∅)).

(** [time.time()] *)
Definition time_time : M dyadic := fun w =>
  (Ok (clock w (ticks w)), set_ticks (S (ticks w)) w).

(** [Credentials.from_service_account_file], [build] and the [execute] of
    the update: the key file is refused, or the update is, or it goes
    through. *)
Definition sheets_update (key : text) (update : sheet_update) : M unit :=
  fun w =>
    match sheets w key update with
    | BadCredentials => (Raise CredentialsError, w)
    | UpdateRejected => (Raise SheetsHttpError, w)
    | Updated => (Ok tt, set_sheet_writes (sheet_writes w ++ [update]) w)
    end.

Section Script.

Variable cfg : Config.

Definition find_single_json (dir_path : path) : M path :=
  there ← path_exists dir_path;
  if negb there then raise (RuntimeError (SecretsDirMissing dir_path))
  else
    listing ← iterdir dir_path;
    let files := json_files listing in
    match files with
    | [name] => mret (dir_path ++ [name])
    | _ => raise (RuntimeError (ExpectedOneJson dir_path files))
    end.

Definition load_json (p : path) : M json :=
  c ← read_text p;
  lift (json_loads c).

(** [d.get(k1) or d.get(k2) or d.get(k3) or d.get(k4)] *)
Definition get_any (data : json) (k1 k2 k3 k4 : string) : result json :=
  v1 ← Py.get data k1;
  if Py.truthy v1 then Ok v1 else
  v2 ← Py.get data k2;
  if Py.truthy v2 then Ok v2 else
  v3 ← Py.get data k3;
  if Py.truthy v3 then Ok v3 else
  Py.get data k4.

Definition load_gcbad_user_secrets : M (json * json) :=
  secrets_file ← find_single_json (GCBAD_SECRETS_DIR cfg);
  data ← load_json secrets_file;
  secret_id ← lift (get_any data "secret_id" "secretId" "SECRET_ID" "id");
  secret_key ← lift (get_any data "secret_key" "secretKey" "SECRET_KEY" "key");
  if negb (Py.truthy secret_id) || negb (Py.truthy secret_key)
  then raise (RuntimeError (SecretsNotFound secrets_file))
  else mret (secret_id, secret_key).

(** Lines 49-53: the request of [token_new]. *)
Definition token_new_request (secret_id secret_key : json) : http_request :=
  HttpRequest POST (BASE +:+ "/token/new/") None
    (Some (JDict (<["secret_id" := secret_id]>
                  (<["secret_key" := secret_key]> ∅)))).

(** Line 57: [int(out.get("refresh_expires", 0))] *)
Definition refresh_expires_of (out : json) : result Z :=
  x ← Py.get_default out "refresh_expires" (JInt 0);
  Py.int x.

Definition token_new (secret_id secret_key : json) : M (json * Z) :=
  r ← send (token_new_request secret_id secret_key);
  raise_for_status r;;
  out ← lift (json_loads r.2);
  refresh ← lift (Py.getitem out "refresh");
  refresh_expires ← lift (refresh_expires_of out);
  if refresh_expires =? 0 then mret (refresh, 0)
  else
    now ← time_time;
    mret (refresh, Py.dyadic_trunc now + refresh_expires).

Definition token_refresh_request (refresh : json) : http_request :=
  HttpRequest POST (BASE +:+ "/token/refresh/") None
    (Some (JDict (<["refresh" := refresh]> ∅))).

Definition token_refresh (refresh : json) : M json :=
  r ← send (token_refresh_request refresh);
  raise_for_status r;;
  out ← lift (json_loads r.2);
  lift (Py.getitem out "access").

(** Line 74: [int(cache.get("refresh_expires_at", 0) or 0)] *)
Definition cache_expiry (cache : json) : result Z :=
  x ← Py.get_default cache "refresh_expires_at" (JInt 0);
  Py.int (Py.or_ x (JInt 0)).

(** Lines 73-75: what the cache says, and whether its token is used. *)
Definition cached_token (cache : json) : M (option json) :=
  refresh ← lift (Py.get cache "refresh");
  exp_at ← lift (cache_expiry cache);
  if negb (Py.truthy refresh) then mret None
  else if exp_at =? 0 then mret (Some refresh)
  else
    now ← time_time;
    if Py.dyadic_lt_int now (exp_at - 60) then mret (Some refresh)
    else mret None.

(** Lines 78-84: a new token is asked for and put in the cache file. *)
Definition issue_and_cache : M json :=
  secrets ← load_gcbad_user_secrets;
  new ← token_new secrets.1 secrets.2;
  write_text (TOKEN_CACHE_PATH cfg)
    (json_dumps (token_record new.1 new.2));;
  mret new.1.

Definition get_refresh_token_cached : M json :=
  mkdir_parents (DATA_DIR cfg);;
  there ← path_exists (TOKEN_CACHE_PATH cfg);
  hit ← (if there : bool return M (option json) then
           cache ← load_json (TOKEN_CACHE_PATH cfg);
           cached_token cache
         else mret None);
  match hit with
  | Some refresh => mret refresh
  | None => issue_and_cache
  end.

Definition get_access_token : M json :=
  refresh ← get_refresh_token_cached;
  token_refresh refresh.

Definition gc_get (p : string) : M json :=
  access ← get_access_token;
  r ← send (HttpRequest GET (BASE +:+ p) (Some access) None);
  raise_for_status r;;
  lift (json_loads r.2).

Definition sheets_write (values_2d : list (list json))
  (spreadsheet_id a1_range : string) : M unit :=
  sa_file ← find_single_json (GSHEETS_SECRETS_DIR cfg);
  key ← read_text sa_file;
  sheets_update key (SheetUpdate spreadsheet_id a1_range values_2d).

(** [os.environ.get(name)] followed by [if not value: raise]. *)
Definition required_env (name : string) : M string := fun w =>
  match environ w !! name with
  | Some v =>
      if PyStr.non_empty v then (Ok v, w)
      else (Raise (RuntimeError (MissingEnv name)), w)
  | None => (Raise (RuntimeError (MissingEnv name)), w)
  end.

Definition cmd_run : M unit :=
  account_id ← required_env "GC_ACCOUNT_ID";
  spreadsheet_id ← required_env "GSHEET_ID";
  a1_range ← required_env "GSHEET_RANGE";
  out ← gc_get ("/accounts/" +:+ account_id +:+ "/balances/");
  env ← gets environ;
  chosen ← lift (choose_balance env out);
  let '(amt, cur, btype, ref) := chosen in
  now ← time_time;
  let values :=
    [[JStr (Decimal.to_str amt); cur; btype; ref;
      JStr (PyStr.str_of_int (Py.dyadic_trunc now))]] in
  sheets_write values spreadsheet_id a1_range;;
  modify (fun w => set_stdout (stdout w ++ [Wrote amt cur btype a1_range]) w).

End Script.

(** ** The other commands *)

Section Post.

Variable cfg : Config.

Definition gc_post (p : string) (payload : json) : M json :=
  access ← get_access_token cfg;
  r ← send (HttpRequest POST (BASE +:+ p) (Some access) (Some payload));
  raise_for_status r;;
  lift (json_loads r.2).

End Post.

(** [s.startswith(p)] *)
Fixpoint str_startswith (p s : string) : bool :=
  match p, s with
  | EmptyString, _ => true
  | String a p', String b s' => Ascii.eqb a b && str_startswith p' s'
  | String _ _, EmptyString => false
  end.

(** [q in s] for two strings: [q] starts somewhere in [s]. *)
Fixpoint str_contains (q s : string) : bool :=
  str_startswith q s
  || match s with
     | EmptyString => false
     | String _ r => str_contains q r
     end.

(** [x.lower()] on a JSON value: only a [str] has the method. *)
Definition lower_of (j : json) : result string :=
  match j with
  | JStr s => Ok (PyStr.lower s)
  | _ => Raise AttributeError
  end.

(** A line that [cmd_institutions], [cmd_create_requisition],
    [cmd_requisition] or [cmd_balance] prints, kept as the values it is
    formatted from: [f"{iid}\t{name}"], [json.dumps(out, indent=2)] and
    [f"{amt} {cur}\tbalanceType={btype}\tref={ref}"]. *)
Inductive line :=
| InstitutionLine (iid name : json)
| JsonLine (out : json)
| BalanceLine (amt : Decimal.t) (cur btype ref : json).

(** The world, and the lines these commands have printed. *)
Record Console := { world : World; lines : list line }.

(** A computation at the console returns or raises, and leaves a console
    either way: what was printed before an exception stays printed. *)
Definition MC (A : Type) : Type := Console -> result A * Console.

#[global] Instance MC_ret : MRet MC := fun A a c => (Ok a, c).
#[global] Instance MC_bind : MBind MC := fun A B f m c =>
  match m c with
  | (Ok a, c') => f a c'
  | (Raise e, c') => (Raise e, c')
  end.

(** A computation on the world, run at the console. *)
Definition in_world {A} (m : M A) : MC A := fun c =>
  let '(r, w') := m (world c) in (r, {| world := w'; lines := lines c |}).

Definition returns {A} (r : result A) : MC A := fun c => (r, c).

(** [print(...)] *)
Definition print (l : line) : MC unit := fun c =>
  (Ok tt, {| world := world c; lines := lines c ++ [l] |}).

(** [for x in l: body] *)
Fixpoint for_each {A} (body : A -> MC unit) (l : list A) : MC unit :=
  match l with
  | [] => mret tt
  | x :: rest => body x;; for_each body rest
  end.

(** Line 159: [(args.search or "").lower().strip()] *)
Definition search_key (search : option string) : string :=
  let s := match search with
           | Some s => if PyStr.non_empty s then s else EmptyString
           | None => EmptyString
           end in
  PyStr.strip (PyStr.lower s).

(** Line 163: [not q or q in name.lower() or q in iid.lower()] *)
Definition search_matches (q : string) (name iid : json) : result bool :=
  if negb (PyStr.non_empty q) then Ok true
  else
    n ← lower_of name;
    if str_contains q n then Ok true
    else
      i ← lower_of iid;
      Ok (str_contains q i).

(** Lines 161-164: the body of the loop of [cmd_institutions]. *)
Definition list_institution (q : string) (inst : json) : MC unit :=
  name ← returns (Py.get_default inst "name" (JStr ""));
  iid ← returns (Py.get_default inst "id" (JStr ""));
  shown ← returns (search_matches q name iid);
  if shown : bool then print (InstitutionLine iid name) else mret tt.

(** Lines 168-173: the payload of [cmd_create_requisition]. *)
Definition requisition_payload
  (redirect institution_id reference user_language : string) : json :=
  JDict (<["redirect" := JStr redirect]>
         (<["institution_id" := JStr institution_id]>
          (<["reference" := JStr reference]>
           (<["user_language" := JStr user_language]> ∅)))).

(** The commands take the values [argparse] has put in [args]. *)
Section Commands.

Variable cfg : Config.

Definition cmd_institutions (country : string) (search : option string)
  : MC unit :=
  data ← in_world (gc_get cfg ("/institutions/?country=" +:+ PyStr.lower country));
  let q := search_key search in
  insts ← returns (iterate data);
  for_each (list_institution q) insts.

Definition cmd_create_requisition
  (redirect institution_id reference user_language : string) : MC unit :=
  let payload :=
    requisition_payload redirect institution_id reference user_language in
  out ← in_world (gc_post cfg "/requisitions/" payload);
  print (JsonLine out).

Definition cmd_requisition (requisition_id : string) : MC unit :=
  out ← in_world (gc_get cfg ("/requisitions/" +:+ requisition_id +:+ "/"));
  print (JsonLine out).

Definition cmd_balance (account_id : string) : MC unit :=
  out ← in_world (gc_get cfg ("/accounts/" +:+ account_id +:+ "/balances/"));
  env ← in_world (gets environ);
  chosen ← returns (choose_balance env out);
  let '(amt, cur, btype, ref) := chosen in
  print (BalanceLine amt cur btype ref).

End Commands.

(** ** Notions the statements are made with *)

(** *** The selection *)

(** The label under which a record enters the type index: its
    [balanceType], when that is a non-empty string. *)
Definition record_type (b : json) : option string :=
  match b with
  | JDict d =>
      match d !! "balanceType" with
      | Some (JStr s) => if PyStr.non_empty s then Some s else None
      | _ => None
      end
  | _ => None
  end.

(** A balance record the index can be built over: a JSON object whose
    [balanceType], if it has one, is not a non-empty list or object. *)
Definition is_record (b : json) : bool :=
  match b with
  | JDict d =>
      match d !! "balanceType" with
      | Some (JList (_ :: _)) => false
      | Some (JDict m) => negb (Py.truthy (JDict m))
      | _ => true
      end
  | _ => false
  end.

Definition has_type (t : string) (b : json) : bool :=
  bool_decide (record_type b = Some t).

(** The last record of a list that carries the type [t]. *)
Fixpoint last_of_type (t : string) (l : list json) : option json :=
  match l with
  | [] => None
  | b :: rest =>
      match last_of_type t rest with
      | Some b' => Some b'
      | None => if has_type t b then Some b else None
      end
  end.

(** The earliest entry of the preference list that is the type of some
    record. *)
Definition earliest_present (preferred : list string) (l : list json)
  : option string :=
  List.find (fun t => existsb (has_type t) l) preferred.

(** *** The preference list *)

(** The default order of the preference list, as the specification gives
    it. *)
Definition default_preference : list string :=
  ["closingBooked"; "closingAvailable"; "interimBooked"; "interimAvailable";
   "expected"].

(** The preference list in the specification's words: the entries between
    the commas, stripped, the empty ones dropped; the default order when
    the variable is unset or empty. *)
Definition preference_by_spec (setting : option string) : list string :=
  match setting with
  | None | Some EmptyString => default_preference
  | Some v => List.filter PyStr.non_empty (map PyStr.strip (PyStr.split "," v))
  end.

(** [sep.join(l)] *)
Fixpoint join (sep : ascii) (l : list string) : string :=
  match l with
  | [] => EmptyString
  | [x] => x
  | x :: rest => x +:+ String sep (join sep rest)
  end.

Fixpoint contains_char (c : ascii) (s : string) : bool :=
  match s with
  | EmptyString => false
  | String x r => Ascii.eqb x c || contains_char c r
  end.

(** No white space at either end. *)
Definition stripped (s : string) : Prop :=
  PyStr.lstrip s = s /\ PyStr.rstrip s = s.

(** *** The selection, continued *)

(** The record the selector settles on, told from the list alone: the last
    record of the earliest preferred type that some record carries, and
    the first record when there is none. *)
Definition selected (preferred : list string) (l : list json) : option json :=
  match earliest_present preferred l with
  | Some t => last_of_type t l
  | None => head l
  end.

(** A record without a type: its [balanceType] is absent or empty. *)
Definition untyped (b : json) : Prop :=
  exists v, Py.get b "balanceType" = Ok v /\ Py.truthy v = false.

(** Records to try the selector on. *)
Definition balance_record (balanceType amount currency : string) : json :=
  JDict (<["balanceType" := JStr balanceType]>
         (<["balanceAmount" :=
              JDict (<["amount" := JStr amount]>
                     (<["currency" := JStr currency]> ∅))]> ∅)).

Definition untyped_record (amount currency : string) : json :=
  JDict (<["balanceAmount" :=
             JDict (<["amount" := JStr amount]>
                    (<["currency" := JStr currency]> ∅))]> ∅).

Definition balances_payload (l : list json) : gmap string json :=
  <["balances" := JList l]> ∅.

(** *** Decimal numerals *)

(** What a numeral denotes, digit by digit: the digits before the point
    count units, tens, hundreds; the digits after it tenths, hundredths. *)
Fixpoint int_value (s : string) : Z :=
  match s with
  | EmptyString => 0
  | String c r => PyStr.digit_val c * 10 ^ Z.of_nat (String.length r) + int_value r
  end.

Fixpoint frac_value (s : string) : Q :=
  match s with
  | EmptyString => 0
  | String c r => (inject_Z (PyStr.digit_val c) + frac_value r) / 10
  end.

Definition numeral_value (neg : bool) (ip fp : string) : Q :=
  let v := (inject_Z (int_value ip) + frac_value fp)%Q in
  if neg then (- v)%Q else v.

(** The amount string [-ip.fp], the sign being optional. *)
Definition numeral (neg : bool) (ip fp : string) : string :=
  (if neg then "-" else "") +:+ ip +:+ "." +:+ fp.

(** The amount string [-ip], without a point. *)
Definition integer_numeral (neg : bool) (ip : string) : string :=
  (if neg then "-" else "") +:+ ip.

(** The string [amount] is the numeral of the digits [ip] before the point
    and [fp] after it; without a point there are no digits after it. *)
Definition numeral_of (amount : string) (neg : bool) (ip fp : string) : Prop :=
  amount = numeral neg ip fp
  \/ (fp = EmptyString /\ amount = integer_numeral neg ip).

Fixpoint all_chars (P : ascii -> bool) (s : string) : bool :=
  match s with
  | EmptyString => true
  | String c r => P c && all_chars P r
  end.

(** A numeral whose integer part has no leading zero to lose. *)
Definition canonical (ip : string) : Prop :=
  ip <> EmptyString /\ PyStr.strip_zeros ip = ip.

(** *** The secrets directory *)

(** A file of the directory [d] with a [.json] extension, in any case of
    the letters. *)
Definition json_file_in (f : gmap path node) (d : path) (name : string) : Prop :=
  exists c, f !! (d ++ [name]) = Some (File c)
            /\ PyStr.lower (suffix name) = ".json".

(** The names [find_single_json] counts in the directory [d]. *)
Definition json_names (f : gmap path node) (d : path) : list string :=
  json_files (entries f d).

(** *** Worlds and what changes in them *)

(** Two worlds that differ in their files at most. *)
Definition same_but_fs (w w' : World) : Prop :=
  environ w' = environ w /\ clock w' = clock w /\ ticks w' = ticks w
  /\ server w' = server w /\ requests w' = requests w
  /\ sheets w' = sheets w /\ sheet_writes w' = sheet_writes w
  /\ stdout w' = stdout w.

(** The paths at which the files of two worlds may differ all satisfy
    [S]. *)
Definition fs_changes_within (S : path -> Prop) (w w' : World) : Prop :=
  forall q, ~ S q -> fs w' !! q = fs w !! q.

(** A computation that only reads the files: it leaves the world as it
    is, and what it returns depends on the files alone. *)
Definition reader {A} (m : M A) : Prop :=
  forall w w2, fs w2 = fs w -> m w2 = ((m w).1, w2).

(** *** The token cache *)

(** The number a finite float stands for. *)
Definition dyadic_Q (d : dyadic) : Q :=
  Qmake (Py.dyadic_num d) (Z.to_pos (Py.dyadic_den d)).

(** The time [now] is more than 60 seconds before the expiry. *)
Definition more_than_60s_before (now : dyadic) (exp_at : Z) : Prop :=
  (dyadic_Q now + 60 < inject_Z exp_at)%Q.

(** The cached token can be used at the time [now]. *)
Definition usable (now : dyadic) (exp_at : Z) : Prop :=
  exp_at = 0 \/ more_than_60s_before now exp_at.

(** The world after the request [rq] went out. *)
Definition sent (rq : http_request) (w : World) : World :=
  set_requests (requests w ++ [rq]) w.

(** The world after one more call of [time.time()]. *)
Definition ticked (w : World) : World := set_ticks (S (ticks w)) w.

(** The cache file holds the token [refresh] with the expiry [exp_at]. *)
Definition cache_holds (f : gmap path node) (cfg : Config)
  (refresh : json) (exp_at : Z) : Prop :=
  exists cache,
    stat f (TOKEN_CACHE_PATH cfg) = Ok (File (JsonText cache))
    /\ Py.get cache "refresh" = Ok refresh
    /\ cache_expiry cache = Ok exp_at.

Definition cache_absent (f : gmap path node) (cfg : Config) : Prop :=
  is_ok (stat f (TOKEN_CACHE_PATH cfg)) = false.

(** The server answers the request for a new token with [new_refresh],
    valid for [secs] seconds. *)
Definition issues (w : World) (secret_id secret_key new_refresh : json)
  (secs : Z) : Prop :=
  exists status out,
    server w (requests w) (token_new_request secret_id secret_key)
    = Reply status (JsonText out)
    /\ (400 <=? status) && (status <? 600) = false
    /\ Py.getitem out "refresh" = Ok new_refresh
    /\ refresh_expires_of out = Ok secs.

(** *** Worlds to run the script in *)

Definition demo_cfg : Config :=
  {| GCBAD_SECRETS_DIR := ["secrets"; "gcbad"];
     GSHEETS_SECRETS_DIR := ["secrets"; "gsheets"];
     DATA_DIR := ["data"] |}.

Definition demo_secrets : text :=
  JsonText (JDict (<["secret_id" := JStr "id-1"]>
                   (<["secret_key" := JStr "key-1"]> ∅))).

Definition demo_service_account : text :=
  JsonText (JDict (<["type" := JStr "service_account"]> ∅)).

(** Both secrets directories with one [.json] file each, an empty data
    directory, and the cache file when one is given. *)
Definition demo_fs (cache : option text) : gmap path node :=
  let base : gmap path node :=
    <[["secrets"] := Dir]>
    (<[["secrets"; "gcbad"] := Dir]>
     (<[["secrets"; "gcbad"; "user.json"] := File demo_secrets]>
      (<[["secrets"; "gsheets"] := Dir]>
       (<[["secrets"; "gsheets"; "sa.json"] := File demo_service_account]>
        (<[["data"] := Dir]> ∅))))) in
  match cache with
  | Some c => <[["data"; "gcbad_token_cache.json"] := File c]> base
  | None => base
  end.

(** A server that issues the token [r1] for an hour, answers a refresh
    with the given status and the access token [a1], and reports one
    [closingBooked] balance of 42.00 EUR. *)
Definition demo_server (refresh_status : Z)
  (history : list http_request) (rq : http_request) : http_reply :=
  if String.eqb (rq_url rq) (BASE +:+ "/token/new/") then
    Reply 200 (JsonText (JDict (<["refresh" := JStr "r1"]>
                                (<["refresh_expires" := JInt 3600]> ∅))))
  else if String.eqb (rq_url rq) (BASE +:+ "/token/refresh/") then
    Reply refresh_status (JsonText (JDict (<["access" := JStr "a1"]> ∅)))
  else
    Reply 200 (JsonText (JDict (balances_payload
                                  [balance_record "closingBooked" "42.00" "EUR"]))).

(** The clock stands at 1700000000.5. *)
Definition demo_world (cache : option text) (refresh_status : Z) : World :=
  {| environ := <["GC_ACCOUNT_ID" := "acc-1"]>
                (<["GSHEET_ID" := "sheet-1"]>
                 (<["GSHEET_RANGE" := "A1:E1"]> ∅));
     fs := demo_fs cache;
     clock := fun _ => Dyadic false 3400000001 (-1);
     ticks := 0;
     server := demo_server refresh_status;
     requests := [];
     sheets := fun _ _ => Updated;
     sheet_writes := [];
     stdout := [] |}.

(** *** What a run can leave behind *)

(** The paths of the token cache: the cache file, and the data directory
    with the directories above it. *)
Definition cache_paths (cfg : Config) (q : path) : Prop :=
  q = TOKEN_CACHE_PATH cfg \/ q `prefix_of` DATA_DIR cfg.

(** From [w] to [w'] the spreadsheet was not written, nothing was printed,
    and no file changed but the token cache. *)
Definition quiet (cfg : Config) (w w' : World) : Prop :=
  sheet_writes w' = sheet_writes w /\ stdout w' = stdout w
  /\ environ w' = environ w
  /\ fs_changes_within (cache_paths cfg) w w'.

Definition quiet_op (cfg : Config) {A} (m : M A) : Prop :=
  forall w, quiet cfg w (m w).2.

(** What a run of [cmd_run] from [w] that ends with [r] in [w'] has
    done. *)
Definition run_outcome (cfg : Config) (w : World) (r : result unit) (w' : World)
  : Prop :=
  fs_changes_within (cache_paths cfg) w w'
  /\ match r with
     | Raise _ => sheet_writes w' = sheet_writes w /\ stdout w' = stdout w
     | Ok _ =>
         exists spreadsheet_id a1_range out amt cur btype ref ts,
           environ w !! "GSHEET_ID" = Some spreadsheet_id
           /\ environ w !! "GSHEET_RANGE" = Some a1_range
           /\ choose_balance (environ w) out = Ok (amt, cur, btype, ref)
           /\ sheet_writes w'
              = sheet_writes w
                ++ [SheetUpdate spreadsheet_id a1_range
                      [[JStr (Decimal.to_str amt); cur; btype; ref; JStr ts]]]
           /\ stdout w' = stdout w ++ [Wrote amt cur btype a1_range]
     end.

(** *** Parts of the world a computation leaves alone *)

(** A computation that leaves a part of the world as it is. *)
Definition preserves {A X} (part : World -> X) (m : M A) : Prop :=
  forall w, part (m w).2 = part w.

(** From [w] to [w'] the surroundings are the same: the environment, the
    clock, the server and the spreadsheet service; no call of
    [time.time()] and no request of the log was taken back. *)
Definition steady (w w' : World) : Prop :=
  environ w' = environ w /\ clock w' = clock w /\ server w' = server w
  /\ sheets w' = sheets w /\ (ticks w <= ticks w')%nat
  /\ requests w `prefix_of` requests w'.

Definition steady_op {A} (m : M A) : Prop := forall w, steady w (m w).2.

(** The world [w] with another environment. *)
Definition with_environ (env : gmap string string) (w : World) : World :=
  {| environ := env; fs := fs w; clock := clock w; ticks := ticks w;
     server := server w; requests := requests w; sheets := sheets w;
     sheet_writes := sheet_writes w; stdout := stdout w |}.

(** *** The secrets file *)

(** The first value that counts as true among those the object [d] holds
    under the keys, taken in their order. *)
Definition first_truthy (d : gmap string json) (keys : list string)
  : option json :=
  List.find Py.truthy (omap (fun k => d !! k) keys).

Definition secret_id_keys : list string :=
  ["secret_id"; "secretId"; "SECRET_ID"; "id"].

Definition secret_key_keys : list string :=
  ["secret_key"; "secretKey"; "SECRET_KEY"; "key"].

(** A secrets file with an empty [secret_id], and the secrets under other
    spellings. *)
Definition aliased_secrets : gmap string json :=
  <["secret_id" := JStr ""]>
  (<["id" := JStr "id-2"]> (<["secretKey" := JStr "key-2"]> ∅)).

(** The demo world with another secrets file. *)
Definition secrets_world (secrets : text) : World :=
  set_fs (<[["secrets"; "gcbad"; "user.json"] := File secrets]> (demo_fs None))
         (demo_world None 200).

(** *** Requests and replies *)

(** A status that [raise_for_status] raises for: 400 to 599. *)
Definition is_error_status (status : Z) : bool :=
  (400 <=? status) && (status <? 600).

(** Sent from the world [w], the request [rq] is answered with the JSON
    document [body] and a status that is no error. *)
Definition answered (w : World) (rq : http_request) (body : json) : Prop :=
  exists status,
    server w (requests w) rq = Reply status (JsonText body)
    /\ is_error_status status = false.

(** The request of [gc_get], lines 94-98, and of [gc_post], lines
    105-110. *)
Definition get_request (p : string) (access : json) : http_request :=
  HttpRequest GET (BASE +:+ p) (Some access) None.

Definition post_request (p : string) (access payload : json) : http_request :=
  HttpRequest POST (BASE +:+ p) (Some access) (Some payload).

(** A computation that sends nothing, or the one request for a new
    token. *)
Definition at_most_new {A} (m : M A) : Prop :=
  forall w,
    requests (m w).2 = requests w
    \/ exists sid skey,
         requests (m w).2 = requests w ++ [token_new_request sid skey].

(** *** The cache file *)

(** Lines 71-76 of [get_refresh_token_cached]: what the cache file
    gives. *)
Definition cache_lookup (cfg : Config) : M (option json) :=
  there ← path_exists (TOKEN_CACHE_PATH cfg);
  if there : bool return M (option json) then
    cache ← load_json (TOKEN_CACHE_PATH cfg);
    cached_token cache
  else mret None.

(** From [w] to [w'] the cache file was left as it is, or a record
    [{refresh, refresh_expires_at}] was written to it. *)
Definition cache_file_step (cfg : Config) (w w' : World) : Prop :=
  fs w' !! TOKEN_CACHE_PATH cfg = fs w !! TOKEN_CACHE_PATH cfg
  \/ exists refresh refresh_expires_at,
       fs w' !! TOKEN_CACHE_PATH cfg
       = Some (File (json_dumps (token_record refresh refresh_expires_at))).

Definition cache_file_op (cfg : Config) {A} (m : M A) : Prop :=
  forall w, cache_file_step cfg w (m w).2.

(** *** The preference list, continued *)

(** A setting made of commas and white space only. *)
Definition blank_setting (v : string) : bool :=
  all_chars (fun c => Ascii.eqb c "," || PyStr.is_space c) v.

(** *** The run *)

(** The variables [cmd_run] asks for, in the order it checks them. *)
Definition required_variables : list string :=
  ["GC_ACCOUNT_ID"; "GSHEET_ID"; "GSHEET_RANGE"].

(** The variable is set, and not to the empty string. *)
Definition is_set (environ : gmap string string) (name : string) : bool :=
  match environ !! name with
  | Some v => PyStr.non_empty v
  | None => false
  end.

(** The row of line 205, for the time [now]. *)
Definition sheet_row (amt : Decimal.t) (cur btype ref : json) (now : dyadic)
  : list json :=
  [JStr (Decimal.to_str amt); cur; btype; ref;
   JStr (PyStr.str_of_int (Py.dyadic_trunc now))].

(** The world after the update went to the spreadsheet. *)
Definition updated (update : sheet_update) (w : World) : World :=
  set_sheet_writes (sheet_writes w ++ [update]) w.

(** *** The list of institutions *)

Definition is_object (j : json) : bool :=
  match j with JDict _ => true | _ => false end.

Definition is_text (j : json) : bool :=
  match j with JStr _ => true | _ => false end.

(** [inst.get(k, "")] on an institution that is an object. *)
Definition field (inst : json) (k : string) : json :=
  match inst with
  | JDict d => default (JStr "") (d !! k)
  | _ => JNull
  end.

(** An institution the search can look at: an object whose name and id,
    when it has them, are strings. *)
Definition searchable (inst : json) : bool :=
  is_object inst && is_text (field inst "name") && is_text (field inst "id").

(** The line of an institution. *)
Definition listed (inst : json) : line :=
  InstitutionLine (field inst "id") (field inst "name").

Definition lowered (j : json) : string :=
  match j with JStr s => PyStr.lower s | _ => EmptyString end.

(** The key occurs in the name or in the id, whatever the case of their
    letters. *)
Definition found (q : string) (inst : json) : bool :=
  str_contains q (lowered (field inst "name"))
  || str_contains q (lowered (field inst "id")).

Definition institution (iid name : string) : json :=
  JDict (<["id" := JStr iid]> (<["name" := JStr name]> ∅)).

(** A server that answers a refresh with the access token [a1] and any
    other request with [data]. *)
Definition data_server (data : json)
  (history : list http_request) (rq : http_request) : http_reply :=
  if String.eqb (rq_url rq) (BASE +:+ "/token/refresh/") then
    Reply 200 (JsonText (JDict (<["access" := JStr "a1"]> ∅)))
  else Reply 200 (JsonText data).

(** A console with nothing printed yet, a cached token that does not
    expire, and [data_server]. *)
Definition data_console (data : json) : Console :=
  {| world :=
       {| environ := ∅;
          fs := demo_fs (Some (json_dumps (token_record (JStr "r0") 0)));
          clock := fun _ => Dyadic false 3400000001 (-1);
          ticks := 0;
          server := data_server data;
          requests := [];
          sheets := fun _ _ => Updated;
          sheet_writes := [];
          stdout := [] |};
     lines := [] |}.

(** ** Strings: [split] and [strip] *)

Section Strings.

Lemma split_not_nil sep s : PyStr.split sep s <> [].
Proof.
  destruct s as [|c r]; simpl; [discriminate|].
  destruct (Ascii.eqb c sep); [discriminate|].
  destruct (PyStr.split sep r); discriminate.
Qed.

(** Joining the pieces gives the string back. *)
Lemma join_split sep s : join sep (PyStr.split sep s) = s.
Proof.
  induction s as [|c r IH]; simpl; [reflexivity|].
  destruct (Ascii.eqb_spec c sep) as [->|Hne].
  - pose proof (split_not_nil sep r) as Hnil.
    destruct (PyStr.split sep r) as [|x xs]; [contradiction|].
    simpl in *. destruct xs; simpl in *; rewrite IH; reflexivity.
  - pose proof (split_not_nil sep r) as Hnil.
    destruct (PyStr.split sep r) as [|x xs]; [contradiction|].
    destruct xs; simpl in *; rewrite <- IH; reflexivity.
Qed.

(** No piece contains the separator. *)
Lemma split_no_sep sep s x :
  x ∈ PyStr.split sep s -> contains_char sep x = false.
Proof.
  revert x. induction s as [|c r IH]; simpl; intros x Hx.
  - apply list_elem_of_singleton in Hx. subst. reflexivity.
  - destruct (Ascii.eqb_spec c sep) as [->|Hne].
    + apply elem_of_cons in Hx as [->|Hx]; [reflexivity|]. by apply IH.
    + destruct (PyStr.split sep r) as [|y ys] eqn:E.
      * apply list_elem_of_singleton in Hx. subst. simpl.
        apply Ascii.eqb_neq in Hne. rewrite Hne. reflexivity.
      * apply elem_of_cons in Hx as [->|Hx].
        -- simpl. apply Ascii.eqb_neq in Hne. rewrite Hne. simpl.
           apply IH. left.
        -- apply IH. by right.
Qed.

Lemma lstrip_idemp s : PyStr.lstrip (PyStr.lstrip s) = PyStr.lstrip s.
Proof.
  induction s as [|c r IH]; simpl; [reflexivity|].
  destruct (PyStr.is_space c) eqn:E; [assumption|].
  simpl. rewrite E. reflexivity.
Qed.

Lemma rstrip_idemp s : PyStr.rstrip (PyStr.rstrip s) = PyStr.rstrip s.
Proof.
  induction s as [|c r IH]; simpl; [reflexivity|].
  destruct (PyStr.rstrip r) as [|c' r'] eqn:E.
  - destruct (PyStr.is_space c) eqn:Ec; simpl; [reflexivity|].
    rewrite Ec. reflexivity.
  - change (PyStr.rstrip (String c (String c' r')) = String c (String c' r')).
    simpl in IH |- *. rewrite IH. reflexivity.
Qed.

(** Stripping the right end leaves a stripped left end alone. *)
Lemma lstrip_rstrip s :
  PyStr.lstrip s = s -> PyStr.lstrip (PyStr.rstrip s) = PyStr.rstrip s.
Proof.
  destruct s as [|c r]; simpl; [reflexivity|].
  destruct (PyStr.is_space c) eqn:E.
  - intros H. exfalso.
    assert (Hlen : forall t, (String.length (PyStr.lstrip t) <= String.length t)%nat).
    { induction t as [|x t IHt]; simpl; [lia|].
      destruct (PyStr.is_space x); simpl; lia. }
    specialize (Hlen r). rewrite H in Hlen. simpl in Hlen. lia.
  - intros _. destruct (PyStr.rstrip r); simpl; rewrite E; reflexivity.
Qed.

Lemma strip_stripped s : stripped (PyStr.strip s).
Proof.
  unfold stripped, PyStr.strip. split.
  - apply lstrip_rstrip, lstrip_idemp.
  - apply rstrip_idemp.
Qed.

End Strings.

(** ** The preference list *)

Section Preference.

Lemma contains_char_lstrip c s :
  contains_char c s = false -> contains_char c (PyStr.lstrip s) = false.
Proof.
  induction s as [|x r IH]; simpl; [done|].
  intros H. apply orb_false_iff in H as [Hx Hr].
  destruct (PyStr.is_space x); [by apply IH|].
  simpl. by rewrite Hx, Hr.
Qed.

Lemma contains_char_rstrip c s :
  contains_char c s = false -> contains_char c (PyStr.rstrip s) = false.
Proof.
  induction s as [|x r IH]; simpl; [done|].
  intros H. apply orb_false_iff in H as [Hx Hr]. specialize (IH Hr).
  destruct (PyStr.rstrip r) as [|y r'].
  - destruct (PyStr.is_space x); simpl; [done|]. by rewrite Hx.
  - simpl in *. by rewrite Hx, IH.
Qed.

Lemma contains_char_strip c s :
  contains_char c s = false -> contains_char c (PyStr.strip s) = false.
Proof. intros H. by apply contains_char_rstrip, contains_char_lstrip. Qed.

(** The comprehension filters on the stripped entry and then strips:
    the same list as stripping first and dropping the empty entries. *)
Lemma comprehension_strip (l : list string) :
  map PyStr.strip
      (List.filter (fun p => PyStr.non_empty (PyStr.strip p)) l)
  = List.filter PyStr.non_empty (map PyStr.strip l).
Proof.
  induction l as [|p l IH]; simpl; [reflexivity|].
  destruct (PyStr.non_empty (PyStr.strip p)); simpl; by rewrite IH.
Qed.

Lemma non_empty_true s : PyStr.non_empty s = true <-> s <> EmptyString.
Proof. destruct s; simpl; split; congruence. Qed.

Lemma preferred_types_default environ :
  environ !! "BALANCE_TYPE_PREFERENCE" = None
  \/ environ !! "BALANCE_TYPE_PREFERENCE" = Some EmptyString ->
  preferred_types environ = default_preference.
Proof.
  intros [H|H]; unfold preferred_types, preference_setting; rewrite H;
    reflexivity.
Qed.

Lemma preferred_types_by_spec environ :
  preferred_types environ
  = preference_by_spec (environ !! "BALANCE_TYPE_PREFERENCE").
Proof.
  destruct (environ !! "BALANCE_TYPE_PREFERENCE") as [v|] eqn:E.
  - destruct v as [|c r].
    + apply preferred_types_default. by right.
    + unfold preferred_types, preference_setting. rewrite E.
      cbn [PyStr.non_empty preference_by_spec].
      apply comprehension_strip.
  - apply preferred_types_default. by left.
Qed.

Lemma preferred_types_entries environ p :
  p ∈ preferred_types environ ->
  p <> EmptyString /\ stripped p /\ contains_char "," p = false.
Proof.
  unfold preferred_types. rewrite comprehension_strip.
  intros Hp. apply list_elem_of_In, filter_In in Hp as [Hin Hne].
  apply non_empty_true in Hne. split; [assumption|].
  apply in_map_iff in Hin as (q & <- & Hq). split.
  - apply strip_stripped.
  - apply contains_char_strip.
    apply (split_no_sep _ (preference_setting environ)).
    by apply list_elem_of_In.
Qed.

End Preference.

(** C10.  Whatever the environment holds for [BALANCE_TYPE_PREFERENCE]:
    the preference list of [choose_balance] is the list of the
    specification, that is the entries of the value between its commas,
    each stripped of the white space around it, the empty ones dropped, and
    the default order [closingBooked, closingAvailable, interimBooked,
    interimAvailable, expected] when the variable is unset or empty.
    Splitting loses nothing (the pieces joined by commas are the value),
    and every entry of the list is non-empty, has no white space at either
    end and no comma. *)
Theorem preference_list_from_environment (environ : gmap string string) :
  preferred_types environ
  = preference_by_spec (environ !! "BALANCE_TYPE_PREFERENCE")
  /\ (environ !! "BALANCE_TYPE_PREFERENCE" = None
      \/ environ !! "BALANCE_TYPE_PREFERENCE" = Some EmptyString ->
      preferred_types environ
      = ["closingBooked"; "closingAvailable"; "interimBooked";
         "interimAvailable"; "expected"])
  /\ (forall v, environ !! "BALANCE_TYPE_PREFERENCE" = Some v ->
      v <> EmptyString ->
      join "," (PyStr.split "," v) = v
      /\ preferred_types environ
         = List.filter PyStr.non_empty (map PyStr.strip (PyStr.split "," v)))
  /\ (forall p, p ∈ preferred_types environ ->
      p <> EmptyString /\ stripped p /\ contains_char "," p = false).
Proof.
  split; [apply preferred_types_by_spec|].
  split; [apply preferred_types_default|].
  split; [|apply preferred_types_entries].
  intros v Hv Hne. split; [apply join_split|].
  rewrite preferred_types_by_spec, Hv. destruct v; [done|reflexivity].
Qed.

(** C10 on a setting with blanks and an empty entry, and on an empty
    setting. *)
Lemma preference_list_from_environment_witness :
  preferred_types (<["BALANCE_TYPE_PREFERENCE" := " expected , ,closingBooked"]> ∅)
  = ["expected"; "closingBooked"]
  /\ preferred_types (<["BALANCE_TYPE_PREFERENCE" := ""]> ∅)
     = ["closingBooked"; "closingAvailable"; "interimBooked";
        "interimAvailable"; "expected"].
Proof.
  split.
  - destruct (preference_list_from_environment
                (<["BALANCE_TYPE_PREFERENCE" := " expected , ,closingBooked"]> ∅))
      as (_ & _ & Hset & _).
    destruct (Hset " expected , ,closingBooked" eq_refl) as [_ ->];
      [discriminate|reflexivity].
  - destruct (preference_list_from_environment
                (<["BALANCE_TYPE_PREFERENCE" := ""]> ∅))
      as (_ & Hdefault & _).
    apply Hdefault. right. reflexivity.
Defined.

(** ** The type index and the selection *)

Section Selection.

Implicit Types (l : list json) (b : json) (t : string).
Implicit Types (acc m : gmap string json).

Lemma is_record_dict b : is_record b = true -> exists d, b = JDict d.
Proof. destruct b; try discriminate. eauto. Qed.

(** One step of the comprehension of line 124 on a record. *)
Lemma by_type_from_cons acc b rest :
  is_record b = true ->
  by_type_from acc (b :: rest)
  = by_type_from (match record_type b with
                  | Some t => <[t := b]> acc
                  | None => acc
                  end) rest.
Proof.
  intros Hb. destruct (is_record_dict b Hb) as [d ->].
  simpl in *. destruct (d !! "balanceType") as [v|]; simpl; [|reflexivity].
  destruct v as [| [] | n | [| |f] | s | [|x xs] | m]; simpl;
    try reflexivity; try discriminate.
  - destruct (n =? 0); reflexivity.
  - destruct (Py.dyadic_is_zero f); reflexivity.
  - destruct s; reflexivity.
  - simpl in Hb. destruct (map_to_list m); [reflexivity|discriminate].
Qed.

Lemma by_type_from_lookup l : forall acc,
  Forall (fun b => is_record b = true) l ->
  exists m, by_type_from acc l = Ok m
    /\ forall t, m !! t = match last_of_type t l with
                          | Some b => Some b
                          | None => acc !! t
                          end.
Proof.
  induction l as [|b rest IH]; intros acc Hl.
  - exists acc. split; reflexivity.
  - apply Forall_cons in Hl as [Hb Hrest].
    rewrite (by_type_from_cons acc b rest Hb).
    destruct (IH (match record_type b with
                  | Some t => <[t := b]> acc
                  | None => acc
                  end) Hrest) as (m & Hm & Hlook).
    exists m. split; [assumption|]. intros t. rewrite Hlook. simpl.
    destruct (last_of_type t rest); [reflexivity|].
    unfold has_type. destruct (record_type b) as [t'|] eqn:Et.
    + case_bool_decide as Hd.
      * injection Hd as ->. apply lookup_insert_eq.
      * apply lookup_insert_ne. congruence.
    + rewrite bool_decide_eq_false_2 by discriminate. reflexivity.
Qed.

Lemma by_type_of_lookup l :
  Forall (fun b => is_record b = true) l ->
  exists m, by_type_of l = Ok m /\ forall t, m !! t = last_of_type t l.
Proof.
  intros Hl. destruct (by_type_from_lookup l ∅ Hl) as (m & Hm & Hlook).
  exists m. split; [assumption|]. intros t. rewrite Hlook.
  destruct (last_of_type t l); [reflexivity|apply lookup_empty].
Qed.

Lemma last_of_type_Some t l b :
  last_of_type t l = Some b -> b ∈ l /\ record_type b = Some t.
Proof.
  induction l as [|x rest IH]; simpl; [discriminate|].
  destruct (last_of_type t rest) as [b'|].
  - intros [= ->]. destruct (IH eq_refl) as [Hin Ht].
    split; [by right|assumption].
  - unfold has_type. case_bool_decide as Hd; [|discriminate].
    intros [= ->]. split; [left|assumption].
Qed.

Lemma last_of_type_present t l :
  existsb (has_type t) l = true -> is_Some (last_of_type t l).
Proof.
  induction l as [|x rest IH]; simpl; [discriminate|].
  intros H. destruct (last_of_type t rest); [eauto|].
  apply orb_true_iff in H as [H|H].
  - rewrite H. eauto.
  - destruct (IH H) as [? [=]].
Qed.

Lemma present_iff t l :
  existsb (has_type t) l = true <-> exists b, b ∈ l /\ record_type b = Some t.
Proof.
  rewrite existsb_exists. unfold has_type. split.
  - intros (b & Hin & Hb). apply bool_decide_eq_true in Hb.
    exists b. split; [by apply list_elem_of_In|assumption].
  - intros (b & Hin & Hb). exists b.
    split; [by apply list_elem_of_In|by apply bool_decide_eq_true].
Qed.

Lemma present_perm t l l' :
  l ≡ₚ l' -> existsb (has_type t) l = existsb (has_type t) l'.
Proof.
  intros Hp. apply eq_true_iff_eq. rewrite !present_iff.
  split; intros (b & Hin & Hb); exists b; split; try assumption.
  - by rewrite <- Hp.
  - by rewrite Hp.
Qed.

Lemma earliest_present_perm preferred l l' :
  l ≡ₚ l' -> earliest_present preferred l = earliest_present preferred l'.
Proof.
  intros Hp. unfold earliest_present.
  induction preferred as [|t rest IH]; simpl; [reflexivity|].
  rewrite (present_perm t l l' Hp), IH. reflexivity.
Qed.

(** What [earliest_present] says: [t] is in the preference list, some
    record carries it, and no entry before it is carried by a record. *)
Lemma earliest_present_Some preferred l t :
  earliest_present preferred l = Some t <->
  exists before after,
    preferred = before ++ t :: after
    /\ (exists b, b ∈ l /\ record_type b = Some t)
    /\ forall t', t' ∈ before -> forall b, b ∈ l -> record_type b <> Some t'.
Proof.
  unfold earliest_present. split.
  - induction preferred as [|x rest IH]; simpl; [discriminate|].
    destruct (existsb (has_type x) l) eqn:E.
    + intros [= ->]. exists [], rest. split; [reflexivity|].
      split; [by apply present_iff|]. intros t' Ht'. by apply elem_of_nil in Ht'.
    + intros H. destruct (IH H) as (before & after & -> & Hpres & Hbefore).
      exists (x :: before), after. split; [reflexivity|].
      split; [assumption|]. intros t' Ht' b Hb Hty.
      apply elem_of_cons in Ht' as [->|Ht'].
      * assert (existsb (has_type x) l = true) by (apply present_iff; eauto).
        congruence.
      * by apply (Hbefore t' Ht' b Hb).
  - intros (before & after & -> & Hpres & Hbefore).
    induction before as [|x before IH]; simpl.
    + apply present_iff in Hpres. by rewrite Hpres.
    + destruct (existsb (has_type x) l) eqn:E.
      * apply present_iff in E as (b & Hb & Hty).
        exfalso. apply (Hbefore x (list_elem_of_here _ _) b Hb Hty).
      * apply IH. intros t' Ht'. apply Hbefore. by right.
Qed.

Lemma earliest_present_None preferred l :
  earliest_present preferred l = None <->
  forall t b, t ∈ preferred -> b ∈ l -> record_type b <> Some t.
Proof.
  unfold earliest_present. split.
  - intros H t b Ht Hb Hty.
    apply list_elem_of_In in Ht.
    apply (find_none _ _ H) in Ht.
    assert (existsb (has_type t) l = true) by (apply present_iff; eauto).
    congruence.
  - intros H. induction preferred as [|x rest IH]; simpl; [reflexivity|].
    destruct (existsb (has_type x) l) eqn:E.
    + apply present_iff in E as (b & Hb & Hty).
      exfalso. apply (H x b (list_elem_of_here _ _) Hb Hty).
    + apply IH. intros t b Ht. apply H. by right.
Qed.

(** The loop of lines 126-129 on an index that holds, for every type,
    the last record carrying it. *)
Lemma first_preferred_index preferred m l :
  (forall t, m !! t = last_of_type t l) ->
  first_preferred preferred m
  = match earliest_present preferred l with
    | Some t => last_of_type t l
    | None => None
    end.
Proof.
  intros Hm. unfold earliest_present.
  induction preferred as [|t rest IH]; simpl; [reflexivity|].
  rewrite Hm. destruct (existsb (has_type t) l) eqn:E.
  - destruct (last_of_type_present t l E) as [b ->]. reflexivity.
  - destruct (last_of_type t l) as [b|] eqn:El; [|assumption].
    apply last_of_type_Some in El as [Hin Hty].
    assert (existsb (has_type t) l = true) by (apply present_iff; eauto).
    congruence.
Qed.

(** [choose_record] on a payload whose [balances] is a non-empty list of
    records returns what [selected] tells. *)
Lemma choose_record_selected environ (d : gmap string json) l :
  d !! "balances" = Some (JList l) ->
  l <> [] ->
  Forall (fun b => is_record b = true) l ->
  exists b, selected (preferred_types environ) l = Some b
    /\ choose_record environ (JDict d) = Ok b.
Proof.
  intros Hd Hne Hl. unfold choose_record, selected. simpl. rewrite Hd. simpl.
  destruct l as [|b0 rest]; [contradiction|]. simpl Py.truthy. cbn [negb].
  destruct (by_type_of_lookup (b0 :: rest) Hl) as (m & Hm & Hlook).
  cbn [mbind result_bind]. rewrite Hm. cbn [mbind result_bind].
  rewrite (first_preferred_index _ m (b0 :: rest) Hlook).
  destruct (earliest_present (preferred_types environ) (b0 :: rest)) as [t|] eqn:E.
  - apply earliest_present_Some in E as (_ & _ & _ & Hpres & _).
    apply present_iff, last_of_type_present in Hpres as [b Hb].
    rewrite Hb. eauto.
  - simpl. eauto.
Qed.

End Selection.

Section SelectionFacts.

Implicit Types (l : list json) (b : json) (t : string).

Lemma record_type_get b t :
  record_type b = Some t ->
  Py.get b "balanceType" = Ok (JStr t) /\ t <> EmptyString.
Proof.
  destruct b as [| | | | |?|d]; try discriminate. simpl.
  destruct (d !! "balanceType") as [[| | | |s| |]|]; try discriminate.
  destruct s; [discriminate|]. intros [= <-]. split; [reflexivity|discriminate].
Qed.

Lemma get_record_type b s :
  Py.get b "balanceType" = Ok (JStr s) -> s <> EmptyString ->
  record_type b = Some s.
Proof.
  destruct b as [| | | | |?|d]; try discriminate. simpl.
  destruct (d !! "balanceType") as [v|]; simpl; [|discriminate].
  intros [= ->] Hs. destruct s; [contradiction|reflexivity].
Qed.

Lemma untyped_record_type b : untyped b -> record_type b = None.
Proof.
  intros (v & Hv & Hfalsy). destruct (record_type b) as [t|] eqn:E; [|reflexivity].
  apply record_type_get in E as [Hget Hne]. rewrite Hget in Hv.
  injection Hv as <-. destruct t; [contradiction|discriminate].
Qed.

Lemma selected_perm preferred l l' b :
  l' ≡ₚ l -> selected preferred l' = Some b ->
  is_Some (earliest_present preferred l) ->
  b ∈ l /\ record_type b = earliest_present preferred l.
Proof.
  intros Hp Hsel [t Ht]. unfold selected in Hsel.
  rewrite (earliest_present_perm preferred l' l Hp), Ht in Hsel.
  apply last_of_type_Some in Hsel as [Hin Hty].
  rewrite Ht. split; [by rewrite <- Hp|assumption].
Qed.

Lemma lookup_balances_insert (d : gmap string json) l :
  <["balances" := JList l]> d !! "balances" = Some (JList l).
Proof. apply lookup_insert_eq. Qed.

Lemma Forall_is_record_perm l l' :
  l' ≡ₚ l -> Forall (fun b => is_record b = true) l ->
  Forall (fun b => is_record b = true) l'.
Proof. intros Hp H. by rewrite Hp. Qed.

Lemma perm_not_nil l l' : l' ≡ₚ l -> l <> [] -> l' <> [].
Proof.
  intros Hp Hne ->. apply Permutation_nil_l in Hp. congruence.
Qed.

Lemma present_not_nil preferred l t :
  earliest_present preferred l = Some t -> l <> [].
Proof.
  intros H. apply earliest_present_Some in H as (_ & _ & _ & (b & Hb & _) & _).
  intros ->. by apply elem_of_nil in Hb.
Qed.

End SelectionFacts.

(** C2, as amended.  For a payload whose [balances] is a list [l] of
    records, and whatever preference list the environment sets.  When [t]
    is the earliest entry of the preference list that some record carries:
    the selector returns the last record of [l] whose [balanceType] is [t],
    and [choose_balance] reads its fields; on every reordering of [l] it
    returns a record of [l] of that same type [t]; and when only one record
    of [l] carries [t], it returns that record on every reordering.  With
    the default preference order, a list that holds a [closingBooked]
    record (next to [interimAvailable] records or any others) yields a
    [closingBooked] record on every reordering, and yields the
    [closingBooked] record when there is only one. *)
Theorem selector_follows_preference_order
  (environ : gmap string string) (d : gmap string json) (l : list json) :
  d !! "balances" = Some (JList l) ->
  Forall (fun b => is_record b = true) l ->
  (forall t, earliest_present (preferred_types environ) l = Some t ->
     (exists b, choose_record environ (JDict d) = Ok b
        /\ choose_balance environ (JDict d) = balance_fields b
        /\ last_of_type t l = Some b /\ b ∈ l /\ record_type b = Some t)
     /\ (forall l', l' ≡ₚ l ->
         exists b', choose_record environ (JDict (<["balances" := JList l']> d)) = Ok b'
           /\ b' ∈ l /\ record_type b' = Some t)
     /\ (forall b, b ∈ l -> record_type b = Some t ->
         (forall b', b' ∈ l -> record_type b' = Some t -> b' = b) ->
         forall l', l' ≡ₚ l ->
         choose_record environ (JDict (<["balances" := JList l']> d)) = Ok b))
  /\ (environ !! "BALANCE_TYPE_PREFERENCE" = None ->
      forall cb, cb ∈ l -> record_type cb = Some "closingBooked" ->
      forall l', l' ≡ₚ l ->
      exists b', choose_record environ (JDict (<["balances" := JList l']> d)) = Ok b'
        /\ b' ∈ l /\ record_type b' = Some "closingBooked"
        /\ ((forall b, b ∈ l -> record_type b = Some "closingBooked" -> b = cb) ->
            b' = cb)).
Proof.
  intros Hd Hl.
  assert (Hperm : forall t l', earliest_present (preferred_types environ) l = Some t ->
            l' ≡ₚ l ->
            exists b', choose_record environ (JDict (<["balances" := JList l']> d)) = Ok b'
              /\ b' ∈ l /\ record_type b' = Some t).
  { intros t l' Ht Hp.
    destruct (choose_record_selected environ (<["balances" := JList l']> d) l'
                (lookup_balances_insert d l')
                (perm_not_nil l l' Hp (present_not_nil _ l t Ht))
                (Forall_is_record_perm l l' Hp Hl)) as (b' & Hsel & Hrun).
    exists b'. split; [assumption|].
    destruct (selected_perm _ l l' b' Hp Hsel) as [Hin Hty]; [by eauto|].
    rewrite Ht in Hty. by split. }
  split.
  - intros t Ht. split; [|split].
    + destruct (choose_record_selected environ d l Hd
                  (present_not_nil _ l t Ht) Hl) as (b & Hsel & Hrun).
      exists b. unfold selected in Hsel. rewrite Ht in Hsel.
      destruct (last_of_type_Some t l b Hsel) as [Hin Hty].
      unfold choose_balance. rewrite Hrun. by repeat split.
    + intros l' Hp. by apply Hperm.
    + intros b Hb Hty Huniq l' Hp.
      destruct (Hperm t l' Ht Hp) as (b' & Hrun & Hin' & Hty').
      by rewrite <- (Huniq b' Hin' Hty').
  - intros Hdefault cb Hcb Hty l' Hp.
    assert (Ht : earliest_present (preferred_types environ) l = Some "closingBooked").
    { rewrite preferred_types_default by (by left).
      apply earliest_present_Some. exists [], (tail default_preference).
      split; [reflexivity|]. split; [by eauto|].
      intros t' Ht'. by apply elem_of_nil in Ht'. }
    destruct (Hperm _ l' Ht Hp) as (b' & Hrun & Hin' & Hty').
    exists b'. repeat split; try assumption.
    intros Huniq. by apply Huniq.
Qed.

(** C2, as stated, fails on two records of one type: which of them is
    returned depends on their order in the payload. *)
Lemma selection_depends_on_order_of_duplicates :
  let a := balance_record "closingBooked" "1.00" "EUR" in
  let b := balance_record "closingBooked" "2.00" "EUR" in
  [b; a] ≡ₚ [a; b]
  /\ choose_record ∅ (JDict (balances_payload [a; b])) = Ok b
  /\ choose_record ∅ (JDict (balances_payload [b; a])) = Ok a
  /\ choose_balance ∅ (JDict (balances_payload [a; b]))
     = Ok (Decimal.Finite false "200" (-2), JStr "EUR", JStr "closingBooked", JStr "")
  /\ choose_balance ∅ (JDict (balances_payload [b; a]))
     = Ok (Decimal.Finite false "100" (-2), JStr "EUR", JStr "closingBooked", JStr "")
  /\ a <> b.
Proof.
  cbv zeta. split; [apply Permutation_swap|].
  split; [vm_compute; reflexivity|].
  split; [vm_compute; reflexivity|].
  split; [vm_compute; reflexivity|].
  split; [vm_compute; reflexivity|].
  intros H. apply (f_equal balance_fields) in H. vm_compute in H. discriminate.
Qed.

(** The amended C2 on the payload of the specification's example, an
    [interimAvailable] record before a [closingBooked] one. *)
Lemma selector_follows_preference_order_witness :
  let ia := balance_record "interimAvailable" "1.00" "EUR" in
  let cb := balance_record "closingBooked" "123.45" "EUR" in
  choose_record ∅ (JDict (<["balances" := JList [cb; ia]]> (balances_payload [ia; cb])))
  = Ok cb.
Proof.
  cbv zeta.
  pose proof (selector_follows_preference_order ∅
                (balances_payload [balance_record "interimAvailable" "1.00" "EUR";
                                   balance_record "closingBooked" "123.45" "EUR"])
                [balance_record "interimAvailable" "1.00" "EUR";
                 balance_record "closingBooked" "123.45" "EUR"]
                eq_refl) as H.
  destruct H as [H _].
  - repeat constructor.
  - destruct (H "closingBooked" eq_refl) as (_ & _ & Huniq).
    apply (Huniq (balance_record "closingBooked" "123.45" "EUR")).
    + right. left.
    + reflexivity.
    + intros b' Hb' Hty.
      apply elem_of_cons in Hb' as [->|Hb']; [vm_compute in Hty; discriminate|].
      apply list_elem_of_singleton in Hb'. assumption.
    + apply Permutation_swap.
Defined.

(** C3.  For a payload whose [balances] is a non-empty list of records
    none of whose [balanceType] is an entry of the preference list: the
    selector returns the first record of the list, and [choose_balance]
    reads the fields of that record. *)
Theorem selector_falls_back_to_first_record
  (environ : gmap string string) (d : gmap string json)
  (b0 : json) (rest : list json) :
  d !! "balances" = Some (JList (b0 :: rest)) ->
  Forall (fun b => is_record b = true) (b0 :: rest) ->
  (forall b s, b ∈ b0 :: rest -> Py.get b "balanceType" = Ok (JStr s) ->
               s ∉ preferred_types environ) ->
  choose_record environ (JDict d) = Ok b0
  /\ choose_balance environ (JDict d) = balance_fields b0.
Proof.
  intros Hd Hl Hnone.
  destruct (choose_record_selected environ d (b0 :: rest) Hd) as (b & Hsel & Hrun);
    [discriminate|assumption|].
  assert (E : earliest_present (preferred_types environ) (b0 :: rest) = None).
  { apply earliest_present_None. intros t x Ht Hx Hty.
    apply record_type_get in Hty as [Hget _].
    by apply (Hnone x t Hx Hget). }
  unfold selected in Hsel. rewrite E in Hsel. injection Hsel as <-.
  unfold choose_balance. rewrite Hrun. by split.
Qed.

Lemma selector_falls_back_to_first_record_witness :
  choose_record ∅
    (JDict (balances_payload [balance_record "forwardAvailable" "7.10" "EUR";
                              balance_record "information" "9.99" "EUR"]))
  = Ok (balance_record "forwardAvailable" "7.10" "EUR").
Proof.
  apply (selector_falls_back_to_first_record ∅
           (balances_payload [balance_record "forwardAvailable" "7.10" "EUR";
                              balance_record "information" "9.99" "EUR"])
           (balance_record "forwardAvailable" "7.10" "EUR")
           [balance_record "information" "9.99" "EUR"]).
  - reflexivity.
  - repeat constructor.
  - intros b s Hb Hget Hin.
    apply elem_of_cons in Hb as [->|Hb].
    + vm_compute in Hget. injection Hget as <-.
      vm_compute in Hin. repeat (apply elem_of_cons in Hin as [Hin|Hin]; [discriminate|]).
      by apply elem_of_nil in Hin.
    + apply list_elem_of_singleton in Hb as ->.
      vm_compute in Hget. injection Hget as <-.
      vm_compute in Hin. repeat (apply elem_of_cons in Hin as [Hin|Hin]; [discriminate|]).
      by apply elem_of_nil in Hin.
Defined.

(** C5.  For a payload without a [balances] key, or whose [balances] is
    the empty list: the selector raises the error "No balances returned"
    and returns nothing. *)
Theorem selector_fails_without_balances
  (environ : gmap string string) (d : gmap string json) :
  d !! "balances" = None \/ d !! "balances" = Some (JList []) ->
  choose_record environ (JDict d) = Raise (RuntimeError NoBalances)
  /\ choose_balance environ (JDict d) = Raise (RuntimeError NoBalances)
  /\ forall r, choose_balance environ (JDict d) <> Ok r.
Proof.
  intros H.
  assert (E : choose_record environ (JDict d) = Raise (RuntimeError NoBalances)).
  { unfold choose_record. simpl. destruct H as [-> | ->]; reflexivity. }
  unfold choose_balance. rewrite E. repeat split. discriminate.
Qed.

Lemma selector_fails_without_balances_witness :
  choose_balance ∅ (JDict (<["account" := JStr "x"]> ∅))
  = Raise (RuntimeError NoBalances)
  /\ choose_balance ∅ (JDict (balances_payload []))
     = Raise (RuntimeError NoBalances).
Proof.
  split.
  - apply (selector_fails_without_balances ∅ (<["account" := JStr "x"]> ∅)).
    left. reflexivity.
  - apply (selector_fails_without_balances ∅ (balances_payload [])).
    right. reflexivity.
Defined.

(** C9.  For a payload whose [balances] is a list [l] of records.  Every
    entry of the type index is a record of [l] under its own non-empty
    [balanceType], so a record whose [balanceType] is absent or empty is
    not in the index.  When the selector returns such a record, it is the
    first record of [l] and no record's type is in the preference list.
    And when the first record has no [balanceType] while a later record's
    type is in the preference list, the selector returns a later record
    whose type is in the preference list: the later record itself when it
    is the only one of the later records with a preferred type. *)
Theorem untyped_records_only_by_fallback
  (environ : gmap string string) (d : gmap string json) (l : list json) :
  d !! "balances" = Some (JList l) ->
  Forall (fun b => is_record b = true) l ->
  (exists m, by_type_of l = Ok m
     /\ (forall t b, m !! t = Some b ->
           b ∈ l /\ Py.get b "balanceType" = Ok (JStr t) /\ t <> EmptyString)
     /\ (forall t b, m !! t = Some b -> ~ untyped b))
  /\ (forall b, choose_record environ (JDict d) = Ok b -> untyped b ->
        head l = Some b
        /\ forall t x, t ∈ preferred_types environ -> x ∈ l ->
                       record_type x <> Some t)
  /\ (forall b0 rest later t,
        l = b0 :: rest -> untyped b0 ->
        later ∈ rest -> record_type later = Some t ->
        t ∈ preferred_types environ ->
        exists b', choose_record environ (JDict d) = Ok b'
          /\ b' ∈ rest
          /\ (exists t', t' ∈ preferred_types environ /\ record_type b' = Some t')
          /\ ((forall x t', x ∈ rest -> record_type x = Some t' ->
                 t' ∈ preferred_types environ -> x = later) ->
              b' = later)).
Proof.
  intros Hd Hl. split; [|split].
  - destruct (by_type_of_lookup l Hl) as (m & Hm & Hlook).
    exists m. split; [assumption|].
    assert (Hentry : forall t b, m !! t = Some b ->
              b ∈ l /\ Py.get b "balanceType" = Ok (JStr t) /\ t <> EmptyString).
    { intros t b Hb. rewrite Hlook in Hb.
      apply last_of_type_Some in Hb as [Hin Hty].
      apply record_type_get in Hty as [Hget Hne]. by repeat split. }
    split; [assumption|].
    intros t b Hb Hun. destruct (Hentry t b Hb) as (_ & Hget & Hne).
    apply untyped_record_type in Hun.
    rewrite (get_record_type b t Hget Hne) in Hun. discriminate.
  - intros b Hrun Hun.
    destruct l as [|b0 rest].
    { unfold choose_record in Hrun. simpl in Hrun. rewrite Hd in Hrun.
      discriminate. }
    destruct (choose_record_selected environ d (b0 :: rest) Hd) as (b' & Hsel & Hrun');
      [discriminate|assumption|].
    rewrite Hrun in Hrun'. injection Hrun' as <-.
    unfold selected in Hsel.
    destruct (earliest_present (preferred_types environ) (b0 :: rest)) as [t|] eqn:E.
    + apply last_of_type_Some in Hsel as [_ Hty].
      apply untyped_record_type in Hun. congruence.
    + split; [assumption|]. by apply earliest_present_None.
  - intros b0 rest later t -> Hun Hlater Hty Hpref.
    destruct (choose_record_selected environ d (b0 :: rest) Hd) as (b' & Hsel & Hrun);
      [discriminate|assumption|].
    exists b'. split; [assumption|].
    unfold selected in Hsel.
    destruct (earliest_present (preferred_types environ) (b0 :: rest)) as [t'|] eqn:E.
    + pose proof E as E'.
      apply earliest_present_Some in E' as (before & after & Hsplit & _ & _).
      apply last_of_type_Some in Hsel as [Hin Hty'].
      assert (Hrest : b' ∈ rest).
      { apply elem_of_cons in Hin as [->|Hin]; [|assumption].
        apply untyped_record_type in Hun. congruence. }
      assert (Hpref' : t' ∈ preferred_types environ).
      { rewrite Hsplit. apply elem_of_app. right. left. }
      split; [assumption|]. split; [by eauto|].
      intros Huniq. by apply (Huniq b' t').
    + exfalso.
      apply (proj1 (earliest_present_None _ _) E t later Hpref);
        [by right|assumption].
Qed.

Lemma untyped_records_only_by_fallback_witness :
  choose_record ∅
    (JDict (balances_payload [untyped_record "5.00" "EUR";
                              balance_record "expected" "6.00" "EUR"]))
  = Ok (balance_record "expected" "6.00" "EUR").
Proof.
  destruct (untyped_records_only_by_fallback ∅
              (balances_payload [untyped_record "5.00" "EUR";
                                 balance_record "expected" "6.00" "EUR"])
              [untyped_record "5.00" "EUR"; balance_record "expected" "6.00" "EUR"]
              eq_refl) as (_ & _ & H).
  - repeat constructor.
  - destruct (H (untyped_record "5.00" "EUR")
                [balance_record "expected" "6.00" "EUR"]
                (balance_record "expected" "6.00" "EUR") "expected" eq_refl)
      as (b' & Hrun & _ & _ & Huniq).
    + exists JNull. split; reflexivity.
    + left.
    + reflexivity.
    + vm_compute. do 4 right. left.
    + rewrite Hrun. f_equal. apply Huniq.
      intros x t' Hx _ _. by apply list_elem_of_singleton in Hx.
Defined.

(** ** Decimal numerals *)

Section Numerals.

Implicit Types (s ip fp : string) (c : ascii).

Lemma append_cons c s1 s2 : String c s1 +:+ s2 = String c (s1 +:+ s2).
Proof. reflexivity. Qed.

Lemma append_empty_r s : s +:+ "" = s.
Proof.
  induction s as [|c r IH]; [reflexivity|]. by rewrite append_cons, IH.
Qed.

Lemma append_assoc s1 s2 s3 : (s1 +:+ s2) +:+ s3 = s1 +:+ (s2 +:+ s3).
Proof.
  induction s1 as [|c r IH]; [reflexivity|]. by rewrite !append_cons, IH.
Qed.

Lemma length_append s1 s2 :
  String.length (s1 +:+ s2) = (String.length s1 + String.length s2)%nat.
Proof.
  induction s1 as [|c r IH]; [reflexivity|].
  rewrite append_cons. simpl. by rewrite IH.
Qed.

Lemma digit_not_space c : PyStr.is_digit c = true -> PyStr.is_space c = false.
Proof.
  unfold PyStr.is_digit, PyStr.is_space. cbv zeta. intros H.
  apply andb_true_iff in H as [H1 H2].
  apply N.leb_le in H1, H2.
  repeat (apply orb_false_iff; split);
    try (apply andb_false_iff);
    rewrite ?N.leb_gt, ?N.eqb_neq; lia.
Qed.

Lemma digit_not_char c x :
  PyStr.is_digit c = true -> PyStr.is_digit x = false -> Ascii.eqb c x = false.
Proof.
  intros Hc Hx. destruct (Ascii.eqb_spec c x) as [->|]; [congruence|reflexivity].
Qed.

Lemma all_digits_all_chars P s :
  (forall c, PyStr.is_digit c = true -> P c = true) ->
  PyStr.all_digits s = true -> all_chars P s = true.
Proof.
  intros HP. induction s as [|c r IH]; simpl; [reflexivity|].
  intros H. apply andb_true_iff in H as [Hc Hr].
  by rewrite (HP c Hc), IH.
Qed.

Lemma all_chars_append P s1 s2 :
  all_chars P (s1 +:+ s2) = all_chars P s1 && all_chars P s2.
Proof.
  induction s1 as [|c r IH]; [reflexivity|].
  rewrite append_cons. cbn [all_chars]. by rewrite IH, andb_assoc.
Qed.

Lemma rstrip_no_space s :
  all_chars (fun c => negb (PyStr.is_space c)) s = true -> PyStr.rstrip s = s.
Proof.
  induction s as [|c r IH]; simpl; [reflexivity|].
  intros H. apply andb_true_iff in H as [Hc Hr]. rewrite (IH Hr).
  apply negb_true_iff in Hc. rewrite Hc. by destruct r.
Qed.

Lemma strip_no_space s :
  all_chars (fun c => negb (PyStr.is_space c)) s = true -> PyStr.strip s = s.
Proof.
  intros H. unfold PyStr.strip.
  assert (PyStr.lstrip s = s) as ->; [|by apply rstrip_no_space].
  destruct s as [|c r]; [reflexivity|]. simpl in *.
  apply andb_true_iff in H as [Hc _]. apply negb_true_iff in Hc.
  by rewrite Hc.
Qed.

Lemma remove_char_absent x s :
  all_chars (fun c => negb (Ascii.eqb c x)) s = true ->
  PyStr.remove_char x s = s.
Proof.
  induction s as [|c r IH]; simpl; [reflexivity|].
  intros H. apply andb_true_iff in H as [Hc Hr].
  apply negb_true_iff in Hc. by rewrite Hc, IH.
Qed.

(** The digits are read up to the first character that is none. *)
Lemma span_digits_append s rest :
  PyStr.all_digits s = true ->
  match rest with
  | String c _ => PyStr.is_digit c = false
  | EmptyString => True
  end ->
  PyStr.span_digits (s +:+ rest) = (s, rest).
Proof.
  intros Hs Hrest. induction s as [|c r IH].
  - destruct rest as [|c r]; [reflexivity|]. simpl. by rewrite Hrest.
  - simpl in Hs. apply andb_true_iff in Hs as [Hc Hr].
    rewrite append_cons. cbn [PyStr.span_digits]. by rewrite Hc, (IH Hr).
Qed.

Lemma digits_value_from_int_value s : forall acc,
  PyStr.digits_value_from acc s
  = acc * 10 ^ Z.of_nat (String.length s) + int_value s.
Proof.
  induction s as [|c r IH]; intros acc; simpl String.length.
  - simpl. lia.
  - cbn [PyStr.digits_value_from int_value]. rewrite IH.
    rewrite Nat2Z.inj_succ, Z.pow_succ_r by lia. ring.
Qed.

Lemma digits_value_int_value s : PyStr.digits_value s = int_value s.
Proof. unfold PyStr.digits_value. rewrite digits_value_from_int_value. ring. Qed.

Lemma int_value_append s1 s2 :
  int_value (s1 +:+ s2)
  = int_value s1 * 10 ^ Z.of_nat (String.length s2) + int_value s2.
Proof.
  induction s1 as [|c r IH].
  { change (int_value s2 = 0 * 10 ^ Z.of_nat (String.length s2) + int_value s2).
    lia. }
  rewrite append_cons. cbn [int_value].
  rewrite IH, length_append, Nat2Z.inj_add, Z.pow_add_r by lia. ring.
Qed.

Lemma strip_zeros_cons c c' r :
  PyStr.strip_zeros (String c (String c' r))
  = if Ascii.eqb c "0" then PyStr.strip_zeros (String c' r)
    else String c (String c' r).
Proof. reflexivity. Qed.

Lemma int_value_strip_zeros s : int_value (PyStr.strip_zeros s) = int_value s.
Proof.
  induction s as [|c r IH]; [reflexivity|].
  destruct r as [|c' r']; [reflexivity|].
  rewrite strip_zeros_cons.
  destruct (Ascii.eqb_spec c "0") as [->|]; [|reflexivity].
  rewrite IH. cbn [int_value]. change (PyStr.digit_val "0") with 0. lia.
Qed.

Lemma frac_value_int_value s :
  (frac_value s == inject_Z (int_value s) / inject_Z (10 ^ Z.of_nat (String.length s)))%Q.
Proof.
  induction s as [|c r IH]; [reflexivity|].
  cbn [frac_value int_value String.length].
  rewrite IH, Nat2Z.inj_succ, Z.pow_succ_r by lia.
  rewrite inject_Z_plus, !inject_Z_mult.
  assert (Hpos : ~ (inject_Z (10 ^ Z.of_nat (String.length r)) == 0)%Q).
  { change 0%Q with (inject_Z 0). rewrite inject_Z_injective.
    apply Z.pow_nonzero; lia. }
  change (inject_Z 10) with 10%Q. field. assumption.
Qed.

End Numerals.

Section DecimalOfNumeral.

Implicit Types (s ip fp : string) (c : ascii).

Lemma numeral_plain neg ip fp (P : ascii -> bool) :
  (forall c, PyStr.is_digit c = true -> P c = true) ->
  P "-"%char = true -> P "."%char = true ->
  PyStr.all_digits ip = true -> PyStr.all_digits fp = true ->
  all_chars P (numeral neg ip fp) = true.
Proof.
  intros HP Hminus Hdot Hip Hfp. unfold numeral.
  rewrite !all_chars_append.
  rewrite (all_digits_all_chars P ip HP Hip), (all_digits_all_chars P fp HP Hfp).
  destruct neg; simpl; by rewrite ?Hminus, ?Hdot.
Qed.

Lemma numeral_strip neg ip fp :
  PyStr.all_digits ip = true -> PyStr.all_digits fp = true ->
  PyStr.remove_char "_" (PyStr.strip (numeral neg ip fp)) = numeral neg ip fp.
Proof.
  intros Hip Hfp.
  rewrite strip_no_space.
  - apply remove_char_absent. apply numeral_plain; try done.
    intros c Hc. apply negb_true_iff. by apply digit_not_char.
  - apply numeral_plain; try done.
    intros c Hc. apply negb_true_iff. by apply digit_not_space.
Qed.

Lemma numeral_split_sign neg ip fp :
  PyStr.all_digits ip = true -> ip <> EmptyString ->
  PyStr.split_sign (numeral neg ip fp) = (neg, ip +:+ "." +:+ fp).
Proof.
  intros Hip Hne. unfold numeral. destruct neg; [reflexivity|].
  destruct ip as [|c r]; [contradiction|].
  simpl in Hip. apply andb_true_iff in Hip as [Hc _].
  change ("" +:+ String c r +:+ "." +:+ fp) with (String c (r +:+ "." +:+ fp)).
  unfold PyStr.split_sign.
  by rewrite (digit_not_char c "-" Hc), (digit_not_char c "+" Hc).
Qed.

Lemma parse_finite_numeral neg ip fp :
  PyStr.all_digits ip = true -> ip <> EmptyString ->
  PyStr.all_digits fp = true ->
  Decimal.parse_finite neg (ip +:+ "." +:+ fp)
  = Some (Decimal.Finite neg (PyStr.strip_zeros (ip +:+ fp))
                         (- Z.of_nat (String.length fp))).
Proof.
  intros Hip Hne Hfp. unfold Decimal.parse_finite.
  assert (Decimal.starts_number (ip +:+ "." +:+ fp) = true) as ->.
  { destruct ip as [|c r]; [contradiction|].
    simpl in Hip. apply andb_true_iff in Hip as [Hc _].
    rewrite append_cons. simpl. by rewrite Hc. }
  rewrite (span_digits_append ip ("." +:+ fp) Hip) by reflexivity.
  change ("." +:+ fp) with (String "." fp). cbv iota beta.
  change (Ascii.eqb "." ".") with true. cbv iota.
  rewrite <- (append_empty_r fp) at 1.
  rewrite (span_digits_append fp "" Hfp) by exact I.
  reflexivity.
Qed.

(** [Decimal(s)] on a numeral [-ip.fp]: the digits are kept, all of
    them, and the exponent counts the digits after the point. *)
Lemma decimal_of_numeral neg ip fp :
  PyStr.all_digits ip = true -> ip <> EmptyString ->
  PyStr.all_digits fp = true ->
  Decimal.of_json (JStr (numeral neg ip fp))
  = Ok (Decimal.Finite neg (PyStr.strip_zeros (ip +:+ fp))
                       (- Z.of_nat (String.length fp))).
Proof.
  intros Hip Hne Hfp. unfold Decimal.of_json, Decimal.of_str.
  rewrite (numeral_strip neg ip fp Hip Hfp).
  rewrite (numeral_split_sign neg ip fp Hip Hne).
  by rewrite (parse_finite_numeral neg ip fp Hip Hne Hfp).
Qed.

Lemma decimal_of_integer_numeral neg ip :
  PyStr.all_digits ip = true -> ip <> EmptyString ->
  Decimal.of_json (JStr (integer_numeral neg ip))
  = Ok (Decimal.Finite neg (PyStr.strip_zeros ip) 0).
Proof.
  intros Hip Hne. unfold Decimal.of_json, Decimal.of_str.
  assert (Hplain : forall P : ascii -> bool,
            (forall c, PyStr.is_digit c = true -> P c = true) ->
            P "-"%char = true ->
            all_chars P (integer_numeral neg ip) = true).
  { intros P HP Hminus. unfold integer_numeral. rewrite all_chars_append.
    rewrite (all_digits_all_chars P ip HP Hip).
    destruct neg; simpl; by rewrite ?Hminus. }
  rewrite strip_no_space, remove_char_absent.
  - destruct ip as [|c r]; [contradiction|].
    pose proof Hip as Hip'. simpl in Hip'.
    apply andb_true_iff in Hip' as [Hc _].
    assert (PyStr.split_sign (integer_numeral neg (String c r))
            = (neg, String c r)) as ->.
    { unfold integer_numeral. destruct neg; [reflexivity|].
      change ("" +:+ String c r) with (String c r). unfold PyStr.split_sign.
      by rewrite (digit_not_char c "-" Hc), (digit_not_char c "+" Hc). }
    unfold Decimal.parse_finite.
    assert (Decimal.starts_number (String c r) = true) as ->
      by (simpl; by rewrite Hc).
    rewrite <- (append_empty_r (String c r)) at 1.
    rewrite (span_digits_append (String c r) "" Hip) by exact I.
    cbv iota beta. by rewrite append_empty_r.
  - apply Hplain; [|reflexivity].
    intros c Hc. apply negb_true_iff. by apply digit_not_char.
  - apply Hplain; [|reflexivity].
    intros c Hc. apply negb_true_iff. by apply digit_not_space.
Qed.

(** The number that [Decimal] stands for is the number the numeral
    denotes. *)
Lemma decimal_value_numeral neg ip fp :
  exists q,
    Decimal.value (Decimal.Finite neg (PyStr.strip_zeros (ip +:+ fp))
                                  (- Z.of_nat (String.length fp))) = Some q
    /\ (q == numeral_value neg ip fp)%Q.
Proof.
  unfold Decimal.value. eexists. split; [reflexivity|].
  rewrite digits_value_int_value, int_value_strip_zeros, int_value_append.
  unfold numeral_value. cbv zeta.
  pose proof (frac_value_int_value fp) as Hfrac. revert Hfrac.
  generalize (frac_value fp). intros f Hfrac.
  set (n := Z.of_nat (String.length fp)) in *.
  set (a := int_value ip). set (b := int_value fp) in *.
  assert (Hn : 0 <= n) by (unfold n; lia).
  assert (Hpow : 0 < 10 ^ n) by (apply Z.pow_pos_nonneg; lia).
  assert (Hnz : ~ (inject_Z (10 ^ n) == 0)%Q).
  { change 0%Q with (inject_Z 0). rewrite inject_Z_injective. lia. }
  destruct (0 <=? - n) eqn:E.
  - apply Z.leb_le in E. assert (Hz : n = 0) by lia.
    revert Hfrac. rewrite Hz. change (10 ^ 0) with 1. change (10 ^ (- 0)) with 1.
    intros Hfrac.
    destruct neg; rewrite Hfrac;
      repeat first [rewrite inject_Z_mult | rewrite inject_Z_opp
                   | rewrite inject_Z_plus];
      change (inject_Z 1) with 1%Q; field.
  - rewrite Z.opp_involutive.
    rewrite Qmake_Qdiv, Z2Pos.id by assumption.
    destruct neg; rewrite Hfrac;
      repeat first [rewrite inject_Z_mult | rewrite inject_Z_opp
                   | rewrite inject_Z_plus];
      field; assumption.
Qed.

End DecimalOfNumeral.

Section DecimalToStr.

Implicit Types (s ip fp : string) (c : ascii).

Lemma take_append s1 s2 : PyStr.take (String.length s1) (s1 +:+ s2) = s1.
Proof.
  induction s1 as [|c r IH]; [by destruct s2|].
  rewrite append_cons. simpl. by rewrite IH.
Qed.

Lemma drop_append s1 s2 : PyStr.drop (String.length s1) (s1 +:+ s2) = s2.
Proof.
  induction s1 as [|c r IH]; [by destruct s2|].
  rewrite append_cons. simpl. by rewrite IH.
Qed.

(** [str(d)] when the point falls inside the coefficient. *)
Lemma to_str_point_inside sign s1 s2 :
  s1 <> EmptyString -> s2 <> EmptyString ->
  Decimal.to_str (Decimal.Finite sign (s1 +:+ s2) (- Z.of_nat (String.length s2)))
  = (if sign then "-" else "") +:+ s1 +:+ "." +:+ s2.
Proof.
  intros H1 H2. unfold Decimal.to_str. rewrite length_append.
  assert (0 < String.length s1)%nat by (destruct s1; simpl; [done|lia]).
  assert (0 < String.length s2)%nat by (destruct s2; simpl; [done|lia]).
  set (n1 := String.length s1) in *. set (n2 := String.length s2) in *.
  replace (- Z.of_nat n2 + Z.of_nat (n1 + n2)) with (Z.of_nat n1) by lia.
  replace (- Z.of_nat n2 <=? 0) with true by (symmetry; apply Z.leb_le; lia).
  replace (-6 <? Z.of_nat n1) with true by (symmetry; apply Z.ltb_lt; lia).
  cbn [andb].
  replace (Z.of_nat n1 <=? 0) with false by (symmetry; apply Z.leb_gt; lia).
  replace (Z.of_nat (n1 + n2) <=? Z.of_nat n1) with false
    by (symmetry; apply Z.leb_gt; lia).
  rewrite Z.eqb_refl, Nat2Z.id. unfold n1.
  rewrite take_append, drop_append.
  by rewrite !append_empty_r.
Qed.

(** [str(d)] when the coefficient is all behind the point, fewer than
    six zeros after the point. *)
Lemma to_str_leading_zero sign s (k : nat) :
  s <> EmptyString -> (k < 6)%nat ->
  Decimal.to_str (Decimal.Finite sign s (- Z.of_nat (k + String.length s)))
  = (if sign then "-" else "") +:+ "0" +:+ "." +:+ PyStr.zeros k +:+ s.
Proof.
  intros Hs Hk. unfold Decimal.to_str.
  assert (0 < String.length s)%nat by (destruct s; simpl; [done|lia]).
  set (n := String.length s) in *.
  replace (- Z.of_nat (k + n) + Z.of_nat n) with (- Z.of_nat k) by lia.
  replace (- Z.of_nat (k + n) <=? 0) with true by (symmetry; apply Z.leb_le; lia).
  replace (-6 <? - Z.of_nat k) with true by (symmetry; apply Z.ltb_lt; lia).
  cbn [andb].
  replace (- Z.of_nat k <=? 0) with true by (symmetry; apply Z.leb_le; lia).
  rewrite Z.eqb_refl, Z.opp_involutive, Nat2Z.id.
  by rewrite !append_empty_r.
Qed.

Lemma strip_zeros_length s :
  (String.length (PyStr.strip_zeros s) <= String.length s)%nat
  /\ (s <> EmptyString -> PyStr.strip_zeros s <> EmptyString).
Proof.
  induction s as [|c r IH]; [by split|].
  destruct r as [|c' r']; [by split|].
  rewrite strip_zeros_cons. destruct (Ascii.eqb c "0"); [|by split].
  destruct IH as [IH1 IH2]. split; [simpl in *; lia|].
  intros _. by apply IH2.
Qed.

(** The zeros that [strip_zeros] takes off, put back. *)
Lemma strip_zeros_zeros s :
  PyStr.zeros (String.length s - String.length (PyStr.strip_zeros s))
  +:+ PyStr.strip_zeros s = s.
Proof.
  induction s as [|c r IH]; [reflexivity|].
  destruct r as [|c' r']; [reflexivity|].
  rewrite strip_zeros_cons. destruct (Ascii.eqb_spec c "0") as [->|].
  - destruct (strip_zeros_length (String c' r')) as [Hlen _].
    replace (String.length (String "0" (String c' r'))
             - String.length (PyStr.strip_zeros (String c' r')))%nat
      with (S (String.length (String c' r')
               - String.length (PyStr.strip_zeros (String c' r'))))
      by (simpl in *; lia).
    cbn [PyStr.zeros]. rewrite append_cons. by rewrite IH.
  - by rewrite Nat.sub_diag.
Qed.

Lemma canonical_strip_zeros ip fp :
  canonical ip -> ip <> "0" ->
  PyStr.strip_zeros (ip +:+ fp) = ip +:+ fp.
Proof.
  intros [Hne Hcan] Hnz.
  destruct ip as [|c r]; [contradiction|].
  destruct r as [|c' r'].
  - destruct fp as [|x fp']; [reflexivity|].
    change (String c "" +:+ String x fp') with (String c (String x fp')).
    rewrite strip_zeros_cons.
    destruct (Ascii.eqb_spec c "0") as [->|]; [contradiction|reflexivity].
  - rewrite strip_zeros_cons in Hcan.
    change (String c (String c' r') +:+ fp) with (String c (String c' (r' +:+ fp))).
    rewrite strip_zeros_cons.
    destruct (Ascii.eqb c "0"); [|reflexivity].
    exfalso. destruct (strip_zeros_length (String c' r')) as [Hlen _].
    rewrite Hcan in Hlen. simpl in Hlen. lia.
Qed.

(** [str(d)] when the exponent is zero. *)
Lemma to_str_integer sign s :
  s <> EmptyString ->
  Decimal.to_str (Decimal.Finite sign s 0) = (if sign then "-" else "") +:+ s.
Proof.
  intros Hs. unfold Decimal.to_str.
  assert (0 < String.length s)%nat by (destruct s; simpl; [done|lia]).
  set (n := String.length s) in *.
  replace (0 + Z.of_nat n) with (Z.of_nat n) by lia.
  change (0 <=? 0) with true.
  replace (-6 <? Z.of_nat n) with true by (symmetry; apply Z.ltb_lt; lia).
  cbn [andb].
  replace (Z.of_nat n <=? 0) with false by (symmetry; apply Z.leb_gt; lia).
  rewrite Z.leb_refl, Z.eqb_refl, Z.sub_diag.
  change (PyStr.zeros (Z.to_nat 0)) with "".
  by rewrite !append_empty_r.
Qed.

(** Written back with [str], the numeral is what it was. *)
Lemma to_str_numeral neg ip fp :
  canonical ip ->
  (1 <= String.length fp <= 6)%nat ->
  Decimal.to_str (Decimal.Finite neg (PyStr.strip_zeros (ip +:+ fp))
                                 (- Z.of_nat (String.length fp)))
  = numeral neg ip fp.
Proof.
  intros Hcan Hfp. unfold numeral.
  assert (Hfpne : fp <> EmptyString) by (intros ->; simpl in Hfp; lia).
  destruct (String.eqb_spec ip "0") as [->|Hnz].
  - destruct fp as [|x fp']; [contradiction|].
    change ("0" +:+ String x fp') with (String "0" (String x fp')).
    rewrite strip_zeros_cons. change (Ascii.eqb "0" "0") with true. cbv iota.
    set (fp := String x fp') in *.
    destruct (strip_zeros_length fp) as [Hlen Hne].
    replace (String.length fp)
      with ((String.length fp - String.length (PyStr.strip_zeros fp))
            + String.length (PyStr.strip_zeros fp))%nat at 1 by lia.
    rewrite to_str_leading_zero; [|by apply Hne|].
    + by rewrite strip_zeros_zeros.
    + specialize (Hne Hfpne).
      destruct (PyStr.strip_zeros fp); [contradiction|]. simpl in *. lia.
  - rewrite (canonical_strip_zeros ip fp Hcan Hnz).
    apply to_str_point_inside; [apply Hcan|assumption].
Qed.

End DecimalToStr.

(** The digits of an [int]: the fuel of [digits_of] is enough, and [int]
    reads back what [str] writes. *)
Section IntToStr.

Implicit Types (s : string) (n : Z).

Lemma all_digits_append s1 s2 :
  PyStr.all_digits (s1 +:+ s2) = PyStr.all_digits s1 && PyStr.all_digits s2.
Proof.
  induction s1 as [|c r IH]; [reflexivity|].
  rewrite append_cons. simpl. by rewrite IH, andb_assoc.
Qed.

Lemma digit_char_digit d :
  0 <= d < 10 ->
  PyStr.is_digit (PyStr.digit_char d) = true
  /\ PyStr.digit_val (PyStr.digit_char d) = d.
Proof.
  intros Hd.
  assert (H : d = 0 \/ d = 1 \/ d = 2 \/ d = 3 \/ d = 4 \/ d = 5 \/ d = 6
              \/ d = 7 \/ d = 8 \/ d = 9) by lia.
  repeat destruct H as [->|H]; try subst d; by vm_compute.
Qed.

Lemma digits_of_fuel_S k n acc :
  PyStr.digits_of_fuel (S k) n acc
  = if n / 10 =? 0 then String (PyStr.digit_char (n mod 10)) acc
    else PyStr.digits_of_fuel k (n / 10) (String (PyStr.digit_char (n mod 10)) acc).
Proof. reflexivity. Qed.

Lemma digits_of_fuel_spec k : forall n acc,
  0 <= n < 2 ^ Z.of_nat (S k) ->
  exists ds, PyStr.digits_of_fuel (S k) n acc = ds +:+ acc
             /\ PyStr.all_digits ds = true /\ ds <> EmptyString
             /\ int_value ds = n.
Proof.
  induction k as [|k IH]; intros n acc Hn; rewrite digits_of_fuel_S.
  - assert (n / 10 = 0) as -> by (apply Z.div_small; simpl in Hn; lia).
    rewrite Z.eqb_refl. exists (String (PyStr.digit_char (n mod 10)) EmptyString).
    assert (Hmod : n mod 10 = n) by (apply Z.mod_small; simpl in Hn; lia).
    destruct (digit_char_digit (n mod 10)) as [Hd Hv]; [lia|].
    split; [reflexivity|]. split; [simpl; by rewrite Hd|].
    split; [discriminate|]. simpl. lia.
  - destruct (digit_char_digit (n mod 10)) as [Hd Hv];
      [apply Z.mod_pos_bound; lia|].
    destruct (Z.eqb_spec (n / 10) 0) as [Hq|Hq].
    + exists (String (PyStr.digit_char (n mod 10)) EmptyString).
      split; [reflexivity|]. split; [simpl; by rewrite Hd|].
      split; [discriminate|]. simpl.
      pose proof (Z.div_mod n 10). lia.
    + rewrite Nat2Z.inj_succ, Z.pow_succ_r in Hn by lia.
      destruct (IH (n / 10) (String (PyStr.digit_char (n mod 10)) acc))
        as (ds & Hrun & Hds & Hne & Hval).
      { split; [apply Z.div_pos; lia|].
        apply Z.div_lt_upper_bound; lia. }
      exists (ds +:+ String (PyStr.digit_char (n mod 10)) EmptyString).
      split; [by rewrite Hrun, append_assoc|].
      split; [rewrite all_digits_append, Hds; simpl; by rewrite Hd|].
      split; [by destruct ds|].
      rewrite int_value_append, Hval. simpl.
      pose proof (Z.div_mod n 10). lia.
Qed.

(** [str(n)] for [0 <= n]: digits, at least one, that stand for [n]. *)
Lemma digits_of_spec n :
  0 <= n ->
  PyStr.all_digits (PyStr.digits_of n) = true
  /\ PyStr.digits_of n <> EmptyString
  /\ int_value (PyStr.digits_of n) = n.
Proof.
  intros Hn. unfold PyStr.digits_of.
  destruct (digits_of_fuel_spec (Z.to_nat (Z.log2 n)) n EmptyString)
    as (ds & -> & Hds & Hne & Hval).
  - rewrite Nat2Z.inj_succ, Z2Nat.id by apply Z.log2_nonneg.
    destruct (Z.eq_dec n 0) as [->|Hnz]; [simpl; lia|].
    split; [lia|]. apply Z.log2_spec. lia.
  - by rewrite append_empty_r.
Qed.

Lemma int_digits_all_digits s :
  PyStr.all_digits s = true -> s <> EmptyString ->
  forall b, Py.int_digits b s = Some s.
Proof.
  induction s as [|c r IH]; [done|]. simpl. intros H _ b.
  apply andb_true_iff in H as [Hc Hr]. rewrite Hc.
  destruct r as [|c' r']; [reflexivity|].
  by rewrite (IH Hr ltac:(discriminate) true).
Qed.

(** [int(str(n))] is [n]. *)
Lemma int_of_str_of_int n : Py.int (JStr (PyStr.str_of_int n)) = Ok n.
Proof.
  unfold Py.int, Py.int_of_str, PyStr.str_of_int.
  destruct (Z.ltb_spec n 0) as [Hneg|Hpos].
  - destruct (digits_of_spec (- n)) as (Hds & Hne & Hval); [lia|].
    rewrite strip_no_space.
    + unfold PyStr.split_sign. change (Ascii.eqb "-" "-") with true. cbv iota.
      rewrite (int_digits_all_digits _ Hds Hne), digits_value_int_value, Hval.
      f_equal. lia.
    + simpl. apply (all_digits_all_chars _ _ (fun c Hc =>
        proj2 (negb_true_iff _) (digit_not_space c Hc)) Hds).
  - destruct (digits_of_spec n) as (Hds & Hne & Hval); [lia|].
    rewrite strip_no_space.
    + destruct (PyStr.digits_of n) as [|c r] eqn:E; [contradiction|].
      pose proof Hds as Hds'. simpl in Hds'.
      apply andb_true_iff in Hds' as [Hc _].
      unfold PyStr.split_sign.
      rewrite (digit_not_char c "-" Hc), (digit_not_char c "+" Hc) by reflexivity.
      by rewrite (int_digits_all_digits _ Hds Hne), digits_value_int_value, Hval.
    + apply (all_digits_all_chars _ _ (fun c Hc =>
        proj2 (negb_true_iff _) (digit_not_space c Hc)) Hds).
Qed.

End IntToStr.

(** C4.  For every selected record whose amount is the string of a
    decimal numeral, that is an optional minus sign and digits, with or
    without a point and digits after it: [choose_balance] reads the amount
    as the [Decimal] that has exactly the digits of the string for
    coefficient and the number of digits after the point for scale.  The
    value of that [Decimal] is the rational number the numeral denotes,
    exactly.  And [str] of it, as [cmd_run] writes it to the sheet, is the
    string again, for an integer part without leading zeros and, when
    there is a point, one to six digits after it.  No float is made on
    the way. *)
Theorem amount_is_exact_decimal
  (d ba : gmap string json) (cur : json) (amount : string)
  (neg : bool) (ip fp : string) :
  d !! "balanceAmount" = Some (JDict ba) ->
  ba !! "amount" = Some (JStr amount) ->
  ba !! "currency" = Some cur ->
  numeral_of amount neg ip fp ->
  PyStr.all_digits ip = true -> ip <> EmptyString ->
  PyStr.all_digits fp = true ->
  (exists btype ref,
     balance_fields (JDict d)
     = Ok (Decimal.Finite neg (PyStr.strip_zeros (ip +:+ fp))
                          (- Z.of_nat (String.length fp)),
           cur, btype, ref))
  /\ (exists q,
        Decimal.value (Decimal.Finite neg (PyStr.strip_zeros (ip +:+ fp))
                                      (- Z.of_nat (String.length fp))) = Some q
        /\ (q == numeral_value neg ip fp)%Q)
  /\ (canonical ip ->
      (amount = numeral neg ip fp -> (1 <= String.length fp <= 6)%nat) ->
      Decimal.to_str (Decimal.Finite neg (PyStr.strip_zeros (ip +:+ fp))
                                     (- Z.of_nat (String.length fp)))
      = amount).
Proof.
  intros Hd Hamount Hcur Hnum Hip Hne Hfp. split; [|split].
  - assert (Hdec : Decimal.of_json (JStr amount)
                   = Ok (Decimal.Finite neg (PyStr.strip_zeros (ip +:+ fp))
                                        (- Z.of_nat (String.length fp)))).
    { destruct Hnum as [-> | [-> ->]].
      - by apply decimal_of_numeral.
      - rewrite append_empty_r. by apply decimal_of_integer_numeral. }
    unfold balance_fields. cbn [Py.getitem]. rewrite Hd.
    cbn [mbind result_bind Py.getitem]. rewrite Hamount.
    cbn [mbind result_bind]. rewrite Hdec.
    cbn [mbind result_bind Py.getitem]. rewrite Hcur.
    cbn [mbind result_bind Py.get_default Py.get].
    destruct (Py.truthy (default JNull (d !! "referenceDate"))); eauto.
  - apply decimal_value_numeral.
  - intros Hcan Hlen. destruct Hnum as [-> | [-> ->]].
    + apply to_str_numeral; [assumption|by apply Hlen].
    + rewrite append_empty_r. destruct Hcan as [_ ->].
      by apply to_str_integer.
Qed.

(** The amount ["123.45"] of the specification: the coefficient 12345 with
    two places, the rational 12345/100, and ["123.45"] when written. *)
Lemma amount_is_exact_decimal_witness :
  (exists btype ref,
     balance_fields (balance_record "closingBooked" "123.45" "EUR")
     = Ok (Decimal.Finite false "12345" (-2), JStr "EUR", btype, ref))
  /\ (exists q, Decimal.value (Decimal.Finite false "12345" (-2)) = Some q
                /\ (q == 12345 # 100)%Q)
  /\ Decimal.to_str (Decimal.Finite false "12345" (-2)) = "123.45".
Proof.
  destruct (amount_is_exact_decimal
              (<["balanceType" := JStr "closingBooked"]>
               (<["balanceAmount" :=
                    JDict (<["amount" := JStr "123.45"]>
                           (<["currency" := JStr "EUR"]> ∅))]> ∅))
              (<["amount" := JStr "123.45"]> (<["currency" := JStr "EUR"]> ∅))
              (JStr "EUR") "123.45" false "123" "45")
    as (Hfields & (q & Hq & Hval) & Hstr);
    try (vm_compute; reflexivity); [by left|discriminate|].
  split; [exact Hfields|]. split.
  - exists q. split; [exact Hq|]. rewrite Hval. reflexivity.
  - apply Hstr.
    + split; [discriminate|reflexivity].
    + intros _. simpl. lia.
Defined.

(** ** Running a computation *)

Section Run.

Context {A B : Type}.
Implicit Types (m : M A) (k : A -> M B) (w : World).

Lemma run_bind m k w :
  (m ≫= k) w
  = match m w with
    | (Ok a, w') => k a w'
    | (Raise e, w') => (Raise e, w')
    end.
Proof. reflexivity. Qed.

Lemma run_bind_ok m k w a w' : m w = (Ok a, w') -> (m ≫= k) w = k a w'.
Proof. intros H. by rewrite run_bind, H. Qed.

Lemma run_bind_raise m k w e w' :
  m w = (Raise e, w') -> (m ≫= k) w = (Raise e, w').
Proof. intros H. by rewrite run_bind, H. Qed.

End Run.

(** ** The secrets directory *)

Section Directory.

Implicit Types (f : gmap path node) (d p : path) (name : string) (n : node).

Lemma child_name_Some d p name :
  child_name d p = Some name <-> p = d ++ [name].
Proof.
  revert p. induction d as [|x d IH]; intros p; simpl.
  - destruct p as [|y [|z p]]; split; try discriminate; congruence.
  - destruct p as [|y p]; [split; discriminate|].
    destruct (String.eqb_spec x y) as [->|Hne].
    + rewrite IH. split; congruence.
    + split; [discriminate|]. intros [= -> _]. contradiction.
Qed.

Lemma elem_of_entries f d name n :
  (name, n) ∈ entries f d <-> f !! (d ++ [name]) = Some n.
Proof.
  unfold entries. rewrite list_elem_of_omap. split.
  - intros ([p n'] & Hin & Hg). apply elem_of_map_to_list in Hin.
    destruct (child_name d p) as [name'|] eqn:E; [|discriminate].
    simpl in Hg. injection Hg as -> ->.
    apply child_name_Some in E as ->. assumption.
  - intros H. exists (d ++ [name], n). split.
    + by apply elem_of_map_to_list.
    + by rewrite (proj2 (child_name_Some d (d ++ [name]) name) eq_refl).
Qed.

Lemma NoDup_entries f d : NoDup (entries f d).*1.
Proof.
  unfold entries.
  pose proof (NoDup_fst_map_to_list f) as Hnd.
  induction (map_to_list f) as [|[p n] l IH]; [constructor|].
  simpl in Hnd. apply NoDup_cons in Hnd as [Hp Hl]. simpl.
  destruct (child_name d p) as [name|] eqn:E; simpl; [|by apply IH].
  apply NoDup_cons. split; [|by apply IH].
  intros Hin. apply list_elem_of_fmap in Hin as ([name' n'] & -> & Hin).
  apply list_elem_of_omap in Hin as ([p' n''] & Hin & Hg).
  destruct (child_name d p') as [x|] eqn:E'; [|discriminate].
  simpl in Hg. injection Hg as -> ->. simpl in E.
  apply child_name_Some in E, E'. subst.
  apply Hp. apply list_elem_of_fmap. by exists (d ++ [name'], n').
Qed.

Lemma insert_sorted_perm x (l : list string) : insert_sorted x l ≡ₚ x :: l.
Proof.
  induction l as [|y r IH]; simpl; [reflexivity|].
  destruct (x <=? y)%string; [reflexivity|].
  rewrite IH. apply Permutation_swap.
Qed.

Lemma sorted_perm (l : list string) : sorted l ≡ₚ l.
Proof.
  induction l as [|x r IH]; simpl; [reflexivity|].
  by rewrite insert_sorted_perm, IH.
Qed.

Lemma elem_of_json_names f d name :
  name ∈ json_names f d <-> json_file_in f d name.
Proof.
  unfold json_names, json_files, json_file_in. rewrite sorted_perm.
  rewrite list_elem_of_fmap. split.
  - intros ([name' n] & -> & Hin).
    apply list_elem_of_In, filter_In in Hin as [Hin Hfile].
    apply list_elem_of_In, elem_of_entries in Hin. simpl in *.
    apply andb_true_iff in Hfile as [Hfile Hsuf].
    destruct n as [|c]; [discriminate|].
    exists c. split; [assumption|]. by apply String.eqb_eq.
  - intros (c & Hc & Hsuf).
    exists (name, File c). split; [reflexivity|].
    apply list_elem_of_In, filter_In. split.
    + by apply list_elem_of_In, elem_of_entries.
    + simpl. by apply String.eqb_eq.
Qed.

Lemma NoDup_json_names f d : NoDup (json_names f d).
Proof.
  unfold json_names, json_files. rewrite sorted_perm.
  pose proof (NoDup_entries f d) as Hnd.
  induction (entries f d) as [|[name n] l IH]; [constructor|].
  simpl in Hnd. apply NoDup_cons in Hnd as [Hname Hl]. simpl.
  destruct (node_is_file n && (PyStr.lower (suffix name) =? ".json")%string);
    simpl; [|by apply IH].
  apply NoDup_cons. split; [|by apply IH].
  intros Hin. apply Hname.
  apply list_elem_of_fmap in Hin as ([name' n'] & -> & Hin).
  apply list_elem_of_In, filter_In in Hin as [Hin _].
  apply list_elem_of_fmap. exists (name', n').
  split; [reflexivity|by apply list_elem_of_In].
Qed.

(** [find_single_json] on a directory, by the names it counts. *)
Lemma find_single_json_dir d (w : World) :
  stat (fs w) d = Ok Dir ->
  find_single_json d w
  = match json_names (fs w) d with
    | [name] => (Ok (d ++ [name]), w)
    | found => (Raise (RuntimeError (ExpectedOneJson d found)), w)
    end.
Proof.
  intros Hd. unfold find_single_json.
  rewrite (run_bind_ok _ _ w true w) by (unfold path_exists, gets; by rewrite Hd).
  cbn [negb].
  rewrite (run_bind_ok _ _ w (entries (fs w) d) w) by (unfold iterdir; by rewrite Hd).
  change (json_files (entries (fs w) d)) with (json_names (fs w) d).
  destruct (json_names (fs w) d) as [|name [|name' l]]; reflexivity.
Qed.

End Directory.

(** C6.  For every directory path [d] and every state of the file
    system.  When [d] is missing, the lookup raises its error "Secrets dir
    does not exist".  When [d] is a directory: if exactly one of its
    entries is a file with a [.json] extension, the lookup returns the path
    of that file; if none is, or if two or more are, it raises its error
    "Expected exactly 1 .json", which lists the [.json] files it found.
    The lookup changes nothing. *)
Theorem find_single_json_exactly_one (d : path) (w : World) :
  (is_ok (stat (fs w) d) = false ->
   find_single_json d w = (Raise (RuntimeError (SecretsDirMissing d)), w))
  /\ (stat (fs w) d = Ok Dir ->
      (forall name,
         json_file_in (fs w) d name ->
         (forall name', json_file_in (fs w) d name' -> name' = name) ->
         find_single_json d w = (Ok (d ++ [name]), w))
      /\ ((forall name, ~ json_file_in (fs w) d name) ->
          find_single_json d w = (Raise (RuntimeError (ExpectedOneJson d [])), w))
      /\ (forall name1 name2,
            name1 <> name2 ->
            json_file_in (fs w) d name1 -> json_file_in (fs w) d name2 ->
            exists found,
              find_single_json d w
              = (Raise (RuntimeError (ExpectedOneJson d found)), w)
              /\ (2 <= length found)%nat
              /\ forall name, name ∈ found <-> json_file_in (fs w) d name)).
Proof.
  split.
  - intros Hmissing. unfold find_single_json.
    rewrite (run_bind_ok _ _ w false w)
      by (unfold path_exists, gets; by rewrite Hmissing).
    reflexivity.
  - intros Hd. rewrite (find_single_json_dir d w Hd).
    pose proof (NoDup_json_names (fs w) d) as Hnd.
    pose proof (elem_of_json_names (fs w) d) as Hin.
    destruct (json_names (fs w) d) as [|x [|y l]]; (split; [|split]).
    + intros name Hname _. apply Hin in Hname. by apply elem_of_nil in Hname.
    + reflexivity.
    + intros name1 name2 _ H1 _.
      apply Hin in H1. by apply elem_of_nil in H1.
    + intros name Hname _. apply Hin, list_elem_of_singleton in Hname.
      by subst.
    + intros Hnone. exfalso. apply (Hnone x), Hin. left.
    + intros name1 name2 Hne H1 H2.
      apply Hin, list_elem_of_singleton in H1, H2. congruence.
    + intros name Hname Huniq.
      assert (x = name) by (apply Huniq, Hin; left).
      assert (y = name) by (apply Huniq, Hin; right; left).
      subst. apply NoDup_cons in Hnd as [Hx _]. exfalso. apply Hx. left.
    + intros Hnone. exfalso. apply (Hnone x), Hin. left.
    + intros name1 name2 _ _ _. exists (x :: y :: l).
      split; [reflexivity|]. split; [simpl; lia|assumption].
Qed.

(** C6 in the demo world: the secrets directory with its one [.json]
    file gives that file; the directory above it, which holds
    directories only, and a directory that is missing make the lookup
    fail. *)
Lemma find_single_json_exactly_one_witness :
  find_single_json ["secrets"; "gcbad"] (demo_world None 200)
  = (Ok ["secrets"; "gcbad"; "user.json"], demo_world None 200)
  /\ find_single_json ["secrets"] (demo_world None 200)
     = (Raise (RuntimeError (ExpectedOneJson ["secrets"] [])), demo_world None 200)
  /\ find_single_json ["nowhere"] (demo_world None 200)
     = (Raise (RuntimeError (SecretsDirMissing ["nowhere"])), demo_world None 200).
Proof.
  split; [|split].
  - destruct (find_single_json_exactly_one ["secrets"; "gcbad"] (demo_world None 200))
      as [_ Hdir].
    destruct Hdir as (Hone & _ & _); [vm_compute; reflexivity|].
    apply (Hone "user.json").
    + exists demo_secrets. split; vm_compute; reflexivity.
    + intros name' Hname'.
      apply elem_of_json_names in Hname'.
      assert (E : json_names (fs (demo_world None 200)) ["secrets"; "gcbad"]
                  = ["user.json"]) by (vm_compute; reflexivity).
      rewrite E in Hname'. by apply list_elem_of_singleton in Hname'.
  - destruct (find_single_json_exactly_one ["secrets"] (demo_world None 200))
      as [_ Hdir].
    destruct Hdir as (_ & Hnone & _); [vm_compute; reflexivity|].
    apply Hnone. intros name Hname.
    apply elem_of_json_names in Hname.
    assert (E : json_names (fs (demo_world None 200)) ["secrets"] = [])
      by (vm_compute; reflexivity).
    rewrite E in Hname. by apply elem_of_nil in Hname.
  - apply (find_single_json_exactly_one ["nowhere"] (demo_world None 200)).
    vm_compute. reflexivity.
Defined.

(** ** The file system: [stat] and [mkdir] *)

Section FileSystem.

Implicit Types (f : gmap path node) (p q : path) (name : string) (n : node).
Implicit Types (w : World).

Lemma stat_from_snoc f todo name : forall here n,
  stat_from f here n (todo ++ [name])
  = match stat_from f here n todo with
    | Ok Dir =>
        match f !! (here ++ todo ++ [name]) with
        | Some n' => Ok n'
        | None => Raise FileNotFoundError
        end
    | Ok (File _) => Raise NotADirectoryError
    | Raise e => Raise e
    end.
Proof.
  induction todo as [|x t IH]; intros here n.
  - simpl. destruct n; [|reflexivity].
    destruct (f !! (here ++ [name])); reflexivity.
  - simpl. destruct n; [|reflexivity].
    destruct (f !! (here ++ [x])) as [n'|]; [|reflexivity].
    rewrite IH. by rewrite <- (app_assoc here [x]).
Qed.

Lemma stat_snoc f q name :
  stat f (q ++ [name])
  = match stat f q with
    | Ok Dir =>
        match f !! (q ++ [name]) with
        | Some n' => Ok n'
        | None => Raise FileNotFoundError
        end
    | Ok (File _) => Raise NotADirectoryError
    | Raise e => Raise e
    end.
Proof. unfold stat. by rewrite stat_from_snoc. Qed.

(** A node put at a path does not show in the [stat] of a shorter one. *)
Lemma stat_insert_shorter f p n q :
  (length q < length p)%nat -> stat (<[p := n]> f) q = stat f q.
Proof.
  induction q as [|name q IH] using rev_ind; intros Hlen; [reflexivity|].
  rewrite length_app in Hlen. simpl in Hlen.
  rewrite !stat_snoc, IH by lia.
  rewrite lookup_insert_ne; [reflexivity|].
  intros ->. rewrite length_app in Hlen. simpl in Hlen. lia.
Qed.

Lemma stat_insert_child f q name n :
  stat f q = Ok Dir -> stat (<[q ++ [name] := n]> f) (q ++ [name]) = Ok n.
Proof.
  intros Hq. rewrite stat_snoc, stat_insert_shorter, Hq.
  - by rewrite lookup_insert_eq.
  - rewrite length_app. simpl. lia.
Qed.

Lemma stat_child_of_dir f q name :
  stat f q = Ok Dir ->
  stat f (q ++ [name])
  = match f !! (q ++ [name]) with
    | Some n' => Ok n'
    | None => Raise FileNotFoundError
    end.
Proof. intros Hq. by rewrite stat_snoc, Hq. Qed.

Lemma is_dir_true f p : is_dir f p = true -> stat f p = Ok Dir.
Proof.
  unfold is_dir. destruct (stat f p) as [[|c]|e]; try discriminate. done.
Qed.

Lemma same_but_fs_refl w : same_but_fs w w.
Proof. by repeat split. Qed.

Lemma same_but_fs_set_fs f w : same_but_fs w (set_fs f w).
Proof. by repeat split. Qed.

Lemma same_but_fs_trans w1 w2 w3 :
  same_but_fs w1 w2 -> same_but_fs w2 w3 -> same_but_fs w1 w3.
Proof.
  unfold same_but_fs. intros (?&?&?&?&?&?&?&?) (?&?&?&?&?&?&?&?).
  repeat split; congruence.
Qed.

(** What [os.mkdir] does, case by case. *)
Lemma os_mkdir_cases p w :
  (exists q name, p = q ++ [name] /\ stat (fs w) q = Ok Dir
     /\ (fs w) !! p = None
     /\ os_mkdir p w = (Ok tt, set_fs (<[p := Dir]> (fs w)) w))
  \/ (exists e, os_mkdir p w = (Raise e, w)).
Proof.
  unfold os_mkdir. destruct (stat (fs w) p) as [n|e] eqn:Hp;
    [solve [right; eauto]|].
  destruct e; try solve [right; eauto].
  destruct (stat (fs w) (removelast p)) as [[|c]|e] eqn:Hq;
    try solve [right; eauto].
  destruct p as [|x p'] using rev_ind; [discriminate|].
  rewrite removelast_last in Hq. left. exists p', x.
  split; [reflexivity|]. split; [assumption|]. split; [|reflexivity].
  rewrite (stat_child_of_dir _ _ x Hq) in Hp. revert Hp. clear.
  match goal with
  | |- match ?t with _ => _ end = _ -> _ => destruct t eqn:E
  end; [discriminate|]. intros _. exact E.
Qed.

Lemma os_mkdir_ok p w w' :
  os_mkdir p w = (Ok tt, w') ->
  stat (fs w') p = Ok Dir /\ same_but_fs w w'
  /\ fs_changes_within (fun q => q = p) w w'.
Proof.
  destruct (os_mkdir_cases p w) as [(q & name & -> & Hq & _ & ->)|[e ->]];
    [|discriminate].
  intros [= <-]. split; [by apply stat_insert_child|].
  split; [apply same_but_fs_set_fs|].
  intros q' Hq'. simpl. by apply lookup_insert_ne.
Qed.

Lemma os_mkdir_raise p w e w' : os_mkdir p w = (Raise e, w') -> w' = w.
Proof.
  destruct (os_mkdir_cases p w) as [(q & name & -> & Hq & _ & ->)|[e' ->]];
    [discriminate|]. by intros [= _ <-].
Qed.

Lemma fs_changes_within_refl (S : path -> Prop) w : fs_changes_within S w w.
Proof. by intros q _. Qed.

Lemma fs_changes_within_trans (S : path -> Prop) w1 w2 w3 :
  fs_changes_within S w1 w2 -> fs_changes_within S w2 w3 ->
  fs_changes_within S w1 w3.
Proof. intros H12 H23 q Hq. by rewrite (H23 q Hq), (H12 q Hq). Qed.

Lemma fs_changes_within_weaken (S T : path -> Prop) w1 w2 :
  (forall q, S q -> T q) -> fs_changes_within S w1 w2 ->
  fs_changes_within T w1 w2.
Proof. intros HST H q Hq. apply H. intros HS. by apply Hq, HST. Qed.

(** After a failed [os.mkdir], [exist_ok] lets the call return when the
    directory is there. *)
Lemma exist_ok_effect (S : path -> Prop) p w e :
  let r := if is_dir (fs w) p then (Ok tt, w) else (@Raise unit e, w) in
  same_but_fs w r.2 /\ fs_changes_within S w r.2
  /\ (r.1 = Ok tt -> stat (fs r.2) p = Ok Dir).
Proof.
  cbv zeta. destruct (is_dir (fs w) p) eqn:Hd; simpl.
  - split; [apply same_but_fs_refl|]. split; [apply fs_changes_within_refl|].
    intros _. by apply is_dir_true.
  - split; [apply same_but_fs_refl|]. split; [apply fs_changes_within_refl|].
    discriminate.
Qed.

Lemma mkdir_exist_ok_effect p w :
  same_but_fs w (mkdir_exist_ok p w).2
  /\ fs_changes_within (fun q => q = p) w (mkdir_exist_ok p w).2
  /\ ((mkdir_exist_ok p w).1 = Ok tt -> stat (fs (mkdir_exist_ok p w).2) p = Ok Dir).
Proof.
  unfold mkdir_exist_ok. destruct (os_mkdir p w) as [[[]|e] w'] eqn:E.
  - apply os_mkdir_ok in E as (? & ? & ?). simpl.
    split; [assumption|]. split; [assumption|]. by intros _.
  - apply os_mkdir_raise in E as ->.
    destruct e; try apply exist_ok_effect.
    simpl. split; [apply same_but_fs_refl|].
    split; [apply fs_changes_within_refl|discriminate].
Qed.

(** [mkdir(parents=True, exist_ok=True)] touches nothing but the path and
    the paths above it, and when it returns the directory is there. *)
Lemma mkdir_parents_rev_effect rp : forall w,
  same_but_fs w (mkdir_parents_rev rp w).2
  /\ fs_changes_within (fun q => q `prefix_of` rev rp) w (mkdir_parents_rev rp w).2
  /\ ((mkdir_parents_rev rp w).1 = Ok tt ->
      stat (fs (mkdir_parents_rev rp w).2) (rev rp) = Ok Dir).
Proof.
  induction rp as [|x rparent IH]; intros w.
  - cbn [mkdir_parents_rev]. destruct (os_mkdir (rev []) w) as [[[]|e] w'] eqn:E.
    + apply os_mkdir_ok in E as (? & ? & ?). simpl.
      split; [assumption|]. split; [|by intros _].
      eapply fs_changes_within_weaken; [|eassumption]. by intros q ->.
    + apply os_mkdir_raise in E as ->.
      destruct e; try apply exist_ok_effect.
      simpl. split; [apply same_but_fs_refl|].
      split; [apply fs_changes_within_refl|discriminate].
  - cbn [mkdir_parents_rev].
    destruct (os_mkdir (rev (x :: rparent)) w) as [[[]|e] w'] eqn:E.
    + apply os_mkdir_ok in E as (? & ? & ?). simpl.
      split; [assumption|]. split; [|by intros _].
      eapply fs_changes_within_weaken; [|eassumption]. by intros q ->.
    + apply os_mkdir_raise in E as ->.
      destruct e; try apply exist_ok_effect.
      rewrite run_bind.
      destruct (IH w) as (Hsame & Hwithin & _).
      assert (Hup : fs_changes_within (fun q => q `prefix_of` rev (x :: rparent)) w
                      (mkdir_parents_rev rparent w).2).
      { eapply fs_changes_within_weaken; [|exact Hwithin].
        intros q Hq. simpl. by apply prefix_app_r. }
      destruct (mkdir_parents_rev rparent w) as [[[]|e] w1]; simpl in Hsame, Hup.
      * destruct (mkdir_exist_ok_effect (rev (x :: rparent)) w1)
          as (Hsame' & Hwithin' & Hok).
        split; [by eapply same_but_fs_trans|]. split; [|assumption].
        eapply fs_changes_within_trans; [exact Hup|].
        eapply fs_changes_within_weaken; [|exact Hwithin']. by intros q ->.
      * simpl. split; [assumption|]. split; [assumption|discriminate].
Qed.

Lemma mkdir_parents_ok p w w' :
  mkdir_parents p w = (Ok tt, w') ->
  stat (fs w') p = Ok Dir /\ same_but_fs w w'.
Proof.
  unfold mkdir_parents. intros H.
  destruct (mkdir_parents_rev_effect (rev p) w) as (Hsame & _ & Hok).
  rewrite H in *. simpl in *. rewrite rev_involutive in Hok. by split; [apply Hok|].
Qed.

End FileSystem.

(** ** Reading the file system *)

Section Readers.

Lemma reader_run {A} (m : M A) w : reader m -> m w = ((m w).1, w).
Proof. intros H. by apply H. Qed.

Lemma reader_ret {A} (a : A) : reader (mret a).
Proof. by intros w w2 _. Qed.

Lemma reader_raise {A} e : reader (@raise A e).
Proof. by intros w w2 _. Qed.

Lemma reader_lift {A} (r : result A) : reader (lift r).
Proof. by intros w w2 _. Qed.

Lemma reader_bind {A B} (m : M A) (k : A -> M B) :
  reader m -> (forall a, reader (k a)) -> reader (m ≫= k).
Proof.
  intros Hm Hk w w2 Hfs. rewrite !run_bind.
  pose proof (Hm w w eq_refl) as E1. pose proof (Hm w w2 Hfs) as E2.
  rewrite E2. destruct (m w) as [r w']. simpl in *.
  injection E1 as ->. destruct r as [a|e]; [|reflexivity].
  by apply Hk.
Qed.

Lemma reader_path_exists p : reader (path_exists p).
Proof. intros w w2 Hfs. unfold path_exists, gets. simpl. by rewrite Hfs. Qed.

Lemma reader_iterdir d : reader (iterdir d).
Proof.
  intros w w2 Hfs. unfold iterdir. rewrite Hfs.
  by destruct (stat (fs w) d) as [[|c]|e].
Qed.

Lemma reader_read_text p : reader (read_text p).
Proof.
  intros w w2 Hfs. unfold read_text. rewrite Hfs.
  by destruct (stat (fs w) p) as [[|c]|e].
Qed.

Lemma reader_find_single_json d : reader (find_single_json d).
Proof.
  unfold find_single_json. apply reader_bind; [apply reader_path_exists|].
  intros there. destruct there; simpl; [|apply reader_raise].
  apply reader_bind; [apply reader_iterdir|]. intros listing.
  destruct (json_files listing) as [|name [|name' l]];
    [apply reader_raise|apply reader_ret|apply reader_raise].
Qed.

Lemma reader_load_json p : reader (load_json p).
Proof.
  unfold load_json. apply reader_bind; [apply reader_read_text|].
  intros c. apply reader_lift.
Qed.

Lemma reader_load_gcbad_user_secrets cfg : reader (load_gcbad_user_secrets cfg).
Proof.
  unfold load_gcbad_user_secrets.
  apply reader_bind; [apply reader_find_single_json|]. intros secrets_file.
  apply reader_bind; [apply reader_load_json|]. intros data.
  apply reader_bind; [apply reader_lift|]. intros secret_id.
  apply reader_bind; [apply reader_lift|]. intros secret_key.
  destruct (negb (Py.truthy secret_id) || negb (Py.truthy secret_key));
    [apply reader_raise|apply reader_ret].
Qed.

End Readers.

(** ** The token cache *)

Section TokenCache.

Variable cfg : Config.
Implicit Types (w : World) (cache refresh out : json) (exp_at secs : Z).

Lemma dyadic_den_pos d : 0 < Py.dyadic_den d.
Proof. unfold Py.dyadic_den. apply Z.pow_pos_nonneg; lia. Qed.

(** The comparison of line 75 is the comparison of the numbers. *)
Lemma dyadic_lt_int_60 now exp_at :
  Py.dyadic_lt_int now (exp_at - 60) = true <-> more_than_60s_before now exp_at.
Proof.
  unfold Py.dyadic_lt_int, more_than_60s_before, dyadic_Q, Qlt. simpl.
  pose proof (dyadic_den_pos now) as Hpos.
  rewrite Z.ltb_lt, Z2Pos.id by assumption.
  rewrite Pos.mul_1_r, Z2Pos.id by assumption. lia.
Qed.

Lemma not_usable now exp_at :
  ~ usable now exp_at <->
  exp_at <> 0 /\ Py.dyadic_lt_int now (exp_at - 60) = false.
Proof.
  unfold usable. rewrite <- dyadic_lt_int_60.
  destruct (Py.dyadic_lt_int now (exp_at - 60)); split.
  - intros H. exfalso. apply H. by right.
  - intros [_ [=]].
  - intros H. split; [|reflexivity]. intros ->. apply H. by left.
  - intros [Hne _] [->|[=]]. contradiction.
Qed.

(** Lines 73-75, run. *)
Lemma cached_token_run cache refresh exp_at w :
  Py.get cache "refresh" = Ok refresh ->
  cache_expiry cache = Ok exp_at ->
  cached_token cache w
  = if negb (Py.truthy refresh) then (Ok None, w)
    else if exp_at =? 0 then (Ok (Some refresh), w)
    else (Ok (if Py.dyadic_lt_int (clock w (ticks w)) (exp_at - 60)
              then Some refresh else None),
          ticked w).
Proof.
  intros Hget Hexp. unfold cached_token.
  rewrite (run_bind_ok _ _ w refresh w) by (by rewrite Hget).
  rewrite (run_bind_ok _ _ w exp_at w) by (by rewrite Hexp).
  destruct (negb (Py.truthy refresh)); [reflexivity|].
  destruct (exp_at =? 0); [reflexivity|].
  rewrite (run_bind_ok _ _ w (clock w (ticks w)) (ticked w)) by reflexivity.
  by destruct (Py.dyadic_lt_int (clock w (ticks w)) (exp_at - 60)).
Qed.

(** On a usable cache nothing else happens. *)
Lemma cached_token_hit cache refresh exp_at w :
  Py.get cache "refresh" = Ok refresh -> Py.truthy refresh = true ->
  cache_expiry cache = Ok exp_at ->
  usable (clock w (ticks w)) exp_at ->
  exists w', cached_token cache w = (Ok (Some refresh), w')
             /\ (w' = w \/ w' = ticked w).
Proof.
  intros Hget Htruthy Hexp Huse.
  rewrite (cached_token_run cache refresh exp_at w Hget Hexp), Htruthy.
  cbn [negb]. destruct (Z.eqb_spec exp_at 0) as [->|Hne]; [by eauto|].
  destruct Huse as [->|Hlt]; [contradiction|].
  apply dyadic_lt_int_60 in Hlt. rewrite Hlt. eauto.
Qed.

Lemma cached_token_miss cache refresh exp_at w :
  Py.get cache "refresh" = Ok refresh ->
  cache_expiry cache = Ok exp_at ->
  Py.truthy refresh = false \/ ~ usable (clock w (ticks w)) exp_at ->
  exists w', cached_token cache w = (Ok None, w')
             /\ (w' = w \/ w' = ticked w).
Proof.
  intros Hget Hexp Hmiss.
  rewrite (cached_token_run cache refresh exp_at w Hget Hexp).
  destruct (Py.truthy refresh) eqn:Htruthy; cbn [negb]; [|by eauto].
  destruct Hmiss as [[=]|Hnot]. apply not_usable in Hnot as [Hne Hlt].
  apply Z.eqb_neq in Hne. rewrite Hne, Hlt. eauto.
Qed.

(** Lines 78-84, run, when the secrets are there and the server answers
    the request for a token. *)
Lemma issue_and_cache_run w sid skey status out new_refresh secs :
  (load_gcbad_user_secrets cfg w).1 = Ok (sid, skey) ->
  server w (requests w) (token_new_request sid skey)
  = Reply status (JsonText out) ->
  (400 <=? status) && (status <? 600) = false ->
  Py.getitem out "refresh" = Ok new_refresh ->
  refresh_expires_of out = Ok secs ->
  stat (fs w) (DATA_DIR cfg) = Ok Dir ->
  is_dir (fs w) (TOKEN_CACHE_PATH cfg) = false ->
  exists w' exp',
    issue_and_cache cfg w = (Ok new_refresh, w')
    /\ requests w' = requests w ++ [token_new_request sid skey]
    /\ fs w' = <[TOKEN_CACHE_PATH cfg :=
                   File (json_dumps (token_record new_refresh exp'))]> (fs w)
    /\ exp' = (if secs =? 0 then 0
               else Py.dyadic_trunc (clock w (ticks w)) + secs)
    /\ sheet_writes w' = sheet_writes w /\ stdout w' = stdout w
    /\ server w' = server w /\ environ w' = environ w
    /\ clock w' = clock w /\ sheets w' = sheets w
    /\ (ticks w <= ticks w' <= S (ticks w))%nat.
Proof.
  intros Hsecrets Hreply Hstatus Hrefresh Hsecs Hdir Hnotdir.
  set (rq := token_new_request sid skey) in *.
  set (exp' := if secs =? 0 then 0 else Py.dyadic_trunc (clock w (ticks w)) + secs).
  assert (Hnew : exists w1, token_new sid skey w = (Ok (new_refresh, exp'), w1)
            /\ fs w1 = fs w /\ requests w1 = requests w ++ [rq]
            /\ sheet_writes w1 = sheet_writes w /\ stdout w1 = stdout w
            /\ server w1 = server w /\ environ w1 = environ w
            /\ clock w1 = clock w /\ sheets w1 = sheets w
            /\ (ticks w <= ticks w1 <= S (ticks w))%nat).
  { unfold token_new. fold rq.
    rewrite (run_bind_ok _ _ w (status, JsonText out) (sent rq w))
      by (unfold send; by rewrite Hreply).
    rewrite (run_bind_ok _ _ (sent rq w) tt (sent rq w))
      by (unfold raise_for_status; cbn [fst]; by rewrite Hstatus).
    rewrite (run_bind_ok _ _ (sent rq w) out (sent rq w)) by reflexivity.
    rewrite (run_bind_ok _ _ (sent rq w) new_refresh (sent rq w))
      by (by rewrite Hrefresh).
    rewrite (run_bind_ok _ _ (sent rq w) secs (sent rq w)) by (by rewrite Hsecs).
    unfold exp'. destruct (secs =? 0).
    - exists (sent rq w). split; [reflexivity|]. simpl. repeat split; lia.
    - exists (ticked (sent rq w)). split; [reflexivity|]. simpl. repeat split; lia. }
  destruct Hnew as (w1 & Hnew & Hfs1 & Hrq1 & Hsw1 & Hout1 & Hsrv1 & Henv1 & Hclk1 & Hsh1 & Hticks1).
  assert (Hwrite : write_text (TOKEN_CACHE_PATH cfg)
                     (json_dumps (token_record new_refresh exp')) w1
                   = (Ok tt, set_fs (<[TOKEN_CACHE_PATH cfg :=
                        File (json_dumps (token_record new_refresh exp'))]> (fs w1)) w1)).
  { unfold write_text, is_dir in *. rewrite Hfs1. unfold TOKEN_CACHE_PATH in *.
    rewrite (stat_child_of_dir _ _ _ Hdir) in *.
    destruct (fs w !! (DATA_DIR cfg ++ ["gcbad_token_cache.json"])) as [[|c]|];
      [discriminate|reflexivity|].
    by rewrite removelast_last, Hdir. }
  exists (set_fs (<[TOKEN_CACHE_PATH cfg :=
            File (json_dumps (token_record new_refresh exp'))]> (fs w1)) w1), exp'.
  split.
  - unfold issue_and_cache.
    rewrite (run_bind_ok _ _ w (sid, skey) w)
      by (rewrite (reader_run _ w (reader_load_gcbad_user_secrets cfg)); by rewrite Hsecrets).
    cbn [fst snd].
    rewrite (run_bind_ok _ _ w (new_refresh, exp') w1) by exact Hnew.
    cbn [fst snd].
    rewrite (run_bind_ok _ _ w1 tt _ Hwrite). reflexivity.
  - simpl. rewrite Hfs1. repeat split; try assumption; lia.
Qed.

End TokenCache.

Section RefreshToken.

Variable cfg : Config.
Implicit Types (w : World) (cache refresh : json) (exp_at secs : Z).

(** Lines 69-72, run on a cache file that is there. *)
Lemma get_refresh_token_cached_file w w1 content :
  mkdir_parents (DATA_DIR cfg) w = (Ok tt, w1) ->
  stat (fs w1) (TOKEN_CACHE_PATH cfg) = Ok (File content) ->
  get_refresh_token_cached cfg w
  = match json_loads content with
    | Ok cache =>
        match cached_token cache w1 with
        | (Ok (Some refresh), w2) => (Ok refresh, w2)
        | (Ok None, w2) => issue_and_cache cfg w2
        | (Raise e, w2) => (Raise e, w2)
        end
    | Raise e => (Raise e, w1)
    end.
Proof.
  intros Hmkdir Hstat. unfold get_refresh_token_cached.
  rewrite (run_bind_ok _ _ w tt w1 Hmkdir). cbv beta.
  rewrite run_bind. unfold path_exists at 1, gets. rewrite Hstat.
  cbn [is_ok]. cbv beta iota. rewrite run_bind. unfold load_json.
  rewrite run_bind.
  rewrite (run_bind_ok _ _ w1 content w1)
    by (unfold read_text; by rewrite Hstat).
  cbv beta. unfold lift at 1.
  destruct (json_loads content) as [cache|e]; [|reflexivity].
  by destruct (cached_token cache w1) as [[[refresh|]|e] w2].
Qed.

(** Lines 69-71, run without a cache file. *)
Lemma get_refresh_token_cached_absent w w1 :
  mkdir_parents (DATA_DIR cfg) w = (Ok tt, w1) ->
  cache_absent (fs w1) cfg ->
  get_refresh_token_cached cfg w = issue_and_cache cfg w1.
Proof.
  intros Hmkdir Habsent. unfold get_refresh_token_cached.
  rewrite (run_bind_ok _ _ w tt w1 Hmkdir). cbv beta.
  rewrite run_bind. unfold path_exists at 1, gets. rewrite Habsent.
  reflexivity.
Qed.

Lemma get_refresh_token_cached_hit w w1 refresh exp_at :
  mkdir_parents (DATA_DIR cfg) w = (Ok tt, w1) ->
  cache_holds (fs w1) cfg refresh exp_at ->
  Py.truthy refresh = true ->
  usable (clock w (ticks w)) exp_at ->
  exists w', get_refresh_token_cached cfg w = (Ok refresh, w')
             /\ requests w' = requests w /\ fs w' = fs w1.
Proof.
  intros Hmkdir (cache & Hstat & Hget & Hexp) Htruthy Huse.
  destruct (mkdir_parents_ok _ _ _ Hmkdir) as (_ & _ & Hclock & Hticks & _ & Hreq & _).
  rewrite (get_refresh_token_cached_file w w1 _ Hmkdir Hstat). cbn [json_loads].
  destruct (cached_token_hit cache refresh exp_at w1 Hget Htruthy Hexp)
    as (w2 & -> & Hw2); [by rewrite Hclock, Hticks|].
  exists w2. split; [reflexivity|].
  destruct Hw2 as [-> | ->]; by split.
Qed.

Lemma get_refresh_token_cached_miss w w1 sid skey new_refresh secs :
  mkdir_parents (DATA_DIR cfg) w = (Ok tt, w1) ->
  cache_absent (fs w1) cfg
  \/ (exists refresh exp_at,
        cache_holds (fs w1) cfg refresh exp_at
        /\ (Py.truthy refresh = false \/ ~ usable (clock w (ticks w)) exp_at)) ->
  (load_gcbad_user_secrets cfg w1).1 = Ok (sid, skey) ->
  issues w sid skey new_refresh secs ->
  exists w' exp',
    get_refresh_token_cached cfg w = (Ok new_refresh, w')
    /\ requests w' = requests w ++ [token_new_request sid skey]
    /\ fs w' = <[TOKEN_CACHE_PATH cfg :=
                   File (json_dumps (token_record new_refresh exp'))]> (fs w1)
    /\ (secs = 0 -> exp' = 0)
    /\ (secs <> 0 ->
        exists k, (ticks w <= k <= S (ticks w))%nat
                  /\ exp' = Py.dyadic_trunc (clock w k) + secs).
Proof.
  intros Hmkdir Hcache Hsecrets (status & out & Hreply & Hstatus & Hrefresh & Hsecs).
  destruct (mkdir_parents_ok _ _ _ Hmkdir)
    as (Hdir & _ & Hclock & Hticks & Hserver & Hreq & _).
  assert (Hrun : exists w2, get_refresh_token_cached cfg w = issue_and_cache cfg w2
                   /\ (w2 = w1 \/ w2 = ticked w1)
                   /\ is_dir (fs w1) (TOKEN_CACHE_PATH cfg) = false).
  { destruct Hcache as [Habsent|(refresh & exp_at & (cache & Hstat & Hget & Hexp) & Hmiss)].
    - exists w1. split; [by apply get_refresh_token_cached_absent|].
      split; [by left|]. unfold cache_absent, is_dir in *.
      by destruct (stat (fs w1) (TOKEN_CACHE_PATH cfg)).
    - rewrite (get_refresh_token_cached_file w w1 _ Hmkdir Hstat). cbn [json_loads].
      destruct (cached_token_miss cache refresh exp_at w1 Hget Hexp)
        as (w2 & -> & Hw2); [by rewrite Hclock, Hticks|].
      exists w2. split; [reflexivity|]. split; [assumption|].
      unfold is_dir. by rewrite Hstat. }
  destruct Hrun as (w2 & -> & Hw2 & Hnotdir).
  assert (Hfs2 : fs w2 = fs w1) by (by destruct Hw2 as [-> | ->]).
  assert (Hreq2 : requests w2 = requests w) by (by destruct Hw2 as [-> | ->]).
  assert (Hsrv2 : server w2 = server w) by (by destruct Hw2 as [-> | ->]).
  assert (Hclk2 : clock w2 = clock w) by (by destruct Hw2 as [-> | ->]).
  assert (Htk2 : (ticks w <= ticks w2 <= S (ticks w))%nat)
    by (destruct Hw2 as [-> | ->]; simpl; lia).
  destruct (issue_and_cache_run cfg w2 sid skey status out new_refresh secs)
    as (w' & exp' & Hrun & Hreq' & Hfs' & Hexp' & _); try assumption.
  - rewrite (reader_load_gcbad_user_secrets cfg w1 w2 Hfs2). exact Hsecrets.
  - by rewrite Hsrv2, Hreq2.
  - by rewrite Hfs2.
  - by rewrite Hfs2.
  - exists w', exp'. split; [assumption|].
    split; [by rewrite Hreq', Hreq2|]. split; [by rewrite Hfs', Hfs2|].
    split.
    + intros ->. by rewrite Hexp'.
    + intros Hne. apply Z.eqb_neq in Hne. rewrite Hne in Hexp'.
      exists (ticks w2). split; [assumption|]. by rewrite Hexp', Hclk2.
Qed.

End RefreshToken.

(** ** The refresh token: reused or renewed *)



Section MissingKeys.

Variable cfg : Config.

Lemma cache_expiry_of_dict (d : gmap string json) :
  (d !! "refresh_expires_at" = None -> cache_expiry (JDict d) = Ok 0)
  /\ (forall n, d !! "refresh_expires_at" = Some (JInt n) ->
                cache_expiry (JDict d) = Ok n).
Proof.
  unfold cache_expiry. simpl. split.
  - intros ->. reflexivity.
  - intros n ->. simpl. unfold Py.or_. simpl.
    destruct (Z.eqb_spec n 0) as [->|]; reflexivity.
Qed.

Lemma get_refresh_missing (d : gmap string json) :
  d !! "refresh" = None -> Py.get (JDict d) "refresh" = Ok JNull.
Proof. intros H. unfold Py.get. simpl. by rewrite H. Qed.

Lemma get_refresh_present (d : gmap string json) refresh :
  d !! "refresh" = Some refresh -> Py.get (JDict d) "refresh" = Ok refresh.
Proof. intros H. unfold Py.get. simpl. by rewrite H. Qed.

Lemma get_refresh_token_cached_not_json w w1 raw :
  mkdir_parents (DATA_DIR cfg) w = (Ok tt, w1) ->
  stat (fs w1) (TOKEN_CACHE_PATH cfg) = Ok (File (NotJson raw)) ->
  get_refresh_token_cached cfg w = (Raise JSONDecodeError, w1).
Proof.
  intros Hmkdir Hstat.
  by rewrite (get_refresh_token_cached_file cfg w w1 _ Hmkdir Hstat).
Qed.

Lemma get_refresh_token_cached_not_object w w1 j :
  mkdir_parents (DATA_DIR cfg) w = (Ok tt, w1) ->
  stat (fs w1) (TOKEN_CACHE_PATH cfg) = Ok (File (JsonText j)) ->
  (forall d, j <> JDict d) ->
  get_refresh_token_cached cfg w = (Raise AttributeError, w1).
Proof.
  intros Hmkdir Hstat Hj.
  rewrite (get_refresh_token_cached_file cfg w w1 _ Hmkdir Hstat).
  cbn [json_loads]. unfold cached_token.
  rewrite (run_bind_raise _ _ w1 AttributeError w1); [reflexivity|].
  destruct j; try reflexivity. by destruct (Hj d).
Qed.

End MissingKeys.

(** C7, as amended.  For every cache file that is there, once line 69 has
    made sure of the data directory.  If the file is a JSON object without
    the [refresh] key, its expiry key missing or an integer, then (the
    secrets being there and the server issuing a token)
    [get_refresh_token_cached] asks for a new token, returns it and writes
    it to the cache.  If the object has a refresh token and lacks only the
    expiry key, the expiry counts as zero: the cached token is returned
    and no request is sent.  If the file is not JSON, the call raises the
    decoding error; if it is JSON but not an object, the call raises too;
    in both cases nothing is sent and nothing written. *)
Theorem cache_file_with_missing_keys
  (cfg : Config) (w w1 : World) (content : text) :
  mkdir_parents (DATA_DIR cfg) w = (Ok tt, w1) ->
  stat (fs w1) (TOKEN_CACHE_PATH cfg) = Ok (File content) ->
  (forall d sid skey new_refresh secs,
     content = JsonText (JDict d) ->
     d !! "refresh" = None ->
     d !! "refresh_expires_at" = None
     \/ (exists n, d !! "refresh_expires_at" = Some (JInt n)) ->
     (load_gcbad_user_secrets cfg w1).1 = Ok (sid, skey) ->
     issues w sid skey new_refresh secs ->
     exists w' exp',
       get_refresh_token_cached cfg w = (Ok new_refresh, w')
       /\ requests w' = requests w ++ [token_new_request sid skey]
       /\ fs w' = <[TOKEN_CACHE_PATH cfg :=
                      File (json_dumps (token_record new_refresh exp'))]> (fs w1))
  /\ (forall d refresh,
        content = JsonText (JDict d) ->
        d !! "refresh" = Some refresh -> Py.truthy refresh = true ->
        d !! "refresh_expires_at" = None ->
        exists w', get_refresh_token_cached cfg w = (Ok refresh, w')
                   /\ requests w' = requests w /\ fs w' = fs w1)
  /\ (forall raw,
        content = NotJson raw ->
        get_refresh_token_cached cfg w = (Raise JSONDecodeError, w1)
        /\ requests w1 = requests w)
  /\ (forall j,
        content = JsonText j -> (forall d, j <> JDict d) ->
        get_refresh_token_cached cfg w = (Raise AttributeError, w1)
        /\ requests w1 = requests w).
Proof.
  intros Hmkdir Hstat.
  destruct (mkdir_parents_ok _ _ _ Hmkdir) as (_ & _ & _ & _ & _ & Hreq & _).
  split; [|split; [|split]].
  - intros d sid skey new_refresh secs -> Hrefresh Hexp Hsecrets Hissues.
    assert (Hexp' : exists exp_at, cache_expiry (JDict d) = Ok exp_at).
    { destruct (cache_expiry_of_dict d) as [Hnone Hint].
      destruct Hexp as [Hexp|[n Hexp]]; eauto. }
    destruct Hexp' as [exp_at Hexp'].
    destruct (get_refresh_token_cached_miss cfg w w1 sid skey new_refresh secs Hmkdir)
      as (w' & exp' & Hrun & Hreq' & Hfs' & _); try assumption.
    + right. exists JNull, exp_at. split; [|by left].
      exists (JDict d). split; [assumption|].
      split; [by apply get_refresh_missing|assumption].
    + by exists w', exp'.
  - intros d refresh -> Hrefresh Htruthy Hexp.
    apply (get_refresh_token_cached_hit cfg w w1 refresh 0 Hmkdir);
      [|assumption|by left].
    exists (JDict d). split; [assumption|].
    split; [by apply get_refresh_present|].
    exact (proj1 (cache_expiry_of_dict d) Hexp).
  - intros raw ->. split; [|assumption].
    by apply (get_refresh_token_cached_not_json cfg w w1 raw).
  - intros j -> Hj. split; [|assumption].
    by apply (get_refresh_token_cached_not_object cfg w w1 j).
Qed.

(** C7, as stated, fails on a cache file that has a refresh token and no
    expiry key: no fresh token is asked for, the cached one is returned. *)
Lemma missing_expiry_key_reuses_cached_token :
  let d : gmap string json := <["refresh" := JStr "r0"]> ∅ in
  let w := demo_world (Some (JsonText (JDict d))) 200 in
  d !! "refresh_expires_at" = None
  /\ get_refresh_token_cached demo_cfg w = (Ok (JStr "r0"), w)
  /\ requests (get_refresh_token_cached demo_cfg w).2 = [].
Proof.
  cbv zeta. split; [reflexivity|]. split; vm_compute; reflexivity.
Qed.

(** The amended C7 in the demo world: a cache file without the [refresh]
    key has the token [r1] asked for, and a cache file that is not JSON
    makes the call fail. *)
Lemma cache_file_with_missing_keys_witness :
  (exists w',
     get_refresh_token_cached demo_cfg
       (demo_world (Some (JsonText (JDict (<["refresh_expires_at" := JInt 0]> ∅)))) 200)
     = (Ok (JStr "r1"), w')
     /\ requests w' = [token_new_request (JStr "id-1") (JStr "key-1")])
  /\ (get_refresh_token_cached demo_cfg (demo_world (Some (NotJson "{refresh: ")) 200)).1
     = Raise JSONDecodeError.
Proof.
  split.
  - set (d := <["refresh_expires_at" := JInt 0]> ∅ : gmap string json).
    set (w := demo_world (Some (JsonText (JDict d))) 200).
    destruct (cache_file_with_missing_keys demo_cfg w w (JsonText (JDict d)))
      as (Hmissing & _); [vm_compute; reflexivity|vm_compute; reflexivity|].
    destruct (Hmissing d (JStr "id-1") (JStr "key-1") (JStr "r1") 3600)
      as (w' & exp' & Hrun & Hreq & _).
    + reflexivity.
    + reflexivity.
    + right. exists 0. reflexivity.
    + vm_compute. reflexivity.
    + exists 200, (JDict (<["refresh" := JStr "r1"]>
                           (<["refresh_expires" := JInt 3600]> ∅))).
      repeat split; vm_compute; reflexivity.
    + exists w'. by split.
  - set (w := demo_world (Some (NotJson "{refresh: ")) 200).
    destruct (cache_file_with_missing_keys demo_cfg w w (NotJson "{refresh: "))
      as (_ & _ & Hraw & _); [vm_compute; reflexivity|vm_compute; reflexivity|].
    destruct (Hraw "{refresh: " eq_refl) as [-> _]. reflexivity.
Defined.

(** ** What a run can leave behind *)

Section Quiet.

Variable cfg : Config.

Lemma quiet_refl w : quiet cfg w w.
Proof.
  split; [reflexivity|]. split; [reflexivity|]. split; [reflexivity|].
  apply fs_changes_within_refl.
Qed.

Lemma quiet_trans w1 w2 w3 :
  quiet cfg w1 w2 -> quiet cfg w2 w3 -> quiet cfg w1 w3.
Proof.
  intros (H1 & H2 & H3 & H4) (H1' & H2' & H3' & H4').
  split; [congruence|]. split; [congruence|]. split; [congruence|].
  by eapply fs_changes_within_trans.
Qed.

Lemma quiet_same_fs w w' :
  fs w' = fs w -> sheet_writes w' = sheet_writes w -> stdout w' = stdout w ->
  environ w' = environ w -> quiet cfg w w'.
Proof.
  intros Hfs ? ? ?.
  split; [assumption|]. split; [assumption|]. split; [assumption|].
  intros q _. by rewrite Hfs.
Qed.

Lemma quiet_bind {A B} (m : M A) (k : A -> M B) :
  quiet_op cfg m -> (forall a, quiet_op cfg (k a)) -> quiet_op cfg (m ≫= k).
Proof.
  intros Hm Hk w. rewrite run_bind. specialize (Hm w).
  destruct (m w) as [[a|e] w1]; simpl in *; [|assumption].
  eapply quiet_trans; [exact Hm|apply Hk].
Qed.

Lemma quiet_reader {A} (m : M A) : reader m -> quiet_op cfg m.
Proof. intros H w. rewrite (reader_run m w H). apply quiet_refl. Qed.

Lemma quiet_ret {A} (a : A) : quiet_op cfg (mret a).
Proof. apply quiet_reader, reader_ret. Qed.

Lemma quiet_raise {A} e : quiet_op cfg (@raise A e).
Proof. apply quiet_reader, reader_raise. Qed.

Lemma quiet_lift {A} (r : result A) : quiet_op cfg (lift r).
Proof. apply quiet_reader, reader_lift. Qed.

Lemma quiet_send rq : quiet_op cfg (send rq).
Proof.
  intros w. unfold send.
  destruct (server w (requests w) rq); by apply quiet_same_fs.
Qed.

Lemma quiet_time_time : quiet_op cfg time_time.
Proof. intros w. by apply quiet_same_fs. Qed.

Lemma quiet_raise_for_status r : quiet_op cfg (raise_for_status r).
Proof.
  unfold raise_for_status.
  destruct ((400 <=? r.1) && (r.1 <? 600)); [apply quiet_raise|apply quiet_ret].
Qed.

Lemma quiet_mkdir_parents : quiet_op cfg (mkdir_parents (DATA_DIR cfg)).
Proof.
  intros w. unfold mkdir_parents.
  destruct (mkdir_parents_rev_effect (rev (DATA_DIR cfg)) w)
    as ((Henv & _ & _ & _ & _ & _ & Hsw & Hout) & Hwithin & _).
  split; [assumption|]. split; [assumption|]. split; [assumption|].
  eapply fs_changes_within_weaken; [|exact Hwithin].
  intros q Hq. right. by rewrite rev_involutive in Hq.
Qed.

Lemma quiet_write_text c : quiet_op cfg (write_text (TOKEN_CACHE_PATH cfg) c).
Proof.
  intros w. unfold write_text.
  assert (Hset : quiet cfg w (set_fs (<[TOKEN_CACHE_PATH cfg := File c]> (fs w)) w)).
  { split; [reflexivity|]. split; [reflexivity|]. split; [reflexivity|].
    intros q Hq. simpl. apply lookup_insert_ne.
    intros <-. apply Hq. by left. }
  destruct (stat (fs w) (TOKEN_CACHE_PATH cfg)) as [[|c']|e]; simpl;
    try apply quiet_refl; try exact Hset.
  destruct e; try apply quiet_refl.
  destruct (stat (fs w) (removelast (TOKEN_CACHE_PATH cfg))) as [[|c']|e']; simpl;
    try apply quiet_refl; exact Hset.
Qed.

Lemma quiet_token_new sid skey : quiet_op cfg (token_new sid skey).
Proof.
  unfold token_new.
  apply quiet_bind; [apply quiet_send|]. intros r.
  apply quiet_bind; [apply quiet_raise_for_status|]. intros _.
  apply quiet_bind; [apply quiet_lift|]. intros out.
  apply quiet_bind; [apply quiet_lift|]. intros refresh.
  apply quiet_bind; [apply quiet_lift|]. intros refresh_expires.
  destruct (refresh_expires =? 0); [apply quiet_ret|].
  apply quiet_bind; [apply quiet_time_time|]. intros now. apply quiet_ret.
Qed.

Lemma quiet_token_refresh refresh : quiet_op cfg (token_refresh refresh).
Proof.
  unfold token_refresh.
  apply quiet_bind; [apply quiet_send|]. intros r.
  apply quiet_bind; [apply quiet_raise_for_status|]. intros _.
  apply quiet_bind; [apply quiet_lift|]. intros out. apply quiet_lift.
Qed.

Lemma quiet_cached_token cache : quiet_op cfg (cached_token cache).
Proof.
  unfold cached_token.
  apply quiet_bind; [apply quiet_lift|]. intros refresh.
  apply quiet_bind; [apply quiet_lift|]. intros exp_at.
  destruct (negb (Py.truthy refresh)); [apply quiet_ret|].
  destruct (exp_at =? 0); [apply quiet_ret|].
  apply quiet_bind; [apply quiet_time_time|]. intros now.
  destruct (Py.dyadic_lt_int now (exp_at - 60)); apply quiet_ret.
Qed.

Lemma quiet_issue_and_cache : quiet_op cfg (issue_and_cache cfg).
Proof.
  unfold issue_and_cache.
  apply quiet_bind; [apply quiet_reader, reader_load_gcbad_user_secrets|].
  intros secrets.
  apply quiet_bind; [apply quiet_token_new|]. intros new.
  apply quiet_bind; [apply quiet_write_text|]. intros _. apply quiet_ret.
Qed.

Lemma quiet_get_refresh_token_cached : quiet_op cfg (get_refresh_token_cached cfg).
Proof.
  unfold get_refresh_token_cached.
  apply quiet_bind; [apply quiet_mkdir_parents|]. intros _.
  apply quiet_bind; [apply quiet_reader, reader_path_exists|]. intros there.
  apply quiet_bind.
  - destruct there; [|apply quiet_ret].
    apply quiet_bind; [apply quiet_reader, reader_load_json|].
    intros cache. apply quiet_cached_token.
  - intros [refresh|]; [apply quiet_ret|apply quiet_issue_and_cache].
Qed.

Lemma quiet_gc_get p : quiet_op cfg (gc_get cfg p).
Proof.
  unfold gc_get, get_access_token.
  apply quiet_bind.
  - apply quiet_bind; [apply quiet_get_refresh_token_cached|].
    intros refresh. apply quiet_token_refresh.
  - intros access.
    apply quiet_bind; [apply quiet_send|]. intros r.
    apply quiet_bind; [apply quiet_raise_for_status|]. intros _.
    apply quiet_lift.
Qed.

Lemma required_env_run name w :
  (required_env name w).2 = w
  /\ forall v, (required_env name w).1 = Ok v -> environ w !! name = Some v.
Proof.
  unfold required_env. destruct (environ w !! name) as [v|]; [|by split].
  destruct (PyStr.non_empty v); simpl; split; try done. by intros v' [= ->].
Qed.

(** [sheets_write] leaves the files alone, and the spreadsheet too unless
    it returns. *)
Lemma sheets_write_effect values sid range w :
  fs (sheets_write cfg values sid range w).2 = fs w
  /\ stdout (sheets_write cfg values sid range w).2 = stdout w
  /\ sheet_writes (sheets_write cfg values sid range w).2
     = match (sheets_write cfg values sid range w).1 with
       | Ok _ => sheet_writes w ++ [SheetUpdate sid range values]
       | Raise _ => sheet_writes w
       end.
Proof.
  unfold sheets_write. rewrite run_bind.
  rewrite (reader_run _ w (reader_find_single_json (GSHEETS_SECRETS_DIR cfg))).
  destruct (find_single_json (GSHEETS_SECRETS_DIR cfg) w).1 as [sa_file|e];
    [|by repeat split].
  rewrite run_bind. rewrite (reader_run _ w (reader_read_text sa_file)).
  destruct (read_text sa_file w).1 as [key|e]; [|by repeat split].
  unfold sheets_update.
  by destruct (sheets w key (SheetUpdate sid range values)).
Qed.

End Quiet.

Lemma cmd_run_outcome (cfg : Config) (w : World) r w' :
  cmd_run cfg w = (r, w') -> run_outcome cfg w r w'.
Proof.
  assert (Hfail : forall e w1, quiet cfg w w1 -> run_outcome cfg w (Raise e) w1).
  { intros e w1 (Hsw & Hout & _ & Hfs). by split. }
  unfold cmd_run. rewrite run_bind.
  destruct (required_env_run "GC_ACCOUNT_ID" w) as [Hw _].
  destruct (required_env "GC_ACCOUNT_ID" w) as [[account_id|e] w0];
    simpl in Hw; subst w0;
    [|intros [= <- <-]; apply Hfail, quiet_refl].
  rewrite run_bind.
  destruct (required_env_run "GSHEET_ID" w) as [Hw Hsid].
  destruct (required_env "GSHEET_ID" w) as [[spreadsheet_id|e] w0];
    simpl in Hw, Hsid; subst w0;
    [|intros [= <- <-]; apply Hfail, quiet_refl].
  rewrite run_bind.
  destruct (required_env_run "GSHEET_RANGE" w) as [Hw Hrange].
  destruct (required_env "GSHEET_RANGE" w) as [[a1_range|e] w0];
    simpl in Hw, Hrange; subst w0;
    [|intros [= <- <-]; apply Hfail, quiet_refl].
  rewrite run_bind.
  pose proof (quiet_gc_get cfg ("/accounts/" +:+ account_id +:+ "/balances/") w) as Hq.
  destruct (gc_get cfg ("/accounts/" +:+ account_id +:+ "/balances/") w)
    as [[out|e] w1]; simpl in Hq;
    [|intros [= <- <-]; by apply Hfail].
  rewrite run_bind. unfold gets at 1. rewrite run_bind. unfold lift at 1.
  destruct (choose_balance (environ w1) out) as [[[[amt cur] btype] ref]|e] eqn:Hchoose;
    [|intros [= <- <-]; by apply Hfail].
  rewrite run_bind. unfold time_time at 1. rewrite run_bind.
  destruct Hq as (Hsw & Hout & Henv & Hfs).
  set (w2 := set_ticks (S (ticks w1)) w1).
  set (values := [[JStr (Decimal.to_str amt); cur; btype; ref;
                   JStr (PyStr.str_of_int (Py.dyadic_trunc (clock w1 (ticks w1))))]]).
  destruct (sheets_write_effect cfg values spreadsheet_id a1_range w2)
    as (Hfs2 & Hout2 & Hsw2).
  destruct (sheets_write cfg values spreadsheet_id a1_range w2) as [[[]|e] w3];
    simpl in Hfs2, Hout2, Hsw2.
  - unfold modify. intros [= <- <-]. split.
    + intros q Hq. simpl. rewrite Hfs2. by apply Hfs.
    + exists spreadsheet_id, a1_range, out, amt, cur, btype, ref,
        (PyStr.str_of_int (Py.dyadic_trunc (clock w1 (ticks w1)))).
      split; [by apply Hsid|]. split; [by apply Hrange|].
      split; [by rewrite <- Henv|]. simpl.
      split; [by rewrite Hsw2, <- Hsw|by rewrite Hout2, <- Hout].
  - intros [= <- <-]. split.
    + intros q Hq. rewrite Hfs2. by apply Hfs.
    + split; [by rewrite Hsw2, <- Hsw|by rewrite Hout2, <- Hout].
Qed.

(** C8, as amended.  For every run of [cmd_run].  No file changes but the
    token cache (the cache file, the data directory and the directories
    above it).  If the run fails, the spreadsheet has not been written
    and nothing has been printed: the failure comes before the write.  If
    the run returns, one update has gone to the spreadsheet, the row of
    the selected balance to the configured range, and its report has been
    printed.  (A failed run may have written the token cache: there is no
    undoing that.) *)
Theorem run_fails_before_the_sheet_write (cfg : Config) (w : World) :
  fs_changes_within (cache_paths cfg) w (cmd_run cfg w).2
  /\ match (cmd_run cfg w).1 with
     | Raise _ =>
         sheet_writes (cmd_run cfg w).2 = sheet_writes w
         /\ stdout (cmd_run cfg w).2 = stdout w
     | Ok _ =>
         exists spreadsheet_id a1_range out amt cur btype ref ts,
           environ w !! "GSHEET_ID" = Some spreadsheet_id
           /\ environ w !! "GSHEET_RANGE" = Some a1_range
           /\ choose_balance (environ w) out = Ok (amt, cur, btype, ref)
           /\ sheet_writes (cmd_run cfg w).2
              = sheet_writes w
                ++ [SheetUpdate spreadsheet_id a1_range
                      [[JStr (Decimal.to_str amt); cur; btype; ref; JStr ts]]]
           /\ stdout (cmd_run cfg w).2
              = stdout w ++ [Wrote amt cur btype a1_range]
     end.
Proof.
  destruct (cmd_run cfg w) as [r w'] eqn:E.
  exact (cmd_run_outcome cfg w r w' E).
Qed.

(** C8, as stated, fails when the server issues a token and then refuses
    the refresh: the run fails, and the cache file has been written. *)
Lemma failed_run_leaves_token_cache :
  let w := demo_world None 401 in
  (cmd_run demo_cfg w).1 = Raise (HTTPError 401)
  /\ fs w !! TOKEN_CACHE_PATH demo_cfg = None
  /\ fs (cmd_run demo_cfg w).2 !! TOKEN_CACHE_PATH demo_cfg
     = Some (File (json_dumps (token_record (JStr "r1") 1700003600)))
  /\ sheet_writes (cmd_run demo_cfg w).2 = [].
Proof.
  cbv zeta. repeat split; vm_compute; reflexivity.
Qed.

(** The run of the specification's end-to-end scenario: the row written,
    the token cached. *)
Example run_end_to_end :
  let w := demo_world None 200 in
  (cmd_run demo_cfg w).1 = Ok tt
  /\ sheet_writes (cmd_run demo_cfg w).2
     = [SheetUpdate "sheet-1" "A1:E1"
          [[JStr "42.00"; JStr "EUR"; JStr "closingBooked"; JStr "";
            JStr "1700000000"]]]
  /\ fs (cmd_run demo_cfg w).2 !! TOKEN_CACHE_PATH demo_cfg
     = Some (File (json_dumps (token_record (JStr "r1") 1700003600))).
Proof.
  cbv zeta. repeat split; vm_compute; reflexivity.
Qed.

(** * Further properties of the script *)

(** ** Parts of the world a computation leaves alone *)

Section Preserves.

Context {X : Type} (part : World -> X).

Lemma preserves_bind {A B} (m : M A) (k : A -> M B) :
  preserves part m -> (forall a, preserves part (k a)) ->
  preserves part (m ≫= k).
Proof.
  intros Hm Hk w. rewrite run_bind. specialize (Hm w).
  destruct (m w) as [[a|e] w1]; simpl in *; [|assumption].
  by rewrite Hk.
Qed.

Lemma preserves_reader {A} (m : M A) : reader m -> preserves part m.
Proof. intros H w. by rewrite (reader_run m w H). Qed.

Lemma preserves_ret {A} (a : A) : preserves part (mret a).
Proof. by intros w. Qed.

Lemma preserves_lift {A} (r : result A) : preserves part (lift r).
Proof. by intros w. Qed.

Lemma preserves_raise_for_status r : preserves part (raise_for_status r).
Proof.
  intros w. unfold raise_for_status.
  by destruct ((400 <=? r.1) && (r.1 <? 600)).
Qed.

End Preserves.


(** What leaves the files alone. *)
Section Files.

Variable cfg : Config.

Lemma fs_send rq : preserves fs (send rq).
Proof. intros w. unfold send. by destruct (server w (requests w) rq). Qed.

Lemma fs_time_time : preserves fs time_time.
Proof. by intros w. Qed.

Lemma fs_token_new sid skey : preserves fs (token_new sid skey).
Proof.
  unfold token_new.
  apply preserves_bind; [apply fs_send|]. intros r.
  apply preserves_bind; [apply preserves_raise_for_status|]. intros _.
  apply preserves_bind; [apply preserves_lift|]. intros out.
  apply preserves_bind; [apply preserves_lift|]. intros refresh.
  apply preserves_bind; [apply preserves_lift|]. intros secs.
  destruct (secs =? 0); [apply preserves_ret|].
  apply preserves_bind; [apply fs_time_time|]. intros now. apply preserves_ret.
Qed.

Lemma fs_token_refresh refresh : preserves fs (token_refresh refresh).
Proof.
  unfold token_refresh.
  apply preserves_bind; [apply fs_send|]. intros r.
  apply preserves_bind; [apply preserves_raise_for_status|]. intros _.
  apply preserves_bind; [apply preserves_lift|]. intros out.
  apply preserves_lift.
Qed.

Lemma fs_cached_token cache : preserves fs (cached_token cache).
Proof.
  unfold cached_token.
  apply preserves_bind; [apply preserves_lift|]. intros refresh.
  apply preserves_bind; [apply preserves_lift|]. intros exp_at.
  destruct (negb (Py.truthy refresh)); [apply preserves_ret|].
  destruct (exp_at =? 0); [apply preserves_ret|].
  apply preserves_bind; [apply fs_time_time|]. intros now.
  destruct (Py.dyadic_lt_int now (exp_at - 60)); apply preserves_ret.
Qed.

Lemma fs_cache_lookup : preserves fs (cache_lookup cfg).
Proof.
  unfold cache_lookup.
  apply preserves_bind; [apply preserves_reader, reader_path_exists|].
  intros there. destruct there; [|apply preserves_ret].
  apply preserves_bind; [apply preserves_reader, reader_load_json|].
  intros cache. apply fs_cached_token.
Qed.

Lemma fs_required_env name : preserves fs (required_env name).
Proof. intros w. by destruct (required_env_run name w) as [-> _]. Qed.

Lemma fs_sheets_write values sid range :
  preserves fs (sheets_write cfg values sid range).
Proof.
  intros w. by destruct (sheets_write_effect cfg values sid range w) as [? _].
Qed.

Lemma write_text_raise p c w e w' : write_text p c w = (Raise e, w') -> w' = w.
Proof.
  unfold write_text. destruct (stat (fs w) p) as [[|c']|e0];
    try (by intros [= _ <-]).
  destruct e0; try (by intros [= _ <-]).
  destruct (stat (fs w) (removelast p)) as [[|c']|e']; by intros [= _ <-].
Qed.

Lemma write_text_ok q name c w w' :
  write_text (q ++ [name]) c w = (Ok tt, w') ->
  stat (fs w) q = Ok Dir /\ fs w' = <[q ++ [name] := File c]> (fs w).
Proof.
  unfold write_text. rewrite stat_snoc, removelast_last.
  destruct (stat (fs w) q) as [[|c0]|e]; try discriminate.
  - destruct (fs w !! (q ++ [name])) as [[|c1]|]; try discriminate;
      by intros [= <-].
  - destruct e; discriminate.
Qed.

(** [mkdir(parents=True, exist_ok=True)] on a path that is there. *)
Lemma mkdir_parents_there p w n :
  stat (fs w) p = Ok n ->
  mkdir_parents p w
  = (match n with Dir => Ok tt | File _ => Raise FileExistsError end, w).
Proof.
  intros Hstat. unfold mkdir_parents.
  assert (Hmk : os_mkdir (rev (rev p)) w = (Raise FileExistsError, w)).
  { unfold os_mkdir. by rewrite rev_involutive, Hstat. }
  assert (Hdir : is_dir (fs w) (rev (rev p))
                 = match n with Dir => true | File _ => false end).
  { unfold is_dir. rewrite rev_involutive, Hstat. by destruct n. }
  destruct (rev p) as [|x rp]; cbn [mkdir_parents_rev];
    rewrite Hmk, Hdir; by destruct n.
Qed.

Lemma cache_path_not_above : ~ TOKEN_CACHE_PATH cfg `prefix_of` DATA_DIR cfg.
Proof.
  intros H%prefix_length. unfold TOKEN_CACHE_PATH in H.
  rewrite length_app in H. simpl in H. lia.
Qed.

Lemma load_json_file p w c :
  stat (fs w) p = Ok (File c) -> load_json p w = (json_loads c, w).
Proof.
  intros H. unfold load_json.
  rewrite (run_bind_ok _ _ w c w) by (unfold read_text; by rewrite H).
  reflexivity.
Qed.

End Files.

(** What leaves the surroundings alone. *)
Section Steady.

Variable cfg : Config.

Lemma steady_refl w : steady w w.
Proof. by repeat split. Qed.

Lemma steady_trans w1 w2 w3 : steady w1 w2 -> steady w2 w3 -> steady w1 w3.
Proof.
  intros (?&?&?&?&?&?) (?&?&?&?&?&?).
  split; [congruence|]. split; [congruence|]. split; [congruence|].
  split; [congruence|]. split; [lia|]. by etrans.
Qed.

Lemma steady_same_but_fs w w' : same_but_fs w w' -> steady w w'.
Proof.
  intros (?&?&Ht&?&Hr&?&?&?).
  split; [assumption|]. split; [assumption|]. split; [assumption|].
  split; [assumption|]. split; [lia|]. by rewrite Hr.
Qed.

Lemma steady_bind {A B} (m : M A) (k : A -> M B) :
  steady_op m -> (forall a, steady_op (k a)) -> steady_op (m ≫= k).
Proof.
  intros Hm Hk w. rewrite run_bind. specialize (Hm w).
  destruct (m w) as [[a|e] w1]; simpl in *; [|assumption].
  eapply steady_trans; [exact Hm|apply Hk].
Qed.

Lemma steady_reader {A} (m : M A) : reader m -> steady_op m.
Proof. intros H w. rewrite (reader_run m w H). apply steady_refl. Qed.

Lemma steady_ret {A} (a : A) : steady_op (mret a).
Proof. apply steady_reader, reader_ret. Qed.

Lemma steady_raise {A} e : steady_op (@raise A e).
Proof. apply steady_reader, reader_raise. Qed.

Lemma steady_lift {A} (r : result A) : steady_op (lift r).
Proof. apply steady_reader, reader_lift. Qed.

Lemma steady_sent rq w : steady w (sent rq w).
Proof.
  split; [reflexivity|]. split; [reflexivity|]. split; [reflexivity|].
  split; [reflexivity|]. split; [reflexivity|]. by apply prefix_app_r.
Qed.

Lemma steady_ticked w : steady w (ticked w).
Proof.
  split; [reflexivity|]. split; [reflexivity|]. split; [reflexivity|].
  split; [reflexivity|]. split; [simpl; lia|reflexivity].
Qed.

Lemma steady_send rq : steady_op (send rq).
Proof.
  intros w. unfold send. destruct (server w (requests w) rq); apply steady_sent.
Qed.

Lemma steady_time_time : steady_op time_time.
Proof. intros w. apply steady_ticked. Qed.

Lemma steady_raise_for_status r : steady_op (raise_for_status r).
Proof.
  unfold raise_for_status.
  destruct ((400 <=? r.1) && (r.1 <? 600)); [apply steady_raise|apply steady_ret].
Qed.

Lemma steady_mkdir_parents p : steady_op (mkdir_parents p).
Proof.
  intros w. unfold mkdir_parents.
  by destruct (mkdir_parents_rev_effect (rev p) w) as (?%steady_same_but_fs & _).
Qed.

Lemma steady_write_text p c : steady_op (write_text p c).
Proof.
  intros w. unfold write_text.
  destruct (stat (fs w) p) as [[|c']|e]; simpl;
    try apply steady_refl; try apply steady_same_but_fs, same_but_fs_set_fs.
  destruct e; try apply steady_refl.
  destruct (stat (fs w) (removelast p)) as [[|c']|e']; simpl;
    try apply steady_refl; apply steady_same_but_fs, same_but_fs_set_fs.
Qed.

Lemma steady_token_new sid skey : steady_op (token_new sid skey).
Proof.
  unfold token_new.
  apply steady_bind; [apply steady_send|]. intros r.
  apply steady_bind; [apply steady_raise_for_status|]. intros _.
  apply steady_bind; [apply steady_lift|]. intros out.
  apply steady_bind; [apply steady_lift|]. intros refresh.
  apply steady_bind; [apply steady_lift|]. intros refresh_expires.
  destruct (refresh_expires =? 0); [apply steady_ret|].
  apply steady_bind; [apply steady_time_time|]. intros now. apply steady_ret.
Qed.

Lemma steady_token_refresh refresh : steady_op (token_refresh refresh).
Proof.
  unfold token_refresh.
  apply steady_bind; [apply steady_send|]. intros r.
  apply steady_bind; [apply steady_raise_for_status|]. intros _.
  apply steady_bind; [apply steady_lift|]. intros out. apply steady_lift.
Qed.

Lemma steady_cached_token cache : steady_op (cached_token cache).
Proof.
  unfold cached_token.
  apply steady_bind; [apply steady_lift|]. intros refresh.
  apply steady_bind; [apply steady_lift|]. intros exp_at.
  destruct (negb (Py.truthy refresh)); [apply steady_ret|].
  destruct (exp_at =? 0); [apply steady_ret|].
  apply steady_bind; [apply steady_time_time|]. intros now.
  destruct (Py.dyadic_lt_int now (exp_at - 60)); apply steady_ret.
Qed.

Lemma steady_issue_and_cache : steady_op (issue_and_cache cfg).
Proof.
  unfold issue_and_cache.
  apply steady_bind; [apply steady_reader, reader_load_gcbad_user_secrets|].
  intros secrets.
  apply steady_bind; [apply steady_token_new|]. intros new.
  apply steady_bind; [apply steady_write_text|]. intros _. apply steady_ret.
Qed.

Lemma steady_get_refresh_token_cached : steady_op (get_refresh_token_cached cfg).
Proof.
  unfold get_refresh_token_cached.
  apply steady_bind; [apply steady_mkdir_parents|]. intros _.
  apply steady_bind; [apply steady_reader, reader_path_exists|]. intros there.
  apply steady_bind.
  - destruct there; [|apply steady_ret].
    apply steady_bind; [apply steady_reader, reader_load_json|].
    intros cache. apply steady_cached_token.
  - intros [refresh|]; [apply steady_ret|apply steady_issue_and_cache].
Qed.

Lemma steady_gc_get p : steady_op (gc_get cfg p).
Proof.
  unfold gc_get, get_access_token.
  apply steady_bind.
  - apply steady_bind; [apply steady_get_refresh_token_cached|].
    intros refresh. apply steady_token_refresh.
  - intros access.
    apply steady_bind; [apply steady_send|]. intros r.
    apply steady_bind; [apply steady_raise_for_status|]. intros _.
    apply steady_lift.
Qed.

End Steady.

(** ** The secrets file: [load_gcbad_user_secrets] *)

Section Secrets.

Lemma first_truthy_values (d : gmap string json) keys :
  first_truthy d keys
  = List.find Py.truthy (map (fun k => default JNull (d !! k)) keys).
Proof.
  unfold first_truthy. induction keys as [|k keys IH]; [reflexivity|].
  simpl. destruct (d !! k) as [v|]; simpl; [|assumption].
  destruct (Py.truthy v); [reflexivity|assumption].
Qed.

(** The chain of [or] of lines 40 and 41 gives the first value that
    counts as true, when there is one. *)
Lemma get_any_first_truthy (d : gmap string json) k1 k2 k3 k4 :
  exists v, get_any (JDict d) k1 k2 k3 k4 = Ok v
            /\ first_truthy d [k1; k2; k3; k4]
               = if Py.truthy v then Some v else None.
Proof.
  rewrite first_truthy_values. unfold get_any, Py.get, Py.get_default.
  cbn [mbind result_bind map List.find].
  destruct (Py.truthy (default JNull (d !! k1))) eqn:T1;
    [eexists; split; [reflexivity|by rewrite T1]|].
  destruct (Py.truthy (default JNull (d !! k2))) eqn:T2;
    [eexists; split; [reflexivity|by rewrite T2]|].
  destruct (Py.truthy (default JNull (d !! k3))) eqn:T3;
    [eexists; split; [reflexivity|by rewrite T3]|].
  eexists. split; [reflexivity|].
  by destruct (Py.truthy (default JNull (d !! k4))).
Qed.

End Secrets.

(** X1.  For every secrets directory in which [find_single_json] finds a
    file, that file holding a JSON object: the identifier returned is the
    first value that counts as true among those under [secret_id],
    [secretId], [SECRET_ID] and [id], in this order, and the key the first
    one among those under [secret_key], [secretKey], [SECRET_KEY] and
    [key]; an empty or null value is passed over for the next spelling.
    When one of the two is not found the loader raises its error "Could
    not find secret_id/secret_key".  The world is left as it is. *)
Theorem secrets_by_first_alias
  (cfg : Config) (w : World) (file : path) (d : gmap string json) :
  (find_single_json (GCBAD_SECRETS_DIR cfg) w).1 = Ok file ->
  stat (fs w) file = Ok (File (JsonText (JDict d))) ->
  load_gcbad_user_secrets cfg w
  = (match first_truthy d secret_id_keys, first_truthy d secret_key_keys with
     | Some secret_id, Some secret_key => Ok (secret_id, secret_key)
     | _, _ => Raise (RuntimeError (SecretsNotFound file))
     end, w).
Proof.
  intros Hfind Hstat. unfold load_gcbad_user_secrets.
  rewrite (run_bind_ok _ _ w file w)
    by (rewrite (reader_run _ w (reader_find_single_json _)); by rewrite Hfind).
  rewrite (run_bind_ok _ _ w (JDict d) w) by (by rewrite (load_json_file _ _ _ Hstat)).
  destruct (get_any_first_truthy d "secret_id" "secretId" "SECRET_ID" "id")
    as (secret_id & -> & Hid).
  destruct (get_any_first_truthy d "secret_key" "secretKey" "SECRET_KEY" "key")
    as (secret_key & -> & Hkey).
  unfold secret_id_keys, secret_key_keys. rewrite Hid, Hkey.
  rewrite run_bind. unfold lift at 1. rewrite run_bind. unfold lift at 1.
  by destruct (Py.truthy secret_id), (Py.truthy secret_key).
Qed.

(** X1 on a file whose [secret_id] is empty: the identifier is taken from
    [id], the key from [secretKey]. *)
Lemma secrets_by_first_alias_witness :
  load_gcbad_user_secrets demo_cfg (secrets_world (JsonText (JDict aliased_secrets)))
  = (Ok (JStr "id-2", JStr "key-2"),
     secrets_world (JsonText (JDict aliased_secrets))).
Proof.
  apply (secrets_by_first_alias demo_cfg
           (secrets_world (JsonText (JDict aliased_secrets)))
           ["secrets"; "gcbad"; "user.json"] aliased_secrets);
    vm_compute; reflexivity.
Defined.



(** ** Requests with a bearer token: [gc_get] and [gc_post] *)

Section Http.

Variable cfg : Config.

(** A request, [raise_for_status] and [r.json()], run. *)
Lemma fetch_run rq w :
  (r ← send rq; raise_for_status r;; lift (json_loads r.2)) w
  = match server w (requests w) rq with
    | NoReply => (Raise ConnectionError, sent rq w)
    | Reply status body =>
        if is_error_status status then (Raise (HTTPError status), sent rq w)
        else (json_loads body, sent rq w)
    end.
Proof.
  rewrite run_bind. unfold send.
  destruct (server w (requests w) rq) as [|status body]; [reflexivity|].
  rewrite run_bind. unfold raise_for_status, is_error_status. cbn [fst snd].
  by destruct ((400 <=? status) && (status <? 600)).
Qed.

Lemma fetch_answered rq w out :
  (r ← send rq; raise_for_status r;; lift (json_loads r.2)) w = (Ok out, sent rq w)
  <-> answered w rq out.
Proof.
  rewrite fetch_run. unfold answered. split.
  - destruct (server w (requests w) rq) as [|status body]; [discriminate|].
    destruct (is_error_status status) eqn:E; [discriminate|].
    destruct body as [j|raw]; [|discriminate]. intros [= ->]. by exists status.
  - intros (status & -> & ->). reflexivity.
Qed.

Lemma fetch_world rq w r w' :
  (r ← send rq; raise_for_status r;; lift (json_loads r.2)) w = (r, w') ->
  w' = sent rq w.
Proof.
  rewrite fetch_run. destruct (server w (requests w) rq) as [|status body];
    [by intros [= _ <-]|].
  destruct (is_error_status status); by intros [= _ <-].
Qed.

Lemma token_refresh_run refresh w :
  token_refresh refresh w
  = match server w (requests w) (token_refresh_request refresh) with
    | NoReply => (Raise ConnectionError, sent (token_refresh_request refresh) w)
    | Reply status body =>
        if is_error_status status
        then (Raise (HTTPError status), sent (token_refresh_request refresh) w)
        else (out ← json_loads body; Py.getitem out "access",
              sent (token_refresh_request refresh) w)
    end.
Proof.
  unfold token_refresh. rewrite run_bind. unfold send.
  destruct (server w (requests w) (token_refresh_request refresh))
    as [|status body]; [reflexivity|].
  rewrite run_bind. unfold raise_for_status, is_error_status. cbn [fst snd].
  destruct ((400 <=? status) && (status <? 600)); [reflexivity|].
  destruct body as [out|raw]; reflexivity.
Qed.

Lemma token_refresh_returns refresh w access w' :
  token_refresh refresh w = (Ok access, w')
  <-> (exists reply, answered w (token_refresh_request refresh) reply
                     /\ Py.getitem reply "access" = Ok access)
      /\ w' = sent (token_refresh_request refresh) w.
Proof.
  rewrite token_refresh_run. unfold answered. split.
  - destruct (server w (requests w) (token_refresh_request refresh))
      as [|status body]; [discriminate|].
    destruct (is_error_status status) eqn:E; [discriminate|].
    destruct body as [j|raw]; [|discriminate]. cbn [json_loads mbind result_bind].
    intros [= Hget <-]. split; [|reflexivity]. exists j. split; [|assumption].
    by exists status.
  - intros [(reply & (status & -> & ->) & Hget) ->]. cbn [json_loads mbind result_bind].
    by rewrite Hget.
Qed.

(** [token_refresh] sends its request, once, whatever comes of it. *)
Lemma token_refresh_requests refresh w :
  requests (token_refresh refresh w).2
  = requests w ++ [token_refresh_request refresh].
Proof.
  rewrite token_refresh_run.
  destruct (server w (requests w) (token_refresh_request refresh))
    as [|status body]; [reflexivity|].
  by destruct (is_error_status status).
Qed.

Lemma gc_get_run p w :
  gc_get cfg p w
  = match get_refresh_token_cached cfg w with
    | (Ok refresh, w1) =>
        match token_refresh refresh w1 with
        | (Ok access, w2) =>
            (r ← send (get_request p access);
             raise_for_status r;; lift (json_loads r.2)) w2
        | (Raise e, w2) => (Raise e, w2)
        end
    | (Raise e, w1) => (Raise e, w1)
    end.
Proof.
  unfold gc_get, get_access_token. rewrite run_bind, run_bind.
  destruct (get_refresh_token_cached cfg w) as [[refresh|e] w1]; [|reflexivity].
  by destruct (token_refresh refresh w1) as [[access|e] w2].
Qed.

Lemma gc_post_run p payload w :
  gc_post cfg p payload w
  = match get_refresh_token_cached cfg w with
    | (Ok refresh, w1) =>
        match token_refresh refresh w1 with
        | (Ok access, w2) =>
            (r ← send (post_request p access payload);
             raise_for_status r;; lift (json_loads r.2)) w2
        | (Raise e, w2) => (Raise e, w2)
        end
    | (Raise e, w1) => (Raise e, w1)
    end.
Proof.
  unfold gc_post, get_access_token. rewrite run_bind, run_bind.
  destruct (get_refresh_token_cached cfg w) as [[refresh|e] w1]; [|reflexivity].
  by destruct (token_refresh refresh w1) as [[access|e] w2].
Qed.

(** What the two have in common: the token first, then the request made
    with it. *)
Lemma authorized_returns (rq : json -> http_request) w out w' :
  match get_refresh_token_cached cfg w with
  | (Ok refresh, w1) =>
      match token_refresh refresh w1 with
      | (Ok access, w2) =>
          (r ← send (rq access); raise_for_status r;; lift (json_loads r.2)) w2
      | (Raise e, w2) => (Raise e, w2)
      end
  | (Raise e, w1) => (Raise e, w1)
  end = (Ok out, w')
  <-> exists refresh w1 reply access,
        get_refresh_token_cached cfg w = (Ok refresh, w1)
        /\ answered w1 (token_refresh_request refresh) reply
        /\ Py.getitem reply "access" = Ok access
        /\ answered (sent (token_refresh_request refresh) w1) (rq access) out
        /\ w' = sent (rq access) (sent (token_refresh_request refresh) w1).
Proof.
  split.
  - destruct (get_refresh_token_cached cfg w) as [[refresh|e] w1]; [|discriminate].
    destruct (token_refresh refresh w1) as [[access|e] w2] eqn:Hrefresh;
      [|discriminate].
    apply token_refresh_returns in Hrefresh as [(reply & Hreply & Haccess) ->].
    intros Hfetch. pose proof (fetch_world _ _ _ _ Hfetch) as ->.
    apply fetch_answered in Hfetch.
    by exists refresh, w1, reply, access.
  - intros (refresh & w1 & reply & access & -> & Hreply & Haccess & Hout & ->).
    rewrite (proj2 (token_refresh_returns refresh w1 access
                      (sent (token_refresh_request refresh) w1))); [|by eauto].
    by apply fetch_answered.
Qed.

Lemma quiet_gc_post p payload : quiet_op cfg (gc_post cfg p payload).
Proof.
  unfold gc_post, get_access_token.
  apply quiet_bind.
  - apply quiet_bind; [apply quiet_get_refresh_token_cached|].
    intros refresh. apply quiet_token_refresh.
  - intros access.
    apply quiet_bind; [apply quiet_send|]. intros r.
    apply quiet_bind; [apply quiet_raise_for_status|]. intros _.
    apply quiet_lift.
Qed.

End Http.



(** ** The requests of one call *)

Section Requests.

Variable cfg : Config.

Lemma requests_time_time : preserves requests time_time.
Proof. by intros w. Qed.

Lemma requests_mkdir_parents p : preserves requests (mkdir_parents p).
Proof.
  intros w. unfold mkdir_parents.
  by destruct (mkdir_parents_rev_effect (rev p) w) as ((_&_&_&_&?&_) & _).
Qed.

Lemma requests_write_text p c : preserves requests (write_text p c).
Proof.
  intros w. unfold write_text.
  destruct (stat (fs w) p) as [[|c']|e]; try reflexivity.
  destruct e; try reflexivity.
  by destruct (stat (fs w) (removelast p)) as [[|c']|e'].
Qed.

Lemma requests_cached_token cache : preserves requests (cached_token cache).
Proof.
  unfold cached_token.
  apply preserves_bind; [apply preserves_lift|]. intros refresh.
  apply preserves_bind; [apply preserves_lift|]. intros exp_at.
  destruct (negb (Py.truthy refresh)); [apply preserves_ret|].
  destruct (exp_at =? 0); [apply preserves_ret|].
  apply preserves_bind; [apply requests_time_time|]. intros now.
  destruct (Py.dyadic_lt_int now (exp_at - 60)); apply preserves_ret.
Qed.

(** [token_new] sends its request, once, whatever comes of it. *)
Lemma token_new_requests sid skey w :
  requests (token_new sid skey w).2 = requests w ++ [token_new_request sid skey].
Proof.
  unfold token_new. rewrite run_bind. unfold send at 1.
  assert (Hrest : forall r,
    preserves requests
      (raise_for_status r;;
       out ← lift (json_loads r.2);
       refresh ← lift (Py.getitem out "refresh");
       refresh_expires ← lift (refresh_expires_of out);
       if refresh_expires =? 0 then mret (refresh, 0)
       else now ← time_time;
            mret (refresh, Py.dyadic_trunc now + refresh_expires))).
  { intros r.
    apply preserves_bind; [apply preserves_raise_for_status|]. intros _.
    apply preserves_bind; [apply preserves_lift|]. intros out.
    apply preserves_bind; [apply preserves_lift|]. intros refresh.
    apply preserves_bind; [apply preserves_lift|]. intros secs.
    destruct (secs =? 0); [apply preserves_ret|].
    apply preserves_bind; [apply requests_time_time|]. intros now.
    apply preserves_ret. }
  destruct (server w (requests w) (token_new_request sid skey)) as [|status body];
    [reflexivity|].
  by rewrite Hrest.
Qed.

Lemma at_most_new_bind {A B} (m : M A) (k : A -> M B) :
  preserves requests m -> (forall a, at_most_new (k a)) -> at_most_new (m ≫= k).
Proof.
  intros Hm Hk w. rewrite run_bind. specialize (Hm w).
  destruct (m w) as [[a|e] w1]; simpl in *; [|by left].
  rewrite <- Hm. apply Hk.
Qed.

Lemma at_most_new_preserves {A} (m : M A) : preserves requests m -> at_most_new m.
Proof. intros H w. left. apply H. Qed.

Lemma issue_and_cache_requests : at_most_new (issue_and_cache cfg).
Proof.
  unfold issue_and_cache.
  apply at_most_new_bind;
    [apply preserves_reader, reader_load_gcbad_user_secrets|].
  intros [sid skey] w. right. exists sid, skey. cbn [fst snd]. rewrite run_bind.
  pose proof (token_new_requests sid skey w) as Hnew.
  destruct (token_new sid skey w) as [[new|e] w1]; simpl in Hnew; [|assumption].
  rewrite <- Hnew.
  apply (preserves_bind requests (write_text _ _) (fun _ => mret new.1));
    [apply requests_write_text|]. intros _. apply preserves_ret.
Qed.

Lemma get_refresh_token_cached_requests :
  at_most_new (get_refresh_token_cached cfg).
Proof.
  unfold get_refresh_token_cached.
  apply at_most_new_bind; [apply requests_mkdir_parents|]. intros _.
  apply at_most_new_bind; [apply preserves_reader, reader_path_exists|].
  intros there. apply at_most_new_bind.
  - destruct there; [|apply preserves_ret].
    apply preserves_bind; [apply preserves_reader, reader_load_json|].
    intros cache. apply requests_cached_token.
  - intros [refresh|];
      [apply at_most_new_preserves, preserves_ret|apply issue_and_cache_requests].
Qed.

End Requests.

(** X5.  No retries: whatever the server does, one call of [gc_get] adds
    to the log of requests at most the request for a new token, the
    refresh request and the GET request, each at most once and in this
    order; a later one is only sent after the earlier ones. *)
Theorem gc_get_never_retries (cfg : Config) (p : string) (w : World) :
  exists l sid skey refresh access,
    requests (gc_get cfg p w).2 = requests w ++ l
    /\ (l `prefix_of` [token_refresh_request refresh; get_request p access]
        \/ l `prefix_of` [token_new_request sid skey;
                          token_refresh_request refresh; get_request p access]).
Proof.
  rewrite gc_get_run.
  pose proof (get_refresh_token_cached_requests cfg w) as Hgrtc.
  destruct (get_refresh_token_cached cfg w) as [[refresh|e] w1]; simpl in Hgrtc.
  - pose proof (token_refresh_requests refresh w1) as Hrefresh.
    destruct (token_refresh refresh w1) as [[access|e] w2]; simpl in Hrefresh.
    + match goal with
      | |- context [(?m ≫= ?k) w2] =>
          destruct ((m ≫= k) w2) as [r w3] eqn:Hfetch
      end.
      apply fetch_world in Hfetch as ->.
      destruct Hgrtc as [H1|(sid & skey & H1)].
      * exists [token_refresh_request refresh; get_request p access],
          JNull, JNull, refresh, access.
        split; [|by left]. simpl. rewrite Hrefresh, H1. by rewrite <- app_assoc.
      * exists [token_new_request sid skey; token_refresh_request refresh;
                get_request p access], sid, skey, refresh, access.
        split; [|by right]. simpl. rewrite Hrefresh, H1.
        by rewrite <- !app_assoc.
    + destruct Hgrtc as [H1|(sid & skey & H1)].
      * exists [token_refresh_request refresh], JNull, JNull, refresh, JNull.
        split; [simpl; congruence|]. left. by eexists.
      * exists [token_new_request sid skey; token_refresh_request refresh],
          sid, skey, refresh, JNull.
        split; [simpl; rewrite Hrefresh, H1; by rewrite <- app_assoc|].
        right. by eexists.
  - destruct Hgrtc as [H1|(sid & skey & H1)].
    + exists [], JNull, JNull, JNull, JNull.
      split; [simpl; by rewrite app_nil_r|]. left. by eexists.
    + exists [token_new_request sid skey], sid, skey, JNull, JNull.
      split; [assumption|]. right. by eexists.
Qed.

(** ** The token cache, continued *)

Section CacheEdges.

Variable cfg : Config.

Lemma cache_expiry_falsy (d : gmap string json) x :
  d !! "refresh_expires_at" = Some x -> Py.truthy x = false ->
  cache_expiry (JDict d) = Ok 0.
Proof.
  intros Hx Hfalsy. unfold cache_expiry, Py.get_default, Py.or_.
  rewrite Hx. cbn [default mbind result_bind id]. by rewrite Hfalsy.
Qed.


(** [get_refresh_token_cached], run line by line. *)
Lemma get_refresh_token_cached_run w :
  get_refresh_token_cached cfg w
  = match mkdir_parents (DATA_DIR cfg) w with
    | (Ok _, w0) =>
        match cache_lookup cfg w0 with
        | (Ok (Some refresh), w1) => (Ok refresh, w1)
        | (Ok None, w1) => issue_and_cache cfg w1
        | (Raise e, w1) => (Raise e, w1)
        end
    | (Raise e, w0) => (Raise e, w0)
    end.
Proof.
  unfold get_refresh_token_cached, cache_lookup. rewrite run_bind.
  destruct (mkdir_parents (DATA_DIR cfg) w) as [[[]|e] w0]; [|reflexivity].
  rewrite !run_bind. unfold path_exists, gets.
  destruct (is_ok (stat (fs w0) (TOKEN_CACHE_PATH cfg))).
  - rewrite run_bind.
    by destruct ((load_json (TOKEN_CACHE_PATH cfg) ≫= cached_token) w0)
      as [[[refresh|]|e] w1].
  - reflexivity.
Qed.

(** When lines 78-84 fail, no file has changed. *)
Lemma issue_and_cache_raise w e w' :
  issue_and_cache cfg w = (Raise e, w') -> fs w' = fs w.
Proof.
  unfold issue_and_cache. rewrite run_bind.
  rewrite (reader_run _ w (reader_load_gcbad_user_secrets cfg)).
  destruct (load_gcbad_user_secrets cfg w).1 as [[sid skey]|e0];
    [|by intros [= _ <-]].
  cbn [fst snd]. rewrite run_bind.
  pose proof (fs_token_new sid skey w) as Hnew.
  destruct (token_new sid skey w) as [[new|e0] w1]; simpl in Hnew;
    [|by intros [= _ <-]].
  rewrite run_bind.
  destruct (write_text (TOKEN_CACHE_PATH cfg)
              (json_dumps (token_record new.1 new.2)) w1)
    as [[[]|e0] w2] eqn:Hwrite; [discriminate|].
  apply write_text_raise in Hwrite as ->. by intros [= _ <-].
Qed.




End CacheEdges.

(** X6.  When the data directory of the configuration is there as a
    regular file, line 69 raises [FileExistsError]:
    [get_refresh_token_cached] fails before it looks for the cache or the
    secrets, no request is sent and nothing changes. *)
Theorem data_dir_is_a_file (cfg : Config) (w : World) (c : text) :
  stat (fs w) (DATA_DIR cfg) = Ok (File c) ->
  get_refresh_token_cached cfg w = (Raise FileExistsError, w).
Proof.
  intros Hstat. unfold get_refresh_token_cached.
  by rewrite (run_bind_raise _ _ w FileExistsError w)
    by (by rewrite (mkdir_parents_there _ _ _ Hstat)).
Qed.

(** X6 in the demo world with a file in the place of the directory
    [data]. *)
Lemma data_dir_is_a_file_witness :
  get_refresh_token_cached demo_cfg
    (set_fs (<[["data"] := File (NotJson "")]> (demo_fs None)) (demo_world None 200))
  = (Raise FileExistsError,
     set_fs (<[["data"] := File (NotJson "")]> (demo_fs None)) (demo_world None 200)).
Proof.
  apply (data_dir_is_a_file demo_cfg _ (NotJson "")). vm_compute. reflexivity.
Defined.

(** X7.  An expiry that is in the cache file and counts as false (null,
    false, 0, 0.0, an empty string, an empty list or object) is read as
    zero by the [or 0] of line 74, that is as "does not expire": the
    cached token is returned, the clock is not read and no request is
    sent. *)
Theorem falsy_expiry_is_no_expiry
  (cfg : Config) (w w1 : World) (d : gmap string json) (refresh x : json) :
  mkdir_parents (DATA_DIR cfg) w = (Ok tt, w1) ->
  stat (fs w1) (TOKEN_CACHE_PATH cfg) = Ok (File (JsonText (JDict d))) ->
  d !! "refresh" = Some refresh -> Py.truthy refresh = true ->
  d !! "refresh_expires_at" = Some x -> Py.truthy x = false ->
  get_refresh_token_cached cfg w = (Ok refresh, w1)
  /\ requests w1 = requests w /\ ticks w1 = ticks w.
Proof.
  intros Hmkdir Hstat Hrefresh Htruthy Hx Hfalsy.
  destruct (mkdir_parents_ok _ _ _ Hmkdir) as (_ & _ & _ & Hticks & _ & Hreq & _).
  split; [|by split].
  rewrite (get_refresh_token_cached_file cfg w w1 _ Hmkdir Hstat).
  cbn [json_loads].
  rewrite (cached_token_run (JDict d) refresh 0 w1);
    [by rewrite Htruthy|by apply get_refresh_present|by eapply cache_expiry_falsy].
Qed.

(** X7 on a cache file whose expiry is null. *)
Lemma falsy_expiry_is_no_expiry_witness :
  get_refresh_token_cached demo_cfg
    (demo_world
       (Some (JsonText (JDict (<["refresh" := JStr "r0"]>
                               (<["refresh_expires_at" := JNull]> ∅))))) 200)
  = (Ok (JStr "r0"),
     demo_world
       (Some (JsonText (JDict (<["refresh" := JStr "r0"]>
                               (<["refresh_expires_at" := JNull]> ∅))))) 200).
Proof.
  refine (proj1 (falsy_expiry_is_no_expiry demo_cfg _ _
                   (<["refresh" := JStr "r0"]> (<["refresh_expires_at" := JNull]> ∅))
                   (JStr "r0") JNull _ _ _ _ _ _));
    vm_compute; reflexivity.
Defined.

(** X8.  A call of [get_refresh_token_cached] that fails, for whatever
    reason, leaves the cache file as it was: the file is written last, by
    line 80, and only after the new token has been had. *)
Theorem failed_call_keeps_the_cache_file (cfg : Config) (w : World) (e : exn) :
  (get_refresh_token_cached cfg w).1 = Raise e ->
  fs (get_refresh_token_cached cfg w).2 !! TOKEN_CACHE_PATH cfg
  = fs w !! TOKEN_CACHE_PATH cfg.
Proof.
  rewrite get_refresh_token_cached_run.
  assert (Hmk : fs (mkdir_parents (DATA_DIR cfg) w).2 !! TOKEN_CACHE_PATH cfg
                = fs w !! TOKEN_CACHE_PATH cfg).
  { unfold mkdir_parents.
    destruct (mkdir_parents_rev_effect (rev (DATA_DIR cfg)) w) as (_ & Hwithin & _).
    apply Hwithin. rewrite rev_involutive. apply cache_path_not_above. }
  destruct (mkdir_parents (DATA_DIR cfg) w) as [[[]|e0] w0]; simpl in Hmk;
    [|by intros _].
  pose proof (fs_cache_lookup cfg w0) as Hhit.
  destruct (cache_lookup cfg w0) as [[[refresh|]|e0] w1]; simpl in Hhit.
  - discriminate.
  - destruct (issue_and_cache cfg w1) as [[new|e0] w2] eqn:Hissue; [discriminate|].
    apply issue_and_cache_raise in Hissue. intros _. simpl.
    by rewrite Hissue, Hhit.
  - intros _. simpl. by rewrite Hhit.
Qed.

(** X8 in a world with a stale cache file and a secrets file that is not
    JSON: the call fails, and the stale file stays. *)
Lemma failed_call_keeps_the_cache_file_witness :
  let w := set_fs (<[["secrets"; "gcbad"; "user.json"] := File (NotJson "")]>
                     (demo_fs (Some (json_dumps (token_record (JStr "r0") 1)))))
                  (demo_world None 200) in
  fs (get_refresh_token_cached demo_cfg w).2 !! TOKEN_CACHE_PATH demo_cfg
  = Some (File (json_dumps (token_record (JStr "r0") 1))).
Proof.
  cbv zeta.
  rewrite (failed_call_keeps_the_cache_file demo_cfg _ JSONDecodeError);
    vm_compute; reflexivity.
Defined.



(** ** What the cache file can hold *)

Section CacheFile.

Variable cfg : Config.

Lemma cache_file_step_trans w1 w2 w3 :
  cache_file_step cfg w1 w2 -> cache_file_step cfg w2 w3 ->
  cache_file_step cfg w1 w3.
Proof.
  intros H12 [H23|H23]; [|by right].
  destruct H12 as [H12|H12]; [left; congruence|right].
  destruct H12 as (r & e & H12). exists r, e. congruence.
Qed.

Lemma cache_file_bind {A B} (m : M A) (k : A -> M B) :
  cache_file_op cfg m -> (forall a, cache_file_op cfg (k a)) ->
  cache_file_op cfg (m ≫= k).
Proof.
  intros Hm Hk w. rewrite run_bind. specialize (Hm w).
  destruct (m w) as [[a|e] w1]; simpl in *; [|assumption].
  eapply cache_file_step_trans; [exact Hm|apply Hk].
Qed.

Lemma cache_file_preserves {A} (m : M A) : preserves fs m -> cache_file_op cfg m.
Proof. intros H w. left. by rewrite H. Qed.

Lemma cache_file_mkdir_parents : cache_file_op cfg (mkdir_parents (DATA_DIR cfg)).
Proof.
  intros w. left. unfold mkdir_parents.
  destruct (mkdir_parents_rev_effect (rev (DATA_DIR cfg)) w) as (_ & Hwithin & _).
  apply Hwithin. rewrite rev_involutive. apply cache_path_not_above.
Qed.

Lemma cache_file_write_text refresh refresh_expires_at :
  cache_file_op cfg
    (write_text (TOKEN_CACHE_PATH cfg)
       (json_dumps (token_record refresh refresh_expires_at))).
Proof.
  intros w.
  destruct (write_text _ _ w) as [[[]|e] w'] eqn:Hwrite.
  - unfold TOKEN_CACHE_PATH in Hwrite. apply write_text_ok in Hwrite as [_ Hfs].
    right. exists refresh, refresh_expires_at. simpl. rewrite Hfs.
    apply lookup_insert_eq.
  - apply write_text_raise in Hwrite as ->. by left.
Qed.

Lemma cache_file_issue_and_cache : cache_file_op cfg (issue_and_cache cfg).
Proof.
  unfold issue_and_cache.
  apply cache_file_bind;
    [apply cache_file_preserves, preserves_reader, reader_load_gcbad_user_secrets|].
  intros secrets.
  apply cache_file_bind; [apply cache_file_preserves, fs_token_new|]. intros new.
  apply cache_file_bind; [apply cache_file_write_text|]. intros _.
  apply cache_file_preserves, preserves_ret.
Qed.

Lemma cache_file_get_refresh_token_cached :
  cache_file_op cfg (get_refresh_token_cached cfg).
Proof.
  unfold get_refresh_token_cached.
  apply cache_file_bind; [apply cache_file_mkdir_parents|]. intros _.
  apply cache_file_bind;
    [apply cache_file_preserves, preserves_reader, reader_path_exists|].
  intros there. apply cache_file_bind.
  - apply cache_file_preserves. destruct there; [|apply preserves_ret].
    apply preserves_bind; [apply preserves_reader, reader_load_json|].
    intros cache. apply fs_cached_token.
  - intros [refresh|];
      [apply cache_file_preserves, preserves_ret|apply cache_file_issue_and_cache].
Qed.

Lemma cache_file_gc_get p : cache_file_op cfg (gc_get cfg p).
Proof.
  unfold gc_get, get_access_token.
  apply cache_file_bind.
  - apply cache_file_bind; [apply cache_file_get_refresh_token_cached|].
    intros refresh. apply cache_file_preserves, fs_token_refresh.
  - intros access. apply cache_file_preserves.
    apply preserves_bind; [apply fs_send|]. intros r.
    apply preserves_bind; [apply preserves_raise_for_status|]. intros _.
    apply preserves_lift.
Qed.

End CacheFile.

(** X10.  Whatever happens in a run of [cmd_run], the cache file is
    afterwards what it was before, or it holds a record
    [{refresh, refresh_expires_at}] with an integer expiry: nothing else
    is ever written to it, the access token in particular is not. *)
Theorem cache_file_holds_token_records_only (cfg : Config) (w : World) :
  fs (cmd_run cfg w).2 !! TOKEN_CACHE_PATH cfg = fs w !! TOKEN_CACHE_PATH cfg
  \/ exists refresh refresh_expires_at,
       fs (cmd_run cfg w).2 !! TOKEN_CACHE_PATH cfg
       = Some (File (json_dumps (token_record refresh refresh_expires_at))).
Proof.
  revert w. change (cache_file_op cfg (cmd_run cfg)). unfold cmd_run.
  apply cache_file_bind; [apply cache_file_preserves, fs_required_env|].
  intros account_id.
  apply cache_file_bind; [apply cache_file_preserves, fs_required_env|].
  intros spreadsheet_id.
  apply cache_file_bind; [apply cache_file_preserves, fs_required_env|].
  intros a1_range.
  apply cache_file_bind; [apply cache_file_gc_get|]. intros out.
  apply cache_file_preserves.
  apply preserves_bind; [by intros w|]. intros env.
  apply preserves_bind; [apply preserves_lift|]. intros [[[amt cur] btype] ref].
  apply preserves_bind; [apply fs_time_time|]. intros now.
  apply preserves_bind; [apply fs_sheets_write|]. intros _.
  by intros w.
Qed.

(** ** Amounts that are not strings *)

Section OtherAmounts.

Lemma digits_value_digits_of n :
  0 <= n -> PyStr.digits_value (PyStr.digits_of n) = n.
Proof.
  intros Hn. rewrite digits_value_int_value.
  by destruct (digits_of_spec n Hn) as (_ & _ & ?).
Qed.

(** A positive divisor of a power of two is a power of two. *)
Lemma divisor_of_power_of_two (m : nat) : forall g,
  0 < g -> (g | 2 ^ Z.of_nat m) -> exists j, 0 <= j <= Z.of_nat m /\ g = 2 ^ j.
Proof.
  induction m as [|m IH]; intros g Hg Hdiv.
  - exists 0. split; [lia|]. simpl in Hdiv.
    apply Z.divide_1_r_nonneg in Hdiv; lia.
  - rewrite Nat2Z.inj_succ, Z.pow_succ_r in Hdiv by lia.
    destruct (Z.Even_or_Odd g) as [[g' ->]|Hodd].
    + destruct (IH g') as (j & Hj & ->); [lia| |].
      * apply (Z.mul_divide_cancel_l _ _ 2); [lia|assumption].
      * exists (Z.succ j). split; [lia|]. by rewrite Z.pow_succ_r by lia.
    + destruct (IH g) as (j & Hj & ->); [assumption| |].
      * apply (Z.gauss _ 2); [assumption|].
        destruct Hodd as [g' ->]. rewrite Z.gcd_comm.
        replace (2 * g' + 1) with (1 + g' * 2) by lia.
        rewrite Z.gcd_add_mult_diag_r. apply Z.gcd_1_r.
      * exists j. split; [lia|reflexivity].
Qed.

Lemma dyadic_den_power f : exists m : nat, Py.dyadic_den f = 2 ^ Z.of_nat m.
Proof.
  unfold Py.dyadic_den. exists (Z.to_nat (Z.max (- d_exp f) 0)).
  by rewrite Z2Nat.id by lia.
Qed.

(** [Decimal.from_float] keeps the number the float is. *)
Lemma of_dyadic_value f :
  exists q, Decimal.value (Decimal.of_dyadic f) = Some q /\ (q == dyadic_Q f)%Q.
Proof.
  unfold Decimal.of_dyadic, Decimal.value, dyadic_Q.
  destruct (dyadic_den_power f) as [m Hden].
  pose proof (dyadic_den_pos f) as Hpos.
  set (num := Py.dyadic_num f). set (den := Py.dyadic_den f) in *.
  set (g := Z.gcd (Z.abs num) den).
  assert (Hg : 0 < g).
  { pose proof (Z.gcd_nonneg (Z.abs num) den).
    assert (g <> 0); [|unfold g in *; lia].
    unfold g. intros [_ H0]%Z.gcd_eq_0. lia. }
  destruct (divisor_of_power_of_two m g Hg) as (j & Hj & Hgj).
  { rewrite <- Hden. apply Z.gcd_divide_r. }
  assert (Hk : den / g = 2 ^ (Z.of_nat m - j)).
  { rewrite Hden, Hgj, <- Z.pow_sub_r by lia. reflexivity. }
  rewrite Hk, Z.log2_pow2 by lia.
  set (k := Z.of_nat m - j) in *.
  assert (Hnum : Z.abs num = Z.abs num / g * g).
  { destruct (Z.gcd_divide_l (Z.abs num) den) as [c Hc]. fold g in Hc.
    rewrite Hc at 2. by rewrite Z.div_mul by lia. }
  assert (Hdeng : den = g * 2 ^ k).
  { rewrite <- Hk. apply Z.div_exact; [lia|].
    apply Z.mod_divide; [lia|]. apply Z.gcd_divide_r. }
  assert (Hsign : num = if d_neg f then - Z.abs num else Z.abs num).
  { unfold num, Py.dyadic_num.
    assert (0 <= Z.of_N (d_man f) * 2 ^ Z.max (d_exp f) 0)
      by (apply Z.mul_nonneg_nonneg; [lia|apply Z.pow_nonneg; lia]).
    destruct (d_neg f); lia. }
  set (c := Z.abs num / g * 5 ^ k).
  assert (Hc : 0 <= c).
  { apply Z.mul_nonneg_nonneg; [apply Z.div_pos; lia|apply Z.pow_nonneg; lia]. }
  rewrite (digits_value_digits_of c Hc).
  eexists. split; [reflexivity|].
  assert (H10 : 10 ^ k = 2 ^ k * 5 ^ k) by (by rewrite <- Z.pow_mul_l).
  assert (H2k : 0 < 2 ^ k) by (apply Z.pow_pos_nonneg; lia).
  assert (H5k : 0 < 5 ^ k) by (apply Z.pow_pos_nonneg; lia).
  assert (Hcross : (if d_neg f then - c else c) * den = num * 10 ^ k).
  { rewrite Hsign, Hdeng, H10. unfold c.
    set (a := Z.abs num / g) in *. rewrite Hnum. destruct (d_neg f); ring. }
  unfold Qeq. destruct (Z.leb_spec 0 (- k)) as [Hk0|Hk0]; simpl Qnum; simpl Qden.
  - assert (k = 0) as Hz by lia. rewrite Hz in Hcross |- *.
    change (- 0) with 0. change (10 ^ 0) with 1 in *.
    rewrite Z2Pos.id by assumption. lia.
  - rewrite Z.opp_involutive.
    rewrite !Z2Pos.id by (try assumption; rewrite H10; nia).
    exact Hcross.
Qed.

(** Lines 133-137 on a record whose amount [Decimal] takes. *)
Lemma balance_fields_amount (d ba : gmap string json) cur amount amt :
  d !! "balanceAmount" = Some (JDict ba) ->
  ba !! "amount" = Some amount ->
  ba !! "currency" = Some cur ->
  Decimal.of_json amount = Ok amt ->
  exists btype ref, balance_fields (JDict d) = Ok (amt, cur, btype, ref).
Proof.
  intros Hd Hamount Hcur Hdec.
  unfold balance_fields. cbn [Py.getitem]. rewrite Hd.
  cbn [mbind result_bind Py.getitem]. rewrite Hamount.
  cbn [mbind result_bind]. rewrite Hdec.
  cbn [mbind result_bind Py.getitem]. rewrite Hcur.
  cbn [mbind result_bind Py.get_default Py.get].
  destruct (Py.truthy (default JNull (d !! "referenceDate"))); eauto.
Qed.

End OtherAmounts.

(** X11.  When the amount of the selected record is a JSON integer and
    not a string, line 133 makes the [Decimal] of that integer: its value
    is the integer, and [str] of it, the first cell of the row of line
    205, is the integer's decimal numeral. *)
Theorem integer_amount_is_kept
  (d ba : gmap string json) (cur : json) (n : Z) :
  d !! "balanceAmount" = Some (JDict ba) ->
  ba !! "amount" = Some (JInt n) ->
  ba !! "currency" = Some cur ->
  exists amt btype ref,
    balance_fields (JDict d) = Ok (amt, cur, btype, ref)
    /\ Decimal.to_str amt = PyStr.str_of_int n
    /\ exists q, Decimal.value amt = Some q /\ (q == inject_Z n)%Q.
Proof.
  intros Hd Hamount Hcur.
  destruct (balance_fields_amount d ba cur (JInt n)
              (Decimal.Finite (n <? 0) (PyStr.digits_of (Z.abs n)) 0))
    as (btype & ref & Hfields); try assumption; [reflexivity|].
  exists (Decimal.Finite (n <? 0) (PyStr.digits_of (Z.abs n)) 0), btype, ref.
  split; [assumption|].
  destruct (digits_of_spec (Z.abs n)) as (_ & Hne & _); [lia|].
  split.
  - rewrite to_str_integer by assumption. unfold PyStr.str_of_int.
    destruct (Z.ltb_spec n 0).
    + by rewrite Z.abs_neq by lia.
    + by rewrite Z.abs_eq by lia.
  - unfold Decimal.value. rewrite digits_value_digits_of by lia.
    eexists. split; [reflexivity|]. cbn [Z.leb Z.compare].
    rewrite Z.pow_0_r, Z.mul_1_r.
    destruct (Z.ltb_spec n 0); [rewrite Z.abs_neq by lia|rewrite Z.abs_eq by lia];
      by rewrite ?Z.opp_involutive.
Qed.

(** X11 on the amount [-1250]. *)
Lemma integer_amount_is_kept_witness :
  exists amt btype ref,
    balance_fields
      (JDict (<["balanceAmount" :=
                  JDict (<["amount" := JInt (-1250)]>
                         (<["currency" := JStr "EUR"]> ∅))]> ∅))
    = Ok (amt, JStr "EUR", btype, ref)
    /\ Decimal.to_str amt = "-1250"
    /\ exists q, Decimal.value amt = Some q /\ (q == inject_Z (-1250))%Q.
Proof.
  refine (integer_amount_is_kept _
            (<["amount" := JInt (-1250)]> (<["currency" := JStr "EUR"]> ∅))
            (JStr "EUR") (-1250) _ _ _); vm_compute; reflexivity.
Defined.

(** X12.  When the amount of the selected record is a JSON number with a
    fraction, which [json.loads] has made a float, line 133 makes the
    [Decimal] of that float: its value is exactly the binary number the
    float is, which is not the decimal numeral of the JSON text unless
    that numeral is a binary fraction. *)
Theorem float_amount_is_the_binary_value
  (d ba : gmap string json) (cur : json) (f : dyadic) :
  d !! "balanceAmount" = Some (JDict ba) ->
  ba !! "amount" = Some (JFloat (FFin f)) ->
  ba !! "currency" = Some cur ->
  exists amt btype ref,
    balance_fields (JDict d) = Ok (amt, cur, btype, ref)
    /\ exists q, Decimal.value amt = Some q /\ (q == dyadic_Q f)%Q.
Proof.
  intros Hd Hamount Hcur.
  destruct (balance_fields_amount d ba cur (JFloat (FFin f)) (Decimal.of_dyadic f))
    as (btype & ref & Hfields); try assumption; [reflexivity|].
  exists (Decimal.of_dyadic f), btype, ref. split; [assumption|].
  apply of_dyadic_value.
Qed.

(** X12 on the amount [0.1]: the float nearest to it is
    3602879701896397 / 2^55. *)
Lemma float_amount_is_the_binary_value_witness :
  exists amt btype ref,
    balance_fields
      (JDict (<["balanceAmount" :=
                  JDict (<["amount" :=
                             JFloat (FFin (Dyadic false 3602879701896397 (-55)))]>
                         (<["currency" := JStr "EUR"]> ∅))]> ∅))
    = Ok (amt, JStr "EUR", btype, ref)
    /\ exists q, Decimal.value amt = Some q
                 /\ (q == 3602879701896397 # 36028797018963968)%Q.
Proof.
  refine (float_amount_is_the_binary_value _
            (<["amount" := JFloat (FFin (Dyadic false 3602879701896397 (-55)))]>
             (<["currency" := JStr "EUR"]> ∅))
            (JStr "EUR") (Dyadic false 3602879701896397 (-55)) _ _ _);
    vm_compute; reflexivity.
Defined.

(** What the sheet gets for the amount [0.1] given as a number. *)
Example float_amount_written :
  Decimal.to_str (Decimal.of_dyadic (Dyadic false 3602879701896397 (-55)))
  = "0.1000000000000000055511151231257827021181583404541015625".
Proof. vm_compute. reflexivity. Qed.

(** ** The selection, continued *)

Section Malformed.

Lemma by_type_from_not_object good bad rest : forall acc,
  Forall (fun b => is_record b = true) good ->
  is_object bad = false ->
  by_type_from acc (good ++ bad :: rest) = Raise AttributeError.
Proof.
  induction good as [|b good IH]; intros acc Hgood Hbad.
  - by destruct bad.
  - apply Forall_cons in Hgood as [Hb Hgood]. cbn [app].
    rewrite (by_type_from_cons acc b _ Hb). by apply IH.
Qed.

End Malformed.

(** X13.  One entry of the balance list that is not an object, with
    records before it, makes [choose_balance] fail with [AttributeError]
    whatever the preference list and whatever the records are: the index
    of line 124 is built over the whole list before a record is
    chosen. *)
Theorem malformed_record_fails_the_selection
  (environ : gmap string string) (d : gmap string json)
  (good : list json) (bad : json) (rest : list json) :
  d !! "balances" = Some (JList (good ++ bad :: rest)) ->
  Forall (fun b => is_record b = true) good ->
  is_object bad = false ->
  choose_balance environ (JDict d) = Raise AttributeError.
Proof.
  intros Hd Hgood Hbad.
  pose proof (by_type_from_not_object good bad rest ∅ Hgood Hbad) as Hindex.
  unfold choose_balance, choose_record. cbn [Py.get_default]. rewrite Hd.
  cbn [default id mbind result_bind].
  destruct (good ++ bad :: rest) as [|b0 l0] eqn:E; [by destruct good|].
  cbn [Py.truthy negb iterate mbind result_bind]. unfold by_type_of.
  by rewrite Hindex.
Qed.

(** X13 on a list with a [closingBooked] record and a string after it. *)
Lemma malformed_record_fails_the_selection_witness :
  choose_balance ∅
    (JDict (balances_payload
              [balance_record "closingBooked" "42.00" "EUR"; JStr "n/a"]))
  = Raise AttributeError.
Proof.
  refine (malformed_record_fails_the_selection ∅ _
            [balance_record "closingBooked" "42.00" "EUR"] (JStr "n/a") [] _ _ _);
    [reflexivity|by repeat constructor|reflexivity].
Defined.

Section ReportedType.

(** The balance type that lines 133-137 report for a record. *)
Lemma balance_fields_btype chosen amt cur btype ref :
  balance_fields chosen = Ok (amt, cur, btype, ref) ->
  Py.get_default chosen "balanceType" (JStr "") = Ok btype.
Proof.
  unfold balance_fields.
  destruct (Py.getitem chosen "balanceAmount") as [ba|e]; [|discriminate].
  cbn [mbind result_bind].
  destruct (Py.getitem ba "amount") as [amount|e]; [|discriminate].
  cbn [mbind result_bind].
  destruct (Decimal.of_json amount) as [amt'|e]; [|discriminate].
  cbn [mbind result_bind].
  destruct (Py.getitem ba "currency") as [cur'|e]; [|discriminate].
  cbn [mbind result_bind].
  destruct (Py.get_default chosen "balanceType" (JStr "")) as [btype'|e];
    [|discriminate].
  cbn [mbind result_bind].
  destruct (Py.get chosen "referenceDate") as [rd|e]; [|discriminate].
  cbn [mbind result_bind].
  destruct (Py.truthy rd); cbn [mbind result_bind]; [by intros [= _ _ -> _]|].
  destruct (Py.get chosen "lastChangeDateTime") as [lc|e]; [|discriminate].
  cbn [mbind result_bind]. by intros [= _ _ -> _].
Qed.

End ReportedType.

(** X14.  The balance type that [choose_balance] reports is the type the
    record was chosen by: when some entry of the preference list is the
    type of a record, the third value returned, which [cmd_run] writes to
    the sheet, is the earliest such entry of the preference list. *)
Theorem reported_type_is_the_preferred_one
  (environ : gmap string string) (d : gmap string json) (l : list json)
  (t : string) :
  d !! "balances" = Some (JList l) ->
  Forall (fun b => is_record b = true) l ->
  earliest_present (preferred_types environ) l = Some t ->
  forall amt cur btype ref,
    choose_balance environ (JDict d) = Ok (amt, cur, btype, ref) ->
    btype = JStr t.
Proof.
  intros Hd Hl Ht amt cur btype ref Hchoose.
  destruct (choose_record_selected environ d l Hd (present_not_nil _ _ _ Ht) Hl)
    as (b & Hsel & Hrecord).
  unfold selected in Hsel. rewrite Ht in Hsel.
  apply last_of_type_Some in Hsel as [_ Htype].
  apply record_type_get in Htype as [Hget _].
  unfold choose_balance in Hchoose. rewrite Hrecord in Hchoose.
  cbn [mbind result_bind] in Hchoose.
  apply balance_fields_btype in Hchoose.
  destruct b as [| | | | | |db]; try discriminate.
  unfold Py.get, Py.get_default in *.
  destruct (db !! "balanceType") as [v|]; cbn [default id] in *; congruence.
Qed.

(** X14 with the default order, on an [interimAvailable] record followed
    by a [closingBooked] one. *)
Lemma reported_type_is_the_preferred_one_witness :
  let payload :=
    JDict (balances_payload
             [balance_record "interimAvailable" "1.00" "EUR";
              balance_record "closingBooked" "2.00" "EUR"]) in
  choose_balance ∅ payload
  = Ok (Decimal.Finite false "200" (-2), JStr "EUR", JStr "closingBooked", JStr "")
  /\ forall amt cur btype ref,
       choose_balance ∅ payload = Ok (amt, cur, btype, ref) ->
       btype = JStr "closingBooked".
Proof.
  cbv zeta. split; [vm_compute; reflexivity|].
  refine (reported_type_is_the_preferred_one ∅ _
            [balance_record "interimAvailable" "1.00" "EUR";
             balance_record "closingBooked" "2.00" "EUR"]
            "closingBooked" _ _ _);
    [reflexivity|by repeat constructor|vm_compute; reflexivity].
Defined.

Section BlankPreference.

Lemma split_blank v p :
  blank_setting v = true -> p ∈ PyStr.split "," v ->
  all_chars PyStr.is_space p = true.
Proof.
  unfold blank_setting. revert p. induction v as [|c r IH]; simpl; intros p Hv Hp.
  - apply list_elem_of_singleton in Hp. by subst.
  - apply andb_true_iff in Hv as [Hc Hr].
    destruct (Ascii.eqb c ",") eqn:Hcomma.
    + apply elem_of_cons in Hp as [->|Hp]; [reflexivity|]. by apply IH.
    + simpl in Hc.
      destruct (PyStr.split "," r) as [|x xs] eqn:E.
      * apply list_elem_of_singleton in Hp. subst. simpl. by rewrite Hc.
      * apply elem_of_cons in Hp as [->|Hp].
        -- simpl. rewrite Hc. apply IH; [assumption|left].
        -- apply IH; [assumption|by right].
Qed.

Lemma strip_spaces p :
  all_chars PyStr.is_space p = true -> PyStr.strip p = EmptyString.
Proof.
  unfold PyStr.strip. intros H.
  assert (PyStr.lstrip p = EmptyString) as ->; [|reflexivity].
  induction p as [|c r IH]; [reflexivity|]. simpl in *.
  apply andb_true_iff in H as [Hc Hr]. rewrite Hc. by apply IH.
Qed.

Lemma preferred_types_blank environ v :
  environ !! "BALANCE_TYPE_PREFERENCE" = Some v -> v <> EmptyString ->
  blank_setting v = true -> preferred_types environ = [].
Proof.
  intros Hv Hne Hblank. unfold preferred_types, preference_setting. rewrite Hv.
  apply non_empty_true in Hne. rewrite Hne.
  pose proof (split_blank v) as Hsplit.
  induction (PyStr.split "," v) as [|p l IH]; [reflexivity|].
  simpl. rewrite (strip_spaces p) by (apply Hsplit; [assumption|left]).
  simpl. apply IH. intros q Hb Hq. apply Hsplit; [assumption|by right].
Qed.

End BlankPreference.

(** X15.  A [BALANCE_TYPE_PREFERENCE] that is set to commas and white
    space only (a single space, say) is not replaced by the default
    order: it counts as true for the [or] of line 120, and it leaves the
    preference list empty.  The selector then returns the first record of
    the payload, whatever the types of the records. *)
Theorem blank_preference_selects_the_first_record
  (environ : gmap string string) (v : string) (d : gmap string json)
  (b : json) (rest : list json) :
  environ !! "BALANCE_TYPE_PREFERENCE" = Some v -> v <> EmptyString ->
  blank_setting v = true ->
  d !! "balances" = Some (JList (b :: rest)) ->
  Forall (fun b => is_record b = true) (b :: rest) ->
  preferred_types environ = [] /\ choose_record environ (JDict d) = Ok b.
Proof.
  intros Hv Hne Hblank Hd Hl.
  pose proof (preferred_types_blank environ v Hv Hne Hblank) as Hpref.
  split; [assumption|].
  destruct (choose_record_selected environ d (b :: rest) Hd ltac:(discriminate) Hl)
    as (b' & Hsel & ->).
  rewrite Hpref in Hsel. by injection Hsel as ->.
Qed.

(** X15 on the setting [" , "]: the [interimAvailable] record that comes
    first is chosen, not the [closingBooked] one. *)
Lemma blank_preference_selects_the_first_record_witness :
  let environ : gmap string string := <["BALANCE_TYPE_PREFERENCE" := " , "]> ∅ in
  let l := [balance_record "interimAvailable" "1.00" "EUR";
            balance_record "closingBooked" "2.00" "EUR"] in
  preferred_types environ = []
  /\ choose_record environ (JDict (balances_payload l))
     = Ok (balance_record "interimAvailable" "1.00" "EUR").
Proof.
  cbv zeta.
  refine (blank_preference_selects_the_first_record _ " , " _ _ _ _ _ _ _ _);
    [reflexivity|discriminate|reflexivity|reflexivity|].
  repeat constructor.
Defined.

(** ** The secrets directory, continued *)

Section Suffix.

Lemma rfind_dot_no_dot s : contains_char "." s = false -> rfind_dot s = None.
Proof.
  induction s as [|c r IH]; simpl; [reflexivity|].
  intros [Hc Hr]%orb_false_iff. by rewrite IH, Hc.
Qed.

Lemma rfind_dot_append s1 s2 i :
  rfind_dot s2 = Some i -> rfind_dot (s1 +:+ s2) = Some (String.length s1 + i)%nat.
Proof.
  intros H. induction s1 as [|c r IH]; [assumption|].
  rewrite append_cons. simpl. by rewrite IH.
Qed.

Lemma lower_append s1 s2 :
  PyStr.lower (s1 +:+ s2) = PyStr.lower s1 +:+ PyStr.lower s2.
Proof.
  induction s1 as [|c r IH]; [reflexivity|].
  rewrite append_cons. simpl. by rewrite IH.
Qed.

Lemma lower_json_no_dot ext :
  PyStr.lower ext = "json" ->
  contains_char "." ext = false /\ String.length ext = 4%nat.
Proof.
  assert (Hdot : forall c x, PyStr.lower_char c = x -> x <> "."%char ->
                             Ascii.eqb c "." = false).
  { intros c x Hc Hx. apply Ascii.eqb_neq. intros ->. by apply Hx. }
  destruct ext as [|c1 [|c2 [|c3 [|c4 [|c5 r]]]]]; try discriminate.
  simpl. intros [= H1 H2 H3 H4].
  rewrite (Hdot _ _ H1), (Hdot _ _ H2), (Hdot _ _ H3), (Hdot _ _ H4)
    by discriminate.
  by split.
Qed.

(** The suffix of [stem.ext]. *)
Lemma suffix_stem_ext stem ext :
  stem <> EmptyString -> ext <> EmptyString -> contains_char "." ext = false ->
  suffix (stem +:+ "." +:+ ext) = "." +:+ ext.
Proof.
  intros Hstem Hext Hdot. unfold suffix.
  assert (Hr : rfind_dot ("." +:+ ext) = Some 0%nat).
  { change ("." +:+ ext) with (String "."%char ext). cbn [rfind_dot].
    by rewrite (rfind_dot_no_dot _ Hdot). }
  rewrite (rfind_dot_append stem ("." +:+ ext) 0 Hr).
  rewrite Nat.add_0_r, length_append.
  change (String.length ("." +:+ ext)) with (S (String.length ext)).
  assert (0 < String.length stem)%nat by (destruct stem; simpl; [done|lia]).
  assert (0 < String.length ext)%nat by (destruct ext; simpl; [done|lia]).
  replace (0 <? String.length stem)%nat with true
    by (symmetry; apply Nat.ltb_lt; lia).
  replace (String.length stem <? String.length stem + S (String.length ext) - 1)%nat
    with true by (symmetry; apply Nat.ltb_lt; lia).
  apply drop_append.
Qed.

Lemma suffix_no_stem ext :
  contains_char "." ext = false -> suffix ("." +:+ ext) = EmptyString.
Proof.
  intros Hdot. unfold suffix.
  change ("." +:+ ext) with (String "."%char ext). cbn [rfind_dot].
  by rewrite (rfind_dot_no_dot _ Hdot).
Qed.

Lemma suffix_no_dot name :
  contains_char "." name = false -> suffix name = EmptyString.
Proof. intros Hdot. unfold suffix. by rewrite (rfind_dot_no_dot _ Hdot). Qed.

End Suffix.

(** X16.  Which files line 25 counts.  A file of the directory named
    [stem.ext], with a stem that has a character other than a dot and an
    extension that is [json] in any case of its letters, is among the
    names [find_single_json] counts.  The name [.ext], a hidden file
    without a stem, is not among them, and neither is the name [ext]
    without a dot, whatever the directory holds. *)
Theorem json_files_by_their_suffix
  (f : gmap path node) (d : path) (stem ext : string) (c : text) :
  all_chars (fun x => Ascii.eqb x ".") stem = false ->
  PyStr.lower ext = "json" ->
  f !! (d ++ [stem +:+ "." +:+ ext]) = Some (File c) ->
  stem +:+ "." +:+ ext ∈ json_names f d
  /\ ("." +:+ ext ∉ json_names f d)
  /\ (ext ∉ json_names f d).
Proof.
  intros Hstem Hext Hfile.
  assert (Hs : stem <> EmptyString) by (intros ->; discriminate).
  destruct (lower_json_no_dot ext Hext) as [Hdot Hlen].
  assert (Hne : ext <> EmptyString) by (by destruct ext).
  rewrite !elem_of_json_names.
  split; [|split].
  - exists c. split; [assumption|].
    rewrite suffix_stem_ext by assumption.
    rewrite lower_append, Hext. reflexivity.
  - intros (c' & _ & Hsuf). by rewrite suffix_no_stem in Hsuf.
  - intros (c' & _ & Hsuf). by rewrite suffix_no_dot in Hsuf.
Qed.

(** X16 on the name [Creds.JSON]. *)
Lemma json_files_by_their_suffix_witness :
  let f : gmap path node := <[["secrets"; "Creds.JSON"] := File demo_secrets]> ∅ in
  "Creds.JSON" ∈ json_names f ["secrets"]
  /\ (".JSON" ∉ json_names f ["secrets"])
  /\ ("JSON" ∉ json_names f ["secrets"]).
Proof.
  cbv zeta.
  refine (json_files_by_their_suffix _ ["secrets"] "Creds" "JSON" demo_secrets _ _ _);
    [reflexivity|reflexivity|reflexivity].
Defined.

(** ** The run, step by step *)

Section RunSteps.

Variable cfg : Config.

Lemma required_env_is_set name w :
  required_env name w
  = (if is_set (environ w) name
     then match environ w !! name with
          | Some v => Ok v
          | None => Raise (RuntimeError (MissingEnv name))
          end
     else Raise (RuntimeError (MissingEnv name)), w).
Proof.
  unfold required_env, is_set. destruct (environ w !! name) as [v|]; [|reflexivity].
  by destruct (PyStr.non_empty v).
Qed.

Lemma required_env_ok name w v :
  environ w !! name = Some v -> v <> EmptyString ->
  required_env name w = (Ok v, w).
Proof.
  intros Hv Hne. unfold required_env. rewrite Hv. by destruct v.
Qed.

Lemma sheets_write_run values sid range w :
  sheets_write cfg values sid range w
  = match (find_single_json (GSHEETS_SECRETS_DIR cfg) w).1 with
    | Ok sa_file =>
        match stat (fs w) sa_file with
        | Ok (File key) =>
            match sheets w key (SheetUpdate sid range values) with
            | BadCredentials => (Raise CredentialsError, w)
            | UpdateRejected => (Raise SheetsHttpError, w)
            | Updated => (Ok tt, updated (SheetUpdate sid range values) w)
            end
        | Ok Dir => (Raise IsADirectoryError, w)
        | Raise e => (Raise e, w)
        end
    | Raise e => (Raise e, w)
    end.
Proof.
  unfold sheets_write. rewrite run_bind.
  rewrite (reader_run _ w (reader_find_single_json (GSHEETS_SECRETS_DIR cfg))).
  destruct (find_single_json (GSHEETS_SECRETS_DIR cfg) w).1 as [sa_file|e];
    [|reflexivity].
  cbn [fst]. rewrite run_bind. unfold read_text.
  by destruct (stat (fs w) sa_file) as [[|key]|e].
Qed.

End RunSteps.

(** X17.  [cmd_run] checks its three variables before anything else.
    When one of [GC_ACCOUNT_ID], [GSHEET_ID] and [GSHEET_RANGE] is unset
    or empty, the run raises "Missing env" for the first such variable in
    this order, and the world is untouched: no directory made, no request
    sent, no clock read. *)
Theorem run_checks_the_environment_first
  (cfg : Config) (w : World) (name : string) :
  List.find (fun n => negb (is_set (environ w) n)) required_variables = Some name ->
  cmd_run cfg w = (Raise (RuntimeError (MissingEnv name)), w).
Proof.
  unfold cmd_run, required_variables. cbn [List.find].
  rewrite run_bind, required_env_is_set.
  destruct (is_set (environ w) "GC_ACCOUNT_ID") eqn:H1; cbn [negb];
    [|by intros [= <-]].
  unfold is_set in H1. destruct (environ w !! "GC_ACCOUNT_ID") as [v1|];
    [|discriminate].
  rewrite run_bind, required_env_is_set.
  destruct (is_set (environ w) "GSHEET_ID") eqn:H2; cbn [negb];
    [|by intros [= <-]].
  unfold is_set in H2. destruct (environ w !! "GSHEET_ID") as [v2|];
    [|discriminate].
  rewrite run_bind, required_env_is_set.
  destruct (is_set (environ w) "GSHEET_RANGE") eqn:H3; cbn [negb];
    [discriminate|by intros [= <-]].
Qed.

(** X17 in a world where [GSHEET_ID] is empty and [GSHEET_RANGE] is
    unset. *)
Lemma run_checks_the_environment_first_witness :
  let w := with_environ (<["GC_ACCOUNT_ID" := "acc-1"]> (<["GSHEET_ID" := ""]> ∅))
             (demo_world None 200) in
  cmd_run demo_cfg w = (Raise (RuntimeError (MissingEnv "GSHEET_ID")), w).
Proof.
  cbv zeta. apply run_checks_the_environment_first. vm_compute. reflexivity.
Defined.

(** X18.  A run that goes through.  When the three variables are set,
    [gc_get] returns the balances, [choose_balance] chooses from them,
    the directory of the service account holds its one [.json] file and
    the spreadsheet service takes the update, [cmd_run] returns.  It has
    then written one row to the configured range of the configured
    spreadsheet: the amount as [str] gives it, the currency, the balance
    type, the reference date and the time as whole seconds, the time
    being read after the balances have come in; it has printed its
    report; and it has sent no request and changed no file after
    [gc_get]. *)
Theorem run_writes_the_row
  (cfg : Config) (w w1 : World) (account_id spreadsheet_id a1_range : string)
  (out : json) (amt : Decimal.t) (cur btype ref : json)
  (sa_file : path) (key : text) :
  environ w !! "GC_ACCOUNT_ID" = Some account_id -> account_id <> EmptyString ->
  environ w !! "GSHEET_ID" = Some spreadsheet_id -> spreadsheet_id <> EmptyString ->
  environ w !! "GSHEET_RANGE" = Some a1_range -> a1_range <> EmptyString ->
  gc_get cfg ("/accounts/" +:+ account_id +:+ "/balances/") w = (Ok out, w1) ->
  choose_balance (environ w) out = Ok (amt, cur, btype, ref) ->
  (find_single_json (GSHEETS_SECRETS_DIR cfg) w1).1 = Ok sa_file ->
  stat (fs w1) sa_file = Ok (File key) ->
  sheets w key
    (SheetUpdate spreadsheet_id a1_range
       [sheet_row amt cur btype ref (clock w (ticks w1))]) = Updated ->
  exists w',
    cmd_run cfg w = (Ok tt, w')
    /\ sheet_writes w'
       = sheet_writes w
         ++ [SheetUpdate spreadsheet_id a1_range
               [sheet_row amt cur btype ref (clock w (ticks w1))]]
    /\ stdout w' = stdout w ++ [Wrote amt cur btype a1_range]
    /\ requests w' = requests w1 /\ fs w' = fs w1
    /\ ticks w' = S (ticks w1).
Proof.
  intros Hacc Hacc' Hsid Hsid' Hrange Hrange' Hget Hchoose Hfind Hstat Hsheets.
  pose proof (steady_gc_get cfg ("/accounts/" +:+ account_id +:+ "/balances/") w)
    as (Henv & Hclock & _ & Hsh & _).
  pose proof (quiet_gc_get cfg ("/accounts/" +:+ account_id +:+ "/balances/") w)
    as (Hsw & Hout & _).
  rewrite Hget in Henv, Hclock, Hsh, Hsw, Hout. simpl in Henv, Hclock, Hsh, Hsw, Hout.
  set (update := SheetUpdate spreadsheet_id a1_range
                   [sheet_row amt cur btype ref (clock w (ticks w1))]) in *.
  exists (set_stdout (stdout w1 ++ [Wrote amt cur btype a1_range])
            (updated update (ticked w1))).
  split; [|simpl; by rewrite Hsw, Hout].
  unfold cmd_run.
  rewrite (run_bind_ok _ _ w account_id w) by (by apply required_env_ok).
  rewrite (run_bind_ok _ _ w spreadsheet_id w) by (by apply required_env_ok).
  rewrite (run_bind_ok _ _ w a1_range w) by (by apply required_env_ok).
  rewrite (run_bind_ok _ _ w out w1) by exact Hget.
  rewrite (run_bind_ok _ _ w1 (environ w) w1) by (unfold gets; by rewrite Henv).
  rewrite (run_bind_ok _ _ w1 (amt, cur, btype, ref) w1)
    by (unfold lift; by rewrite Hchoose).
  cbv beta iota.
  rewrite (run_bind_ok _ _ w1 (clock w1 (ticks w1)) (ticked w1)) by reflexivity.
  rewrite Hclock.
  rewrite (run_bind_ok _ _ (ticked w1) tt (updated update (ticked w1))).
  - reflexivity.
  - rewrite sheets_write_run.
    rewrite (reader_find_single_json _ w1 (ticked w1) eq_refl). cbn [fst].
    rewrite Hfind. change (fs (ticked w1)) with (fs w1). rewrite Hstat.
    change (sheets (ticked w1)) with (sheets w1). rewrite Hsh.
    subst update. unfold sheet_row in *. by rewrite Hsheets.
Qed.

(** X18 in the demo world, the end-to-end scenario of the specification. *)
Lemma run_writes_the_row_witness :
  exists w',
    cmd_run demo_cfg (demo_world None 200) = (Ok tt, w')
    /\ sheet_writes w'
       = [SheetUpdate "sheet-1" "A1:E1"
            [[JStr "42.00"; JStr "EUR"; JStr "closingBooked"; JStr "";
              JStr "1700000000"]]]
    /\ stdout w'
       = [Wrote (Decimal.Finite false "4200" (-2)) (JStr "EUR")
            (JStr "closingBooked") "A1:E1"]
    /\ requests w'
       = requests (gc_get demo_cfg "/accounts/acc-1/balances/" (demo_world None 200)).2
    /\ fs w' = fs (gc_get demo_cfg "/accounts/acc-1/balances/" (demo_world None 200)).2
    /\ ticks w' = 2%nat.
Proof.
  refine (run_writes_the_row demo_cfg (demo_world None 200)
            (gc_get demo_cfg "/accounts/acc-1/balances/" (demo_world None 200)).2
            "acc-1" "sheet-1" "A1:E1"
            (JDict (balances_payload [balance_record "closingBooked" "42.00" "EUR"]))
            (Decimal.Finite false "4200" (-2)) (JStr "EUR") (JStr "closingBooked")
            (JStr "") ["secrets"; "gsheets"; "sa.json"] demo_service_account
            _ _ _ _ _ _ _ _ _ _ _);
    try discriminate; vm_compute; reflexivity.
Defined.

(** ** The commands that print *)

Section Console.

Context {A B : Type}.

Lemma runc_bind (m : MC A) (k : A -> MC B) c :
  (m ≫= k) c
  = match m c with
    | (Ok a, c') => k a c'
    | (Raise e, c') => (Raise e, c')
    end.
Proof. reflexivity. Qed.

Lemma runc_returns_bind (r : result A) (k : A -> MC B) c :
  (returns r ≫= k) c = match r with Ok a => k a c | Raise e => (Raise e, c) end.
Proof. by destruct r. Qed.

Lemma runc_in_world_bind (m : M A) (k : A -> MC B) c :
  (in_world m ≫= k) c
  = match m (world c) with
    | (Ok a, w') => k a {| world := w'; lines := lines c |}
    | (Raise e, w') => (Raise e, {| world := w'; lines := lines c |})
    end.
Proof.
  rewrite runc_bind. unfold in_world. by destruct (m (world c)) as [[a|e] w'].
Qed.

End Console.

(** The test [q in s] of line 163 is the test for a substring. *)
Section Substring.

Lemma str_startswith_spec p s :
  str_startswith p s = true <-> exists b, s = p +:+ b.
Proof.
  revert s. induction p as [|a p IH]; intros s; simpl.
  - split; [by exists s|done].
  - destruct s as [|c s]; [split; [done|by intros [b [=]]]|].
    rewrite andb_true_iff, IH. split.
    + intros [->%Ascii.eqb_eq [b ->]]. by exists b.
    + intros [b [= -> ->]]. split; [apply Ascii.eqb_refl|by exists b].
Qed.

(** [q in s] holds exactly when [s] is [q] with something before and
    after it. *)
Lemma str_contains_spec q s :
  str_contains q s = true <-> exists a b, s = a +:+ q +:+ b.
Proof.
  induction s as [|c s IH]; simpl.
  - rewrite orb_false_r, str_startswith_spec. split.
    + intros [b ->]. by exists EmptyString, b.
    + intros ([|x a] & b & H); [by exists b|discriminate].
  - rewrite orb_true_iff, str_startswith_spec, IH. split.
    + intros [[b ->]|(a & b & ->)]; [by exists EmptyString, b|].
      by exists (String c a), b.
    + intros ([|x a] & b & H); [left; by exists b|].
      right. injection H as -> ->. by exists a, b.
Qed.

Lemma str_contains_empty s : str_contains EmptyString s = true.
Proof. by destruct s. Qed.

End Substring.

Section Institutions.

Lemma list_institution_blank inst c :
  is_object inst = true ->
  list_institution EmptyString inst c
  = (Ok tt, {| world := world c; lines := lines c ++ [listed inst] |}).
Proof. destruct inst; try discriminate. reflexivity. Qed.

Lemma list_institution_searchable q inst c :
  searchable inst = true ->
  list_institution q inst c
  = (Ok tt, {| world := world c;
               lines := lines c ++ (if found q inst then [listed inst] else []) |}).
Proof.
  unfold searchable, found, listed, list_institution.
  destruct inst as [| | | | | |d]; try discriminate. cbn [is_object andb field].
  unfold Py.get_default. rewrite !runc_returns_bind.
  destruct (default (JStr "") (d !! "name")) as [| | | |name| |]; try discriminate.
  destruct (default (JStr "") (d !! "id")) as [| | | |iid| |]; try discriminate.
  intros _. unfold search_matches. cbn [lowered lower_of mbind result_bind].
  destruct q as [|x q']; [by rewrite str_contains_empty|].
  cbn [PyStr.non_empty negb].
  set (q := String x q').
  destruct (str_contains q (PyStr.lower name)); cbn [orb]; [reflexivity|].
  destruct (str_contains q (PyStr.lower iid)); [reflexivity|].
  destruct c. unfold mret, MC_ret. by rewrite app_nil_r.
Qed.

Lemma list_institution_not_object q inst c :
  is_object inst = false -> list_institution q inst c = (Raise AttributeError, c).
Proof. by destruct inst. Qed.

Lemma for_each_blank data : forall c,
  Forall (fun inst => is_object inst = true) data ->
  for_each (list_institution EmptyString) data c
  = (Ok tt, {| world := world c; lines := lines c ++ map listed data |}).
Proof.
  induction data as [|inst data IH]; intros c Hdata.
  - destruct c. simpl. by rewrite app_nil_r.
  - apply Forall_cons in Hdata as [Hinst Hdata]. cbn [for_each].
    rewrite runc_bind, (list_institution_blank inst c Hinst).
    rewrite (IH _ Hdata). simpl. by rewrite <- app_assoc.
Qed.

Lemma for_each_searchable q data : forall c,
  Forall (fun inst => searchable inst = true) data ->
  for_each (list_institution q) data c
  = (Ok tt, {| world := world c;
               lines := lines c ++ map listed (List.filter (found q) data) |}).
Proof.
  induction data as [|inst data IH]; intros c Hdata.
  - destruct c. simpl. by rewrite app_nil_r.
  - apply Forall_cons in Hdata as [Hinst Hdata]. cbn [for_each].
    rewrite runc_bind, (list_institution_searchable q inst c Hinst).
    rewrite (IH _ Hdata). cbn [world lines List.filter].
    destruct (found q inst); simpl; by rewrite <- app_assoc.
Qed.

Lemma for_each_stops q good bad rest : forall c,
  Forall (fun inst => searchable inst = true) good ->
  is_object bad = false ->
  for_each (list_institution q) (good ++ bad :: rest) c
  = (Raise AttributeError,
     {| world := world c;
        lines := lines c ++ map listed (List.filter (found q) good) |}).
Proof.
  induction good as [|inst good IH]; intros c Hgood Hbad.
  - cbn [app for_each]. rewrite runc_bind, (list_institution_not_object q bad c Hbad).
    destruct c. simpl. by rewrite app_nil_r.
  - apply Forall_cons in Hgood as [Hinst Hgood]. cbn [app for_each].
    rewrite runc_bind, (list_institution_searchable q inst c Hinst).
    rewrite (IH _ Hgood Hbad). cbn [world lines List.filter].
    destruct (found q inst); simpl; by rewrite <- app_assoc.
Qed.

End Institutions.

(** X19.  Without a search, every institution is listed.  When
    [--search] is absent, empty or white space only, and the server's
    list holds objects, [cmd_institutions] prints one line for each of
    them, in the order of the list, with its [id] and its [name] (the
    empty string for one that is missing), whatever kind of value these
    are. *)
Theorem institutions_without_search
  (cfg : Config) (country : string) (search : option string) (c : Console)
  (data : list json) (w' : World) :
  search_key search = EmptyString ->
  gc_get cfg ("/institutions/?country=" +:+ PyStr.lower country) (world c)
  = (Ok (JList data), w') ->
  Forall (fun inst => is_object inst = true) data ->
  cmd_institutions cfg country search c
  = (Ok tt, {| world := w'; lines := lines c ++ map listed data |}).
Proof.
  intros Hkey Hget Hdata. unfold cmd_institutions.
  rewrite runc_in_world_bind, Hget. cbv zeta. rewrite Hkey.
  rewrite runc_returns_bind. cbn [iterate].
  by rewrite (for_each_blank data _ Hdata).
Qed.

(** X19 with a search of two spaces, for the country [PT]: the request is
    made for [pt], and both institutions are listed, the second one with
    its number for an id and no name. *)
Lemma institutions_without_search_witness :
  let data := [institution "ALFA_PT" "Banco Alfa"; JDict (<["id" := JInt 7]> ∅)] in
  exists w',
    cmd_institutions demo_cfg "PT" (Some "  ") (data_console (JList data))
    = (Ok tt,
       {| world := w';
          lines := [InstitutionLine (JStr "ALFA_PT") (JStr "Banco Alfa");
                    InstitutionLine (JInt 7) (JStr "")] |})
    /\ last (requests w')
       = Some (get_request "/institutions/?country=pt" (JStr "a1")).
Proof.
  cbv zeta.
  exists (gc_get demo_cfg "/institutions/?country=pt"
            (world (data_console
                      (JList [institution "ALFA_PT" "Banco Alfa";
                              JDict (<["id" := JInt 7]> ∅)])))).2.
  split; [|vm_compute; reflexivity].
  refine (institutions_without_search demo_cfg "PT" (Some "  ") _
            [institution "ALFA_PT" "Banco Alfa"; JDict (<["id" := JInt 7]> ∅)]
            _ _ _ _).
  - reflexivity.
  - vm_compute. reflexivity.
  - by repeat constructor.
Defined.

(** X20.  With a search, the institutions that match are listed.  When
    the names and ids of the server's list are strings,
    [cmd_institutions] prints, in the order of the list, the lines of the
    institutions in whose name or id the search key occurs, the key being
    the search text in lower case without the white space around it, and
    the name and the id being taken in lower case: the search does not
    tell upper case from lower case. *)
Theorem institutions_matching_the_search
  (cfg : Config) (country : string) (search : option string) (c : Console)
  (data : list json) (w' : World) :
  gc_get cfg ("/institutions/?country=" +:+ PyStr.lower country) (world c)
  = (Ok (JList data), w') ->
  Forall (fun inst => searchable inst = true) data ->
  cmd_institutions cfg country search c
  = (Ok tt,
     {| world := w';
        lines := lines c
                 ++ map listed (List.filter (found (search_key search)) data) |}).
Proof.
  intros Hget Hdata. unfold cmd_institutions.
  rewrite runc_in_world_bind, Hget. cbv zeta.
  rewrite runc_returns_bind. cbn [iterate].
  by rewrite (for_each_searchable _ data _ Hdata).
Qed.

(** X20 with the search [" Alfa"]: the institution with "Alfa" in its
    name and the one with "ALFA" in its id are listed. *)
Lemma institutions_matching_the_search_witness :
  let data := [institution "ALFA_PT" "Banco Alfa"; institution "BETA_PT" "Beta Bank";
               institution "GAMMA_ALFA" "Gamma"] in
  exists w',
    cmd_institutions demo_cfg "pt" (Some " Alfa") (data_console (JList data))
    = (Ok tt,
       {| world := w';
          lines := [InstitutionLine (JStr "ALFA_PT") (JStr "Banco Alfa");
                    InstitutionLine (JStr "GAMMA_ALFA") (JStr "Gamma")] |}).
Proof.
  cbv zeta.
  exists (gc_get demo_cfg "/institutions/?country=pt"
            (world (data_console
                      (JList [institution "ALFA_PT" "Banco Alfa";
                              institution "BETA_PT" "Beta Bank";
                              institution "GAMMA_ALFA" "Gamma"])))).2.
  refine (institutions_matching_the_search demo_cfg "pt" (Some " Alfa") _
            [institution "ALFA_PT" "Banco Alfa"; institution "BETA_PT" "Beta Bank";
             institution "GAMMA_ALFA" "Gamma"] _ _ _).
  - vm_compute. reflexivity.
  - by repeat constructor.
Defined.

(** X21.  An entry of the server's list that is not an object stops
    [cmd_institutions] with [AttributeError]; the lines of the
    institutions before it have been printed by then and stay printed,
    those after it are not printed. *)
Theorem institutions_stop_at_a_bad_entry
  (cfg : Config) (country : string) (search : option string) (c : Console)
  (good : list json) (bad : json) (rest : list json) (w' : World) :
  gc_get cfg ("/institutions/?country=" +:+ PyStr.lower country) (world c)
  = (Ok (JList (good ++ bad :: rest)), w') ->
  Forall (fun inst => searchable inst = true) good ->
  is_object bad = false ->
  cmd_institutions cfg country search c
  = (Raise AttributeError,
     {| world := w';
        lines := lines c
                 ++ map listed (List.filter (found (search_key search)) good) |}).
Proof.
  intros Hget Hgood Hbad. unfold cmd_institutions.
  rewrite runc_in_world_bind, Hget. cbv zeta.
  rewrite runc_returns_bind. cbn [iterate].
  by rewrite (for_each_stops _ good bad rest _ Hgood Hbad).
Qed.

(** X21 on a list with a null between two institutions. *)
Lemma institutions_stop_at_a_bad_entry_witness :
  let data := [institution "ALFA_PT" "Banco Alfa"; JNull;
               institution "BETA_PT" "Beta Bank"] in
  exists w',
    cmd_institutions demo_cfg "pt" None (data_console (JList data))
    = (Raise AttributeError,
       {| world := w';
          lines := [InstitutionLine (JStr "ALFA_PT") (JStr "Banco Alfa")] |}).
Proof.
  cbv zeta.
  exists (gc_get demo_cfg "/institutions/?country=pt"
            (world (data_console
                      (JList [institution "ALFA_PT" "Banco Alfa"; JNull;
                              institution "BETA_PT" "Beta Bank"])))).2.
  refine (institutions_stop_at_a_bad_entry demo_cfg "pt" None _
            [institution "ALFA_PT" "Banco Alfa"] JNull
            [institution "BETA_PT" "Beta Bank"] _ _ _ _).
  - vm_compute. reflexivity.
  - by repeat constructor.
  - reflexivity.
Defined.

Lemma cmd_balance_run (cfg : Config) account_id c :
  cmd_balance cfg account_id c
  = match gc_get cfg ("/accounts/" +:+ account_id +:+ "/balances/") (world c) with
    | (Ok out, w') =>
        match choose_balance (environ w') out with
        | Ok (amt, cur, btype, ref) =>
            (Ok tt, {| world := w';
                       lines := lines c ++ [BalanceLine amt cur btype ref] |})
        | Raise e => (Raise e, {| world := w'; lines := lines c |})
        end
    | (Raise e, w') => (Raise e, {| world := w'; lines := lines c |})
    end.
Proof.
  unfold cmd_balance. rewrite runc_in_world_bind.
  destruct (gc_get cfg _ (world c)) as [[out|e] w']; [|reflexivity].
  rewrite runc_in_world_bind. unfold gets. cbn [world lines].
  rewrite runc_returns_bind.
  by destruct (choose_balance (environ w') out) as [[[[amt cur] btype] ref]|e].
Qed.

(** X22.  [cmd_balance] prints one line or none, and it never writes to
    the spreadsheet.  When it returns, [gc_get] has returned the server's
    reply for the balances of the account, and the one line printed is
    that of the balance [choose_balance] chooses from this reply; when it
    fails, it has printed nothing. *)
Theorem balance_prints_one_line_or_nothing
  (cfg : Config) (account_id : string) (c : Console) :
  sheet_writes (world (cmd_balance cfg account_id c).2) = sheet_writes (world c)
  /\ match (cmd_balance cfg account_id c).1 with
     | Ok _ =>
         exists out w1 amt cur btype ref,
           gc_get cfg ("/accounts/" +:+ account_id +:+ "/balances/") (world c)
           = (Ok out, w1)
           /\ choose_balance (environ (world c)) out = Ok (amt, cur, btype, ref)
           /\ (cmd_balance cfg account_id c).2
              = {| world := w1;
                   lines := lines c ++ [BalanceLine amt cur btype ref] |}
     | Raise _ => lines (cmd_balance cfg account_id c).2 = lines c
     end.
Proof.
  rewrite cmd_balance_run.
  pose proof (quiet_gc_get cfg ("/accounts/" +:+ account_id +:+ "/balances/")
                (world c)) as (Hsw & _ & Henv & _).
  destruct (gc_get cfg ("/accounts/" +:+ account_id +:+ "/balances/") (world c))
    as [[out|e] w']; simpl in Hsw, Henv; [|split; [exact Hsw|reflexivity]].
  rewrite Henv.
  destruct (choose_balance (environ (world c)) out)
    as [[[[amt cur] btype] ref]|e] eqn:Hchoose;
    [|split; [exact Hsw|reflexivity]].
  split; [exact Hsw|]. by exists out, w', amt, cur, btype, ref.
Qed.

(** X23.  What the two requisition commands print is the server's reply
    to their own request.  When [cmd_create_requisition] returns, the
    last request sent is the POST to [/requisitions/] with the bearer
    token and with the four entries [redirect], [institution_id],
    [reference] and [user_language] as its body, and the one line printed
    is the reply to it; when [cmd_requisition] returns, the last request
    sent is the GET of [/requisitions/<id>/], and the one line printed is
    the reply to it. *)
Theorem requisition_commands_print_the_reply (cfg : Config) (c c' : Console) :
  (forall redirect institution_id reference user_language,
     cmd_create_requisition cfg redirect institution_id reference user_language c
     = (Ok tt, c') ->
     exists access out w2,
       requests (world c')
       = requests w2
         ++ [post_request "/requisitions/" access
               (requisition_payload redirect institution_id reference
                  user_language)]
       /\ answered w2
            (post_request "/requisitions/" access
               (requisition_payload redirect institution_id reference
                  user_language)) out
       /\ lines c' = lines c ++ [JsonLine out])
  /\ (forall requisition_id,
        cmd_requisition cfg requisition_id c = (Ok tt, c') ->
        exists access out w2,
          requests (world c')
          = requests w2
            ++ [get_request ("/requisitions/" +:+ requisition_id +:+ "/") access]
          /\ answered w2
               (get_request ("/requisitions/" +:+ requisition_id +:+ "/") access)
               out
          /\ lines c' = lines c ++ [JsonLine out]).
Proof.
  split.
  - intros redirect institution_id reference user_language.
    unfold cmd_create_requisition. cbv zeta. rewrite runc_in_world_bind.
    destruct (gc_post cfg _ _ (world c)) as [[out|e] w'] eqn:Hpost; [|discriminate].
    intros [= <-]. rewrite gc_post_run in Hpost.
    apply (authorized_returns cfg
             (fun access => post_request "/requisitions/" access _)) in Hpost
      as (refresh & w1 & reply & access & _ & _ & _ & Hout & ->).
    by exists access, out, (sent (token_refresh_request refresh) w1).
  - intros requisition_id.
    unfold cmd_requisition. rewrite runc_in_world_bind.
    destruct (gc_get cfg _ (world c)) as [[out|e] w'] eqn:Hget; [|discriminate].
    intros [= <-]. rewrite gc_get_run in Hget.
    apply (authorized_returns cfg
             (fun access => get_request _ access)) in Hget
      as (refresh & w1 & reply & access & _ & _ & _ & Hout & ->).
    by exists access, out, (sent (token_refresh_request refresh) w1).
Qed.

(** X23 for a new requisition at the institution [ALFA_PT]: the reply of
    the server is printed. *)
Lemma requisition_commands_print_the_reply_witness :
  let c := data_console (JDict (<["id" := JStr "req-1"]> ∅)) in
  let c' := (cmd_create_requisition demo_cfg "https://example.org/" "ALFA_PT"
               "ref-1" "EN" c).2 in
  exists access out w2,
    requests (world c')
    = requests w2
      ++ [post_request "/requisitions/" access
            (requisition_payload "https://example.org/" "ALFA_PT" "ref-1" "EN")]
    /\ answered w2
         (post_request "/requisitions/" access
            (requisition_payload "https://example.org/" "ALFA_PT" "ref-1" "EN"))
         out
    /\ lines c' = lines c ++ [JsonLine out].
Proof.
  cbv zeta.
  apply (proj1 (requisition_commands_print_the_reply demo_cfg
                  (data_console (JDict (<["id" := JStr "req-1"]> ∅)))
                  (cmd_create_requisition demo_cfg "https://example.org/" "ALFA_PT"
                     "ref-1" "EN"
                     (data_console (JDict (<["id" := JStr "req-1"]> ∅)))).2)).
  vm_compute. reflexivity.
Defined.
